(** * Container logistics optimizer: a shallow embedding of
    [python_optimization/container_optimizer.py] and the properties of its
    loader, its three optimizers and its command-line entry point.

    Conventions of the embedding.
    - Python [int] is [Z]; Python [float] (costs, distances) is idealised as
      an exact rational [Q]; [str] is [string].
    - A JSON object of the input payload is a record of optional fields: a key
      is either absent ([None]) or present with a value of the type that the
      dataclass annotations of the source declare for it.
    - A call that may raise returns an [outcome]; [try/except Exception] is a
      [match] on it.
    - The OR-Tools solvers are outside the repository: they are an oracle
      ([Backend]) called on the model that the source builds.
    - Everything printed, and every call into a solver, is recorded in
      chronological order in a list of [event]s. *)

From Stdlib Require Import List String Ascii ZArith QArith Bool Arith Lia
  Permutation.
Import ListNotations.

Local Open Scope string_scope.
Local Open Scope Z_scope.
Local Open Scope list_scope.

Set Implicit Arguments.

(* ================================================================== *)
(** * Python values, exceptions and dictionaries *)
(* ================================================================== *)

Inductive exn : Type :=
| KeyError (key : string)
| IndexError
| LibraryError (msg : string).

(** [str(e)]: a [KeyError] prints the [repr] of its key. *)
Definition str_exn (e : exn) : string :=
  match e with
  | KeyError k => "'" ++ k ++ "'"
  | IndexError => "list index out of range"
  | LibraryError m => m
  end.

Inductive outcome (A : Type) : Type :=
| Return (a : A)
| Raise (e : exn).
Arguments Return {A} a.
Arguments Raise {A} e.

Definition bind {A B} (c : outcome A) (k : A -> outcome B) : outcome B :=
  match c with
  | Return a => k a
  | Raise e => Raise e
  end.

Notation "x <- c ;; k" := (bind c (fun x => k))
  (at level 61, c at next level, right associativity).

(** [d[key]] on a field that may be absent. *)
Definition getitem {A} (key : string) (field : option A) : outcome A :=
  match field with
  | Some v => Return v
  | None => Raise (KeyError key)
  end.

(** [d.get(key, default)]. *)
Definition dict_get {A} (field : option A) (default : A) : A :=
  match field with
  | Some v => v
  | None => default
  end.

(** [l[i]] for [i >= 0]. *)
Definition list_getitem {A} (l : list A) (i : nat) : outcome A :=
  match nth_error l i with
  | Some v => Return v
  | None => Raise IndexError
  end.

(** [for x in xs: body(x)] where the body may raise. *)
Fixpoint mapM {A B} (f : A -> outcome B) (xs : list A) : outcome (list B) :=
  match xs with
  | [] => Return []
  | x :: xs' => y <- f x ;; ys <- mapM f xs' ;; Return (y :: ys)
  end.

(** A Python [dict] with string keys, in insertion order. *)
Definition dict (V : Type) : Type := list (string * V).

Fixpoint dict_set {V} (d : dict V) (k : string) (v : V) : dict V :=
  match d with
  | [] => [(k, v)]
  | (k', v') :: d' =>
      if String.eqb k' k then (k, v) :: d' else (k', v') :: dict_set d' k v
  end.

Fixpoint dict_lookup {V} (d : dict V) (k : string) : option V :=
  match d with
  | [] => None
  | (k', v) :: d' => if String.eqb k' k then Some v else dict_lookup d' k
  end.

Definition keys {V} (d : dict V) : list string := map fst d.

(* ================================================================== *)
(** * Data model: the three dataclasses *)
(* ================================================================== *)

Module Port.
Record t : Type := make {
  name : string;
  current_empty : Z;
  capacity : Z;
  demand_forecast : list Z;
  storage_cost_per_day : Q;
  handling_cost : Q;
  coordinates : Q * Q
}.
End Port.

Module Container.
Record t : Type := make {
  id : string;
  type : string;
  current_port : string;
  dwell_time : Z;
  next_booking_port : option string;
  priority : Z
}.
End Container.

Module Route.
Record t : Type := make {
  from_port : string;
  to_port : string;
  distance_km : Q;
  transport_cost : Q;
  transit_time_hours : Z;
  capacity_teu : Z
}.
End Route.

(** The attributes of a [ContainerOptimizer] instance. *)
Record ContainerOptimizer : Type := {
  ports : dict Port.t;
  containers : list Container.t;
  routes : list Route.t
}.

(** [ContainerOptimizer.__init__]. *)
Definition init : ContainerOptimizer :=
  {| ports := []; containers := []; routes := [] |}.

(* ================================================================== *)
(** * The input payload *)
(* ================================================================== *)

Record port_data : Type := {
  pd_name : option string;
  pd_current_empty : option Z;
  pd_capacity : option Z;
  pd_lstm_forecast : option (list Z);
  pd_storage_cost : option Q;
  pd_handling_cost : option Q;
  pd_lat : option Q;
  pd_lng : option Q
}.

Record container_data : Type := {
  cd_id : option string;
  cd_type : option string;
  cd_current_port : option string;
  cd_dwell_time : option Z;
  cd_next_booking_port : option string;
  cd_priority : option Z
}.

Record route_data : Type := {
  rd_from : option string;
  rd_to : option string;
  rd_distance : option Q;
  rd_cost : option Q;
  rd_transit_time : option Z;
  rd_capacity : option Z
}.

Record relocation : Type := {
  reloc_from_port : option string;
  reloc_to_port : option string;
  reloc_container_count : option Z
}.

Record demand_data : Type := {
  dd_id : option string;
  dd_port : option string;
  dd_required_type : option string;
  dd_priority : option Z
}.

Record payload : Type := {
  p_optimization_type : option string;
  p_ports : option (list port_data);
  p_containers : option (list container_data);
  p_routes : option (list route_data);
  p_relocations : option (list relocation);
  p_demands : option (list demand_data)
}.

(* ================================================================== *)
(** * Output: printed text and events *)
(* ================================================================== *)

(** An f-string: literal pieces and interpolated values. *)
Inductive piece : Type :=
| Lit (s : string)
| Num (z : Z)
| Money (q : Q).

Definition fstring : Type := list piece.

Inductive stream : Type := stdout | stderr.

Inductive solver_call : Type :=
| CreateSolver_SCIP
| MPSolver_Solve
| RoutingModel_new
| Routing_SolveWithParameters.

(** The entries of the returned dictionaries. *)
Record relocation_entry : Type := {
  re_from_port : string;
  re_to_port : string;
  re_container_type : string;
  re_quantity : Z;
  re_day : nat;
  re_priority : string
}.

Record redistribution_solution : Type := {
  rs_status : string;
  rs_total_cost : Q;
  rs_relocations : list relocation_entry;
  rs_storage_plan : dict (dict (list Z));
  rs_recommendations : list fstring
}.

Record fallback : Type := {
  fb_status : string;
  fb_relocations : list relocation_entry;
  fb_recommendations : list fstring
}.

Record assignment_entry : Type := {
  ae_container_id : string;
  ae_demand_id : string;
  ae_from_port : string;
  ae_to_port : string;
  ae_container_type : string;
  ae_cost : Q
}.

(** The dictionary an optimizer returns. A key that only some of the return
    statements of a function set is an [option]. *)
Inductive result : Type :=
| ErrorResult (error : fstring) (fallback_solution : option fallback)
| RedistributionResult (solution : redistribution_solution)
| RoutingResult (routes : list (list relocation)) (total_cost : option Z)
                (total_distance : Z)
| AssignmentResult (assignments : list assignment_entry)
                   (unassigned_containers : list container_data)
                   (unmet_demands : option (list demand_data))
                   (total_cost : option Q).

Inductive text : Type :=
| Text (s : fstring)                    (* print(s) *)
| ErrorJson (msg : string)              (* the JSON text {"error": msg} *)
| ResultJson (indent : nat) (r : result) (* json.dumps(r, indent=...) *).

Inductive event : Type :=
| Emit (to : stream) (t : text)
| Call (c : solver_call).

Definition printed_on (s : stream) (log : list event) : list text :=
  flat_map (fun e => match e with
                     | Emit stdout t => match s with stdout => [t] | stderr => [] end
                     | Emit stderr t => match s with stderr => [t] | stdout => [] end
                     | Call _ => []
                     end) log.

Definition solver_calls (log : list event) : list solver_call :=
  flat_map (fun e => match e with Call c => [c] | Emit _ _ => [] end) log.

(* ================================================================== *)
(** * [load_data] *)
(* ================================================================== *)

Definition make_port (port_data : port_data) : outcome Port.t :=
  name <- getitem "name" (pd_name port_data) ;;
  current_empty <- getitem "current_empty" (pd_current_empty port_data) ;;
  capacity <- getitem "capacity" (pd_capacity port_data) ;;
  demand_forecast <- getitem "lstm_forecast" (pd_lstm_forecast port_data) ;;
  storage_cost_per_day <- getitem "storage_cost" (pd_storage_cost port_data) ;;
  handling_cost <- getitem "handling_cost" (pd_handling_cost port_data) ;;
  lat <- getitem "lat" (pd_lat port_data) ;;
  lng <- getitem "lng" (pd_lng port_data) ;;
  Return (Port.make name current_empty capacity demand_forecast
            storage_cost_per_day handling_cost (lat, lng)).

Definition make_container (container_data : container_data) : outcome Container.t :=
  id <- getitem "id" (cd_id container_data) ;;
  type <- getitem "type" (cd_type container_data) ;;
  current_port <- getitem "current_port" (cd_current_port container_data) ;;
  dwell_time <- getitem "dwell_time" (cd_dwell_time container_data) ;;
  priority <- getitem "priority" (cd_priority container_data) ;;
  Return (Container.make id type current_port dwell_time
            (cd_next_booking_port container_data) priority).

Definition make_route (route_data : route_data) : outcome Route.t :=
  from_port <- getitem "from" (rd_from route_data) ;;
  to_port <- getitem "to" (rd_to route_data) ;;
  distance_km <- getitem "distance" (rd_distance route_data) ;;
  transport_cost <- getitem "cost" (rd_cost route_data) ;;
  transit_time_hours <- getitem "transit_time" (rd_transit_time route_data) ;;
  capacity_teu <- getitem "capacity" (rd_capacity route_data) ;;
  Return (Route.make from_port to_port distance_km transport_cost
            transit_time_hours capacity_teu).

Definition store_port (p : Port.t) (self : ContainerOptimizer) : ContainerOptimizer :=
  {| ports := dict_set (ports self) (Port.name p) p;
     containers := containers self;
     routes := routes self |}.

Definition append_container (c : Container.t) (self : ContainerOptimizer) : ContainerOptimizer :=
  {| ports := ports self;
     containers := containers self ++ [c];
     routes := routes self |}.

Definition append_route (r : Route.t) (self : ContainerOptimizer) : ContainerOptimizer :=
  {| ports := ports self;
     containers := containers self;
     routes := routes self ++ [r] |}.

(** One [for] loop of [load_data]: each entry is parsed and stored in turn;
    what was stored before an entry raises stays stored. *)
Fixpoint load_loop {D R} (parse : D -> outcome R)
    (store : R -> ContainerOptimizer -> ContainerOptimizer)
    (entries : list D) (self : ContainerOptimizer)
  : outcome unit * ContainerOptimizer :=
  match entries with
  | [] => (Return tt, self)
  | d :: rest =>
      match parse d with
      | Return r => load_loop parse store rest (store r self)
      | Raise e => (Raise e, self)
      end
  end.

(** The body of the [try] of [load_data]. *)
Definition load_body (data : payload) (self : ContainerOptimizer)
  : outcome unit * ContainerOptimizer :=
  match load_loop make_port store_port (dict_get (p_ports data) []) self with
  | (Raise e, self1) => (Raise e, self1)
  | (Return _, self1) =>
      match load_loop make_container append_container
              (dict_get (p_containers data) []) self1 with
      | (Raise e, self2) => (Raise e, self2)
      | (Return _, self2) =>
          load_loop make_route append_route (dict_get (p_routes data) []) self2
      end
  end.

Definition load_data (data : payload) (self : ContainerOptimizer)
  : bool * ContainerOptimizer * list event :=
  match load_body data self with
  | (Return _, self') => (true, self', [])
  | (Raise e, self') =>
      (false, self',
       [Emit stderr (Text [Lit "Error loading data: "; Lit (str_exn e)])])
  end.

(** ** What the loader requires of an entry *)

Definition is_some {A} (o : option A) : bool :=
  match o with Some _ => true | None => false end.

Definition port_complete (d : port_data) : bool :=
  is_some (pd_name d) && is_some (pd_current_empty d) && is_some (pd_capacity d)
  && is_some (pd_lstm_forecast d) && is_some (pd_storage_cost d)
  && is_some (pd_handling_cost d) && is_some (pd_lat d) && is_some (pd_lng d).

Definition container_complete (d : container_data) : bool :=
  is_some (cd_id d) && is_some (cd_type d) && is_some (cd_current_port d)
  && is_some (cd_dwell_time d) && is_some (cd_priority d).

Definition route_complete (d : route_data) : bool :=
  is_some (rd_from d) && is_some (rd_to d) && is_some (rd_distance d)
  && is_some (rd_cost d) && is_some (rd_transit_time d) && is_some (rd_capacity d).

(** The entries a payload declares: those of the keys that are present. *)
Definition declared {A} (field : option (list A)) : list A :=
  match field with Some l => l | None => [] end.

Definition entries_complete (data : payload) : bool :=
  forallb port_complete (declared (p_ports data))
  && forallb container_complete (declared (p_containers data))
  && forallb route_complete (declared (p_routes data)).

(** The payload in which every missing collection is an empty list. *)
Definition with_empty_defaults (data : payload) : payload :=
  {| p_optimization_type := p_optimization_type data;
     p_ports := Some (declared (p_ports data));
     p_containers := Some (declared (p_containers data));
     p_routes := Some (declared (p_routes data));
     p_relocations := p_relocations data;
     p_demands := p_demands data |}.

Definition some_key_missing (data : payload) : bool :=
  negb (is_some (p_ports data)) || negb (is_some (p_containers data))
  || negb (is_some (p_routes data)).

(* ================================================================== *)
(** * The linear solver (pywraplp) as seen from the source *)
(* ================================================================== *)

(** The decision variables the source creates: [flow[from][to][ctype][t]],
    [storage[port][ctype][t]] and [x[i][j]]. *)
Inductive var : Type :=
| flow_var (from_port to_port ctype : string) (t : nat)
| storage_var (port ctype : string) (t : nat)
| assign_var (i j : nat).

(** Linear expressions as the source writes them: [solver.Sum([...])] over
    variables, [+] and [-]. *)
Inductive linexpr : Type :=
| LConst (c : Z)
| LVar (v : var)
| LSum (vs : list var)
| LAdd (a b : linexpr)
| LSub (a b : linexpr).

Inductive constraint : Type :=
| CEq (lhs rhs : linexpr)      (* solver.Add(lhs == rhs) *)
| CLe (lhs rhs : linexpr)      (* solver.Add(lhs <= rhs) *).

Record MPModel : Type := {
  int_vars : list (var * (Z * Z));     (* solver.IntVar(lb, ub, name) *)
  objective : list (Q * var);          (* solver.Minimize(solver.Sum(terms)) *)
  constraints : list constraint
}.

Inductive ResultStatus : Type :=
| OPTIMAL | FEASIBLE | INFEASIBLE | UNBOUNDED | ABNORMAL | MODEL_INVALID
| NOT_SOLVED.

Definition status_code (s : ResultStatus) : Z :=
  match s with
  | OPTIMAL => 0 | FEASIBLE => 1 | INFEASIBLE => 2 | UNBOUNDED => 3
  | ABNORMAL => 4 | MODEL_INVALID => 5 | NOT_SOLVED => 6
  end.

Definition is_optimal (s : ResultStatus) : bool :=
  match s with OPTIMAL => true | _ => false end.

Fixpoint zsum (l : list Z) : Z :=
  match l with
  | [] => 0
  | x :: rest => x + zsum rest
  end.

Fixpoint eval (val : var -> Z) (e : linexpr) : Z :=
  match e with
  | LConst c => c
  | LVar v => val v
  | LSum vs => zsum (map val vs)
  | LAdd a b => eval val a + eval val b
  | LSub a b => eval val a - eval val b
  end.

Definition holdsb (val : var -> Z) (c : constraint) : bool :=
  match c with
  | CEq a b => eval val a =? eval val b
  | CLe a b => eval val a <=? eval val b
  end.

Definition in_boundsb (val : var -> Z) (b : var * (Z * Z)) : bool :=
  let '(v, (lb, ub)) := b in (lb <=? val v) && (val v <=? ub).

(** [val] is a feasible point of the model. *)
Definition feasibleb (m : MPModel) (val : var -> Z) : bool :=
  forallb (in_boundsb val) (int_vars m) && forallb (holdsb val) (constraints m).

(** [solver.Objective().Value()]. *)
Definition objective_value (m : MPModel) (val : var -> Z) : Q :=
  fold_right Qplus (0#1)%Q
    (map (fun cv => Qmult (fst cv) (inject_Z (val (snd cv)))) (objective m)).

(** The library. [CreateSolver] is false when [Solver.CreateSolver('SCIP')]
    returns no solver; [build] stands for the calls that hand the variables,
    the objective and the constraints to the library while the model is
    constructed, [solution_value] for the calls that read the values back;
    each call may raise. *)
Record Backend : Type := {
  CreateSolver : bool;
  build : MPModel -> outcome unit;
  Solve : MPModel -> outcome ResultStatus;
  solution_value : MPModel -> outcome (var -> Z)
}.

(** The contract of the library: the values read back after an [OPTIMAL]
    solve satisfy the bounds of every variable and every constraint added. *)
Definition sound (B : Backend) : Prop :=
  forall m val,
    Solve B m = Return OPTIMAL ->
    solution_value B m = Return val ->
    feasibleb m val = true.

(** A library that proposes the point [candidate] and reports [OPTIMAL]
    exactly when that point is feasible. *)
Definition checking_backend (candidate : var -> Z) : Backend :=
  {| CreateSolver := true;
     build := fun _ => Return tt;
     Solve := fun m => Return (if feasibleb m candidate then OPTIMAL else INFEASIBLE);
     solution_value := fun _ => Return candidate |}.

(* ================================================================== *)
(** * Route lookups *)
(* ================================================================== *)

Definition route_matches (from_port to_port : string) (route : Route.t) : bool :=
  String.eqb (Route.from_port route) from_port
  && String.eqb (Route.to_port route) to_port.

(** [x = default; for route in self.routes: if <match>: x = route.<field>; break] *)
Fixpoint route_loop {A} (routes : list Route.t) (from_port to_port : string)
    (default : A) (field : Route.t -> A) : A :=
  match routes with
  | [] => default
  | route :: rest =>
      if route_matches from_port to_port route then field route
      else route_loop rest from_port to_port default field
  end.

(** In the words of the specification, a Route record matches the ordered
    pair when its origin is [from_port] and its destination is [to_port]. *)
Definition joins (route : Route.t) (from_port to_port : string) : Prop :=
  Route.from_port route = from_port /\ Route.to_port route = to_port.

Definition joins_dec (route : Route.t) (from_port to_port : string)
  : {joins route from_port to_port} + {~ joins route from_port to_port} :=
  match string_dec (Route.from_port route) from_port,
        string_dec (Route.to_port route) to_port with
  | left same_origin, left same_destination =>
      left (conj same_origin same_destination)
  | right other_origin, _ => right (fun H => other_origin (proj1 H))
  | _, right other_destination => right (fun H => other_destination (proj2 H))
  end.

(** The first Route record of the list that matches the ordered pair, if
    there is one. *)
Fixpoint first_matching_route (routes : list Route.t) (from_port to_port : string)
  : option Route.t :=
  match routes with
  | [] => None
  | route :: rest =>
      if joins_dec route from_port to_port then Some route
      else first_matching_route rest from_port to_port
  end.

(* ================================================================== *)
(** * [optimize_container_redistribution] *)
(* ================================================================== *)

Definition time_horizon : nat := 7.

Definition days : list nat := seq 0 time_horizon.

Definition port_names (self : ContainerOptimizer) : list string :=
  keys (ports self).

(** [list(set(c.type for c in self.containers))]: each type once; the order
    of a Python set is unspecified and nothing below depends on it. *)
Definition container_types (self : ContainerOptimizer) : list string :=
  nodup string_dec (map Container.type (containers self)).

Definition flow_vars (names types : list string) : list (var * (Z * Z)) :=
  flat_map (fun from_port =>
    flat_map (fun to_port =>
      if String.eqb from_port to_port then []
      else flat_map (fun ctype =>
             map (fun t => (flow_var from_port to_port ctype t, (0, 1000))) days)
           types)
      names)
    names.

(** [for port in port_names: ... self.ports[port] ...] visits the items of
    the dictionary. *)
Definition storage_vars (self : ContainerOptimizer) (types : list string)
  : list (var * (Z * Z)) :=
  flat_map (fun item : string * Port.t =>
    flat_map (fun ctype =>
      map (fun t => (storage_var (fst item) ctype t, (0, Port.capacity (snd item))))
          days)
      types)
    (ports self).

Definition storage_cost_terms (self : ContainerOptimizer) (types : list string)
  : list (Q * var) :=
  flat_map (fun item : string * Port.t =>
    flat_map (fun ctype =>
      map (fun t => (Port.storage_cost_per_day (snd item),
                     storage_var (fst item) ctype t)) days)
      types)
    (ports self).

Definition transport_cost_terms (self : ContainerOptimizer) (names types : list string)
  : list (Q * var) :=
  flat_map (fun from_port =>
    flat_map (fun to_port =>
      if String.eqb from_port to_port then []
      else
        let route_cost :=
          route_loop (routes self) from_port to_port (50#1)%Q Route.transport_cost in
        flat_map (fun ctype =>
          map (fun t => (route_cost, flow_var from_port to_port ctype t)) days)
          types)
      names)
    names.

Definition current_inventory (self : ContainerOptimizer) (port ctype : string) : Z :=
  Z.of_nat (List.length (filter (fun c =>
    String.eqb (Container.current_port c) port
    && String.eqb (Container.type c) ctype) (containers self))).

(** [[... for other in port_names if other != port]] *)
Definition others (names : list string) (port : string) : list string :=
  filter (fun other => negb (String.eqb other port)) names.

Definition inflow_vars (names : list string) (port ctype : string) (t : nat) : list var :=
  map (fun other => flow_var other port ctype t) (others names port).

Definition outflow_vars (names : list string) (port ctype : string) (t : nat) : list var :=
  map (fun other => flow_var port other ctype t) (others names port).

Definition lstm_demand (port_obj : Port.t) (t : nat) : Z :=
  if (t <? List.length (Port.demand_forecast port_obj))%nat
  then nth t (Port.demand_forecast port_obj) 0
  else 0.

Definition conservation (self : ContainerOptimizer) (names : list string)
    (port : string) (port_obj : Port.t) (ctype : string) (t : nat) : constraint :=
  match t with
  | O =>
      CEq (LVar (storage_var port ctype t))
          (LSub (LAdd (LConst (current_inventory self port ctype))
                      (LSum (inflow_vars names port ctype t)))
                (LSum (outflow_vars names port ctype t)))
  | S t' =>
      CEq (LVar (storage_var port ctype t))
          (LSub (LSub (LAdd (LVar (storage_var port ctype t'))
                            (LSum (inflow_vars names port ctype t)))
                      (LSum (outflow_vars names port ctype t)))
                (LConst (lstm_demand port_obj t)))
  end.

Definition conservation_constraints (self : ContainerOptimizer)
    (names types : list string) : list constraint :=
  flat_map (fun item : string * Port.t =>
    flat_map (fun ctype =>
      map (fun t => conservation self names (fst item) (snd item) ctype t) days)
      types)
    (ports self).

Definition capacity_constraints (self : ContainerOptimizer) (types : list string)
  : list constraint :=
  flat_map (fun item : string * Port.t =>
    map (fun t =>
      CLe (LSum (map (fun ctype => storage_var (fst item) ctype t) types))
          (LConst (Port.capacity (snd item))))
      days)
    (ports self).

Definition route_capacity (self : ContainerOptimizer) (from_port to_port : string) : Z :=
  route_loop (routes self) from_port to_port 100 Route.capacity_teu.

Definition route_capacity_constraints (self : ContainerOptimizer)
    (names types : list string) : list constraint :=
  flat_map (fun from_port =>
    flat_map (fun to_port =>
      if String.eqb from_port to_port then []
      else
        map (fun t =>
          CLe (LSum (map (fun ctype => flow_var from_port to_port ctype t) types))
              (LConst (route_capacity self from_port to_port)))
          days)
      names)
    names.

(** The model that the body of the [try] hands to the solver. *)
Definition redistribution_model (self : ContainerOptimizer) : MPModel :=
  let names := port_names self in
  let types := container_types self in
  {| int_vars := flow_vars names types ++ storage_vars self types;
     objective := storage_cost_terms self types
                  ++ transport_cost_terms self names types;
     constraints := conservation_constraints self names types
                    ++ capacity_constraints self types
                    ++ route_capacity_constraints self names types |}.

(** ** Extraction of the solution *)

Definition relocation_of (val : var -> Z) (from_port to_port ctype : string) (t : nat)
  : list relocation_entry :=
  let flow_value := val (flow_var from_port to_port ctype t) in
  if 0 <? flow_value then
    [{| re_from_port := from_port;
        re_to_port := to_port;
        re_container_type := ctype;
        re_quantity := flow_value;
        re_day := (t + 1)%nat;
        re_priority := if (t <=? 2)%nat then "high" else "medium" |}]
  else [].

Definition extract_relocations (val : var -> Z) (names types : list string)
  : list relocation_entry :=
  flat_map (fun from_port =>
    flat_map (fun to_port =>
      if String.eqb from_port to_port then []
      else flat_map (fun ctype =>
             flat_map (fun t => relocation_of val from_port to_port ctype t) days)
           types)
      names)
    names.

(** [solution["storage_plan"][port][ctype] = [... for t in range(time_horizon)]];
    the ports are the keys of a dictionary and the types the elements of a
    set, so every assignment creates a new key. *)
Definition extract_storage_plan (val : var -> Z) (names types : list string)
  : dict (dict (list Z)) :=
  map (fun port =>
    (port, map (fun ctype =>
             (ctype, map (fun t => val (storage_var port ctype t)) days)) types))
    names.

Definition nonempty {A} (l : list A) : bool :=
  match l with [] => false | _ :: _ => true end.

Definition _generate_recommendations (solution : redistribution_solution)
  : list fstring :=
  (if nonempty (rs_relocations solution) then
     let urgent_relocations :=
       filter (fun r => String.eqb (re_priority r) "high") (rs_relocations solution) in
     (if nonempty urgent_relocations then
        [[Lit "🚨 "; Num (Z.of_nat (List.length urgent_relocations));
          Lit " urgent relocations needed within 3 days"]]
      else [])
     ++ [[Lit "📦 Total optimized movements: ";
          Num (Z.of_nat (List.length (rs_relocations solution)));
          Lit " container relocations"]]
   else [])
  ++ [[Lit "💰 Estimated total cost: $"; Money (rs_total_cost solution)]].

Definition _extract_redistribution_solution (m : MPModel) (val : var -> Z)
    (port_names container_types : list string) : redistribution_solution :=
  let solution :=
    {| rs_status := "optimal";
       rs_total_cost := objective_value m val;
       rs_relocations := extract_relocations val port_names container_types;
       rs_storage_plan := extract_storage_plan val port_names container_types;
       rs_recommendations := [] |} in
  {| rs_status := rs_status solution;
     rs_total_cost := rs_total_cost solution;
     rs_relocations := rs_relocations solution;
     rs_storage_plan := rs_storage_plan solution;
     rs_recommendations := _generate_recommendations solution |}.

Definition _create_fallback_solution : fallback :=
  {| fb_status := "fallback";
     fb_relocations := [];
     fb_recommendations :=
       [[Lit "Optimization solver failed - using simple heuristics"];
        [Lit "Consider manual review of container distribution"];
        [Lit "Check data quality and constraints"]] |}.

(** The [except Exception as e] clause of [optimize_container_redistribution]. *)
Definition redistribution_except (e : exn) (log : list event) : result * list event :=
  (ErrorResult [Lit (str_exn e)] (Some _create_fallback_solution),
   log ++ [Emit stderr (Text [Lit "Error in optimization: "; Lit (str_exn e)])]).

(** The progress line printed inside the [try], before the solve. The
    [print] is taken to succeed; a standard output that cannot encode the
    first character of the line would make it raise, a case this model does
    not have. *)
Definition starting_banner (self : ContainerOptimizer) : event :=
  Emit stdout (Text
    [Lit "🔧 Starting OR-Tools optimization with ";
     Num (Z.of_nat (List.length (containers self)));
     Lit " containers across ";
     Num (Z.of_nat (List.length (port_names self)));
     Lit " ports..."]).

Definition optimize_container_redistribution (B : Backend) (self : ContainerOptimizer)
  : result * list event :=
  if negb (CreateSolver B) then
    (ErrorResult [Lit "SCIP solver not available"] None, [Call CreateSolver_SCIP])
  else
    let m := redistribution_model self in
    match build B m with
    | Raise e => redistribution_except e [Call CreateSolver_SCIP]
    | Return _ =>
        let log := [Call CreateSolver_SCIP; starting_banner self; Call MPSolver_Solve] in
        match Solve B m with
        | Raise e => redistribution_except e log
        | Return status =>
            if is_optimal status then
              match solution_value B m with
              | Raise e => redistribution_except e log
              | Return val =>
                  (RedistributionResult
                     (_extract_redistribution_solution m val
                        (port_names self) (container_types self)),
                   log)
              end
            else
              (ErrorResult [Lit "Optimization failed with status: ";
                            Num (status_code status)]
                           (Some _create_fallback_solution),
               log)
        end
    end.

(* ================================================================== *)
(** * [optimize_vehicle_routing] *)
(* ================================================================== *)

(** What the source hands to the routing library (pywrapcp): the index
    manager's node count, vehicle count and depot, the two callbacks and the
    vehicle capacities. *)
Record RoutingProblem : Type := {
  num_nodes : nat;
  num_vehicles : nat;
  depot : nat;
  distance_callback : nat -> nat -> outcome Z;
  demand_callback : nat -> outcome Z;
  vehicle_capacities : list Z
}.

(** A solution of the library: its objective value and the nodes met when
    following [NextVar] from [routing.Start(0)] until [routing.IsEnd]. *)
Record RoutingSolution : Type := {
  ObjectiveValue : Z;
  visited : list nat
}.

Record RoutingBackend : Type := {
  SolveWithParameters : RoutingProblem -> outcome (option RoutingSolution)
}.

(** [int(x)] of a float: truncation towards zero. Distances are rationals
    here, so every distance is finite; on an infinite or NaN [distance_km]
    Python's [int] raises, a case this model does not have. *)
Definition int_of_Q (q : Q) : Z := Z.quot (Qnum q) (Z.pos (Qden q)).

Definition routing_distance (self : ContainerOptimizer) (relocations : list relocation)
    (from_node to_node : nat) : outcome Z :=
  if (from_node =? 0)%nat || (to_node =? 0)%nat then Return 0
  else
    origin <- list_getitem relocations (from_node - 1) ;;
    from_port <- getitem "from_port" (reloc_from_port origin) ;;
    destination <- list_getitem relocations (to_node - 1) ;;
    to_port <- getitem "to_port" (reloc_to_port destination) ;;
    Return (route_loop (routes self) from_port to_port 1000
              (fun route => int_of_Q (Route.distance_km route))).

Definition routing_demand (relocations : list relocation) (from_node : nat) : outcome Z :=
  if (from_node =? 0)%nat then Return 0
  else
    task <- list_getitem relocations (from_node - 1) ;;
    getitem "container_count" (reloc_container_count task).

Definition routing_problem (self : ContainerOptimizer) (relocations : list relocation)
  : RoutingProblem :=
  {| num_nodes := (List.length relocations + 1)%nat;
     num_vehicles := 1;
     depot := 0;
     distance_callback := routing_distance self relocations;
     demand_callback := routing_demand relocations;
     vehicle_capacities := [100] |}.

(** The [while not routing.IsEnd(index)] loop of [_extract_routing_solution]. *)
Fixpoint walk_route (relocations : list relocation) (nodes : list nat)
  : outcome (list relocation) :=
  match nodes with
  | [] => Return []
  | node :: rest =>
      if (0 <? node)%nat then
        task <- list_getitem relocations (node - 1) ;;
        route <- walk_route relocations rest ;;
        Return (task :: route)
      else walk_route relocations rest
  end.

Definition _extract_routing_solution (solution : RoutingSolution)
    (relocations : list relocation) : outcome result :=
  route <- walk_route relocations (visited solution) ;;
  Return (RoutingResult [route] None (ObjectiveValue solution)).

Definition routing_except (e : exn) (log : list event) : result * list event :=
  (ErrorResult [Lit (str_exn e)] None,
   log ++ [Emit stderr (Text [Lit "Error in vehicle routing: "; Lit (str_exn e)])]).

Definition optimize_vehicle_routing (R : RoutingBackend) (self : ContainerOptimizer)
    (relocations : list relocation) : result * list event :=
  if negb (nonempty relocations) then
    (RoutingResult [] (Some 0) 0, [])
  else
    let log := [Call RoutingModel_new; Call Routing_SolveWithParameters] in
    match SolveWithParameters R (routing_problem self relocations) with
    | Raise e => routing_except e log
    | Return None =>
        (ErrorResult [Lit "No solution found for vehicle routing"] None, log)
    | Return (Some solution) =>
        match _extract_routing_solution solution relocations with
        | Raise e => routing_except e log
        | Return r => (r, log)
        end
    end.

(* ================================================================== *)
(** * [optimize_assignment] *)
(* ================================================================== *)

Definition compatibility_map : dict (list string) :=
  [("20GP", ["20GP"]);
   ("40GP", ["40GP"; "40HC"]);
   ("40HC", ["40HC"; "40GP"])].

Definition _is_compatible (container_type required_type : string) : bool :=
  existsb (String.eqb required_type)
          (dict_get (dict_lookup compatibility_map container_type) []).

Definition _calculate_assignment_cost (self : ContainerOptimizer)
    (container : container_data) (demand : demand_data) : outcome Q :=
  let base_cost := 10 in
  from_port <- getitem "current_port" (cd_current_port container) ;;
  to_port <- getitem "port" (dd_port demand) ;;
  let distance_cost :=
    route_loop (routes self) from_port to_port (0#1)%Q Route.transport_cost in
  container_type <- getitem "type" (cd_type container) ;;
  required_type <- getitem "required_type" (dd_required_type demand) ;;
  let type_penalty := if _is_compatible container_type required_type then 0 else 1000 in
  let urgency_bonus := - dict_get (dd_priority demand) 0 * 5 in
  Return (inject_Z base_cost + distance_cost + inject_Z type_penalty
          + inject_Z urgency_bonus)%Q.

(** [enumerate(l)] *)
Definition enumerate {A} (l : list A) : list (nat * A) :=
  combine (seq 0 (List.length l)) l.

Definition x_vars (n m : nat) : list (var * (Z * Z)) :=
  flat_map (fun i => map (fun j => (assign_var i j, (0, 1))) (seq 0 m)) (seq 0 n).

Definition assignment_objective (self : ContainerOptimizer)
    (containers : list container_data) (demands : list demand_data)
  : outcome (list (Q * var)) :=
  rows <- mapM (fun ic : nat * container_data =>
            mapM (fun jd : nat * demand_data =>
                    cost <- _calculate_assignment_cost self (snd ic) (snd jd) ;;
                    Return (cost, assign_var (fst ic) (fst jd)))
                 (enumerate demands))
          (enumerate containers) ;;
  Return (List.concat rows).

(** Each container can be assigned to at most one demand. *)
Definition container_constraints (n m : nat) : list constraint :=
  map (fun i => CLe (LSum (map (fun j => assign_var i j) (seq 0 m))) (LConst 1))
      (seq 0 n).

(** Each demand can be satisfied by at most one container. *)
Definition demand_constraints (n m : nat) : list constraint :=
  map (fun j => CLe (LSum (map (fun i => assign_var i j) (seq 0 n))) (LConst 1))
      (seq 0 m).

(** Type compatibility constraints. *)
Definition compatibility_constraints
    (containers : list container_data) (demands : list demand_data)
  : outcome (list constraint) :=
  rows <- mapM (fun ic : nat * container_data =>
            cells <- mapM (fun jd : nat * demand_data =>
                       container_type <- getitem "type" (cd_type (snd ic)) ;;
                       required_type <- getitem "required_type"
                                          (dd_required_type (snd jd)) ;;
                       Return (if _is_compatible container_type required_type
                               then []
                               else [CEq (LVar (assign_var (fst ic) (fst jd)))
                                         (LConst 0)]))
                     (enumerate demands) ;;
            Return (List.concat cells))
          (enumerate containers) ;;
  Return (List.concat rows).

Definition assignment_model (self : ContainerOptimizer)
    (containers : list container_data) (demands : list demand_data)
  : outcome MPModel :=
  let n := List.length containers in
  let m := List.length demands in
  terms <- assignment_objective self containers demands ;;
  compat <- compatibility_constraints containers demands ;;
  Return {| int_vars := x_vars n m;
            objective := terms;
            constraints := container_constraints n m
                           ++ demand_constraints n m ++ compat |}.

(** [x[i][j].solution_value() > 0.5] *)
Definition selected (val : var -> Z) (i j : nat) : bool :=
  1 <? 2 * val (assign_var i j).

(** The index pairs for which the double loop of
    [_extract_assignment_solution] appends an entry, in the order of the loop. *)
Definition assigned_pairs (val : var -> Z) (n m : nat) : list (nat * nat) :=
  flat_map (fun i =>
    flat_map (fun j => if selected val i j then [(i, j)] else []) (seq 0 m))
    (seq 0 n).

Definition assignment_entry_of (self : ContainerOptimizer)
    (container : container_data) (demand : demand_data) : outcome assignment_entry :=
  container_id <- getitem "id" (cd_id container) ;;
  demand_id <- getitem "id" (dd_id demand) ;;
  from_port <- getitem "current_port" (cd_current_port container) ;;
  to_port <- getitem "port" (dd_port demand) ;;
  container_type <- getitem "type" (cd_type container) ;;
  cost <- _calculate_assignment_cost self container demand ;;
  Return {| ae_container_id := container_id;
            ae_demand_id := demand_id;
            ae_from_port := from_port;
            ae_to_port := to_port;
            ae_container_type := container_type;
            ae_cost := cost |}.

Definition entry_at (self : ContainerOptimizer)
    (containers : list container_data) (demands : list demand_data)
    (p : nat * nat) : outcome assignment_entry :=
  container <- list_getitem containers (fst p) ;;
  demand <- list_getitem demands (snd p) ;;
  assignment_entry_of self container demand.

(** [[l[i] for i in range(len(l)) if i not in assigned]] *)
Definition not_assigned {A} (assigned : list nat) (l : list A) : list A :=
  map snd (filter (fun ia : nat * A => negb (existsb (Nat.eqb (fst ia)) assigned))
                  (enumerate l)).

Definition _extract_assignment_solution (self : ContainerOptimizer)
    (m : MPModel) (val : var -> Z)
    (containers : list container_data) (demands : list demand_data)
  : outcome result :=
  let pairs := assigned_pairs val (List.length containers) (List.length demands) in
  assignments <- mapM (entry_at self containers demands) pairs ;;
  let assigned_containers := map fst pairs in
  let assigned_demands := map snd pairs in
  Return (AssignmentResult assignments
            (not_assigned assigned_containers containers)
            (Some (not_assigned assigned_demands demands))
            (Some (objective_value m val))).

Definition assignment_except (e : exn) (log : list event) : result * list event :=
  (ErrorResult [Lit (str_exn e)] None,
   log ++ [Emit stderr (Text [Lit "Error in assignment optimization: ";
                               Lit (str_exn e)])]).

Definition optimize_assignment (B : Backend) (self : ContainerOptimizer)
    (containers : list container_data) (demands : list demand_data)
  : result * list event :=
  if negb (nonempty containers) || negb (nonempty demands) then
    (AssignmentResult [] containers None None, [])
  else if negb (CreateSolver B) then
    (ErrorResult [Lit "Assignment solver not available"] None,
     [Call CreateSolver_SCIP])
  else
    match (m <- assignment_model self containers demands ;;
           _ <- build B m ;; Return m) with
    | Raise e => assignment_except e [Call CreateSolver_SCIP]
    | Return m =>
        let log := [Call CreateSolver_SCIP; Call MPSolver_Solve] in
        match Solve B m with
        | Raise e => assignment_except e log
        | Return status =>
            if is_optimal status then
              match (val <- solution_value B m ;;
                     _extract_assignment_solution self m val containers demands) with
              | Raise e => assignment_except e log
              | Return r => (r, log)
              end
            else
              (ErrorResult [Lit "Assignment optimization failed: ";
                            Num (status_code status)] None,
               log)
        end
    end.

(* ================================================================== *)
(** * The command line: [main] *)
(* ================================================================== *)

(** [argv] is [sys.argv]; [read_json path] is [json.load(open(path))]. The
    result is what was printed and the exit status of the process. *)
Definition main (B : Backend) (R : RoutingBackend)
    (argv : list string) (read_json : string -> outcome payload)
  : list event * Z :=
  match argv with
  | [] | [_] =>
      ([Emit stderr (Text
          [Lit "Usage: python container_optimizer.py <input_json_file>"])], 1)
  | _ :: path :: _ =>
      match read_json path with
      | Raise e => ([Emit stderr (ErrorJson (str_exn e))], 1)
      | Return input_data =>
          let '(loaded, optimizer, log1) := load_data input_data init in
          if negb loaded then
            (log1 ++ [Emit stdout (ErrorJson "Failed to load input data")], 1)
          else
            let optimization_type :=
              dict_get (p_optimization_type input_data) "redistribution" in
            let '(result, log2) :=
              if String.eqb optimization_type "redistribution" then
                optimize_container_redistribution B optimizer
              else if String.eqb optimization_type "routing" then
                optimize_vehicle_routing R optimizer
                  (dict_get (p_relocations input_data) [])
              else if String.eqb optimization_type "assignment" then
                optimize_assignment B optimizer
                  (dict_get (p_containers input_data) [])
                  (dict_get (p_demands input_data) [])
              else
                (ErrorResult [Lit "Unknown optimization type: ";
                              Lit optimization_type] None, [])
            in
            (log1 ++ log2 ++ [Emit stdout (ResultJson 2 result)], 0)
      end
  end.

(* ================================================================== *)
(** * Reading the returned dictionaries *)
(* ================================================================== *)

(** The result carries an error message and a fallback solution whose
    relocations are empty and whose status flag is "fallback". *)
Definition error_with_fallback (r : result) : bool :=
  match r with
  | ErrorResult _ (Some fb) =>
      negb (nonempty (fb_relocations fb)) && String.eqb (fb_status fb) "fallback"
  | _ => false
  end.

(** The result has the shape of a successful redistribution. *)
Definition success_shaped (r : result) : bool :=
  match r with RedistributionResult _ => true | _ => false end.

(** The ways the redistribution solve can fail once a solver exists: a
    library call raises while the model is built, [Solve] raises or ends
    with a status other than [OPTIMAL], or reading the values raises. *)
Definition solve_fails (B : Backend) (m : MPModel) : Prop :=
  (exists e, build B m = Raise e)
  \/ (exists e, Solve B m = Raise e)
  \/ (exists s, Solve B m = Return s /\ is_optimal s = false)
  \/ (exists e, solution_value B m = Raise e).

Definition result_routes (r : result) : option (list (list relocation)) :=
  match r with RoutingResult routes _ _ => Some routes | _ => None end.

Definition result_unmet_demands (r : result) : option (list demand_data) :=
  match r with AssignmentResult _ _ unmet _ => unmet | _ => None end.

(** The printed text is a JSON object with an [error] key. *)
Definition is_json_error (t : text) : bool :=
  match t with
  | ErrorJson _ => true
  | ResultJson _ (ErrorResult _ _) => true
  | _ => false
  end.

(** The fixed compatibility table in the words of the specification. *)
Definition compatible_by_table (container_type required_type : string) : Prop :=
  (container_type = "20GP" /\ required_type = "20GP")
  \/ (container_type = "40GP" /\ (required_type = "40GP" \/ required_type = "40HC"))
  \/ (container_type = "40HC" /\ (required_type = "40HC" \/ required_type = "40GP")).

Definition known_type (container_type : string) : Prop :=
  container_type = "20GP" \/ container_type = "40GP" \/ container_type = "40HC".

Definition and_dec {P1 P2 : Prop} (p1 : {P1} + {~ P1}) (p2 : {P2} + {~ P2})
  : {P1 /\ P2} + {~ (P1 /\ P2)} :=
  match p1, p2 with
  | left yes1, left yes2 => left (conj yes1 yes2)
  | right no1, _ => right (fun H => no1 (proj1 H))
  | _, right no2 => right (fun H => no2 (proj2 H))
  end.

Definition or_dec {P1 P2 : Prop} (p1 : {P1} + {~ P1}) (p2 : {P2} + {~ P2})
  : {P1 \/ P2} + {~ (P1 \/ P2)} :=
  match p1, p2 with
  | left yes1, _ => left (or_introl yes1)
  | _, left yes2 => left (or_intror yes2)
  | right no1, right no2 =>
      right (fun H => match H with or_introl h => no1 h | or_intror h => no2 h end)
  end.

(** Whether the table lists the pair is decided by comparing the two type
    names with the entries of the table. *)
Definition compatible_by_table_dec (container_type required_type : string)
  : {compatible_by_table container_type required_type}
    + {~ compatible_by_table container_type required_type} :=
  or_dec
    (and_dec (string_dec container_type "20GP") (string_dec required_type "20GP"))
    (or_dec
       (and_dec (string_dec container_type "40GP")
                (or_dec (string_dec required_type "40GP")
                        (string_dec required_type "40HC")))
       (and_dec (string_dec container_type "40HC")
                (or_dec (string_dec required_type "40HC")
                        (string_dec required_type "40GP")))).

(** The assignment cost in the words of the specification: 10, plus the
    transport cost of the first matching Route or 0, plus 1000 when the types
    are incompatible, minus 5 times the priority of the demand. *)
Definition specified_cost (routes : list Route.t)
    (from_port to_port container_type required_type : string) (priority : Z) : Q :=
  (inject_Z 10
   + match first_matching_route routes from_port to_port with
     | Some route => Route.transport_cost route
     | None => 0#1
     end
   + (if compatible_by_table_dec container_type required_type
      then 0#1 else inject_Z 1000)
   - inject_Z 5 * inject_Z priority)%Q.

(** [cost] is the specified cost of pairing [container] with [demand]: both
    carry the fields the cost reads, and a demand without a priority counts
    as priority 0, as [demand.get('priority', 0)] does. *)
Definition pair_cost (self : ContainerOptimizer)
    (container : container_data) (demand : demand_data) (cost : Q) : Prop :=
  exists from_port to_port container_type required_type,
    cd_current_port container = Some from_port
    /\ dd_port demand = Some to_port
    /\ cd_type container = Some container_type
    /\ dd_required_type demand = Some required_type
    /\ cost = specified_cost (routes self) from_port to_port
                container_type required_type (dict_get (dd_priority demand) 0).

(** Container [i] has type [container_type] and demand [j] requires
    [required_type]. *)
Definition pair_types (containers : list container_data)
    (demands : list demand_data) (i j : nat)
    (container_type required_type : string) : Prop :=
  exists c d,
    nth_error containers i = Some c
    /\ nth_error demands j = Some d
    /\ cd_type c = Some container_type
    /\ dd_required_type d = Some required_type.

(** ** Flows and storage read off a returned redistribution solution *)

(** The total quantity of the relocations that satisfy [p]. *)
Definition quantity_where (p : relocation_entry -> bool)
    (relocations : list relocation_entry) : Z :=
  zsum (map re_quantity (filter p relocations)).

(** A relocation of loop day [t] is reported with [day = t + 1]. *)
Definition on_day (t : nat) (r : relocation_entry) : bool :=
  (re_day r =? t + 1)%nat.

(** What the returned relocations bring into [port], of type [ctype], on day [t]. *)
Definition inflow (solution : redistribution_solution)
    (port ctype : string) (t : nat) : Z :=
  quantity_where (fun r => String.eqb (re_to_port r) port
                           && String.eqb (re_container_type r) ctype
                           && on_day t r)
                 (rs_relocations solution).

(** What the returned relocations take out of [port], of type [ctype], on day [t]. *)
Definition outflow (solution : redistribution_solution)
    (port ctype : string) (t : nat) : Z :=
  quantity_where (fun r => String.eqb (re_from_port r) port
                           && String.eqb (re_container_type r) ctype
                           && on_day t r)
                 (rs_relocations solution).

(** What the returned relocations move from [from_port] to [to_port] on day
    [t], all container types together. *)
Definition pair_flow (solution : redistribution_solution)
    (from_port to_port : string) (t : nat) : Z :=
  quantity_where (fun r => String.eqb (re_from_port r) from_port
                           && String.eqb (re_to_port r) to_port
                           && on_day t r)
                 (rs_relocations solution).

(** [storage_plan[port][ctype][t]] *)
Definition planned_storage (solution : redistribution_solution)
    (port ctype : string) (t : nat) : option Z :=
  match dict_lookup (rs_storage_plan solution) port with
  | Some by_type =>
      match dict_lookup by_type ctype with
      | Some series => nth_error series t
      | None => None
      end
  | None => None
  end.

(** The sum over the container types of [storage_plan[port]] of the storage
    on day [t]. *)
Definition port_storage (solution : redistribution_solution)
    (port : string) (t : nat) : option Z :=
  match dict_lookup (rs_storage_plan solution) port with
  | Some by_type =>
      Some (zsum (map (fun entry : string * list Z => nth t (snd entry) 0) by_type))
  | None => None
  end.

(** The capacity of an ordered pair in the words of the specification: the
    [capacity_teu] of the first matching Route record, or 100. *)
Definition specified_route_capacity (routes : list Route.t)
    (from_port to_port : string) : Z :=
  match first_matching_route routes from_port to_port with
  | Some route => Route.capacity_teu route
  | None => 100
  end.

(* ================================================================== *)
(** * Sample inputs *)
(* ================================================================== *)

Definition sample_container : container_data :=
  {| cd_id := Some "C1"; cd_type := Some "20GP"; cd_current_port := Some "A";
     cd_dwell_time := Some 3; cd_next_booking_port := None;
     cd_priority := Some 5 |}.

Definition empty_port_data : port_data :=
  {| pd_name := None; pd_current_empty := None; pd_capacity := None;
     pd_lstm_forecast := None; pd_storage_cost := None;
     pd_handling_cost := None; pd_lat := None; pd_lng := None |}.

(** Only [containers] is present. *)
Definition payload_containers_only : payload :=
  {| p_optimization_type := None; p_ports := None;
     p_containers := Some [sample_container]; p_routes := None;
     p_relocations := None; p_demands := None |}.

(** A port entry without any field. *)
Definition payload_bad_port : payload :=
  {| p_optimization_type := None; p_ports := Some [empty_port_data];
     p_containers := None; p_routes := None;
     p_relocations := None; p_demands := None |}.


(** No solver can be created. *)
Definition unavailable_backend : Backend :=
  {| CreateSolver := false;
     build := fun _ => Return tt;
     Solve := fun _ => Return NOT_SOLVED;
     solution_value := fun _ => Raise (LibraryError "no solver") |}.

(** A routing library that finds no route. *)
Definition idle_routing : RoutingBackend :=
  {| SolveWithParameters := fun _ => Return None |}.

Definition sample_demand : demand_data :=
  {| dd_id := Some "D1"; dd_port := Some "B"; dd_required_type := Some "20GP";
     dd_priority := Some 2 |}.

Definition sample_payload : payload :=
  {| p_optimization_type := Some "redistribution";
     p_ports :=
       Some [ {| pd_name := Some "A"; pd_current_empty := Some 20;
                 pd_capacity := Some 100;
                 pd_lstm_forecast := Some [0; 0; 0; 0; 0; 0; 0];
                 pd_storage_cost := Some (2#1)%Q; pd_handling_cost := Some (1#1)%Q;
                 pd_lat := Some (10#1)%Q; pd_lng := Some (106#1)%Q |};
              {| pd_name := Some "B"; pd_current_empty := Some 5;
                 pd_capacity := Some 100;
                 pd_lstm_forecast := Some [0; 1; 0; 0; 0; 0; 0];
                 pd_storage_cost := Some (3#1)%Q; pd_handling_cost := Some (1#1)%Q;
                 pd_lat := Some (21#1)%Q; pd_lng := Some (105#1)%Q |} ];
     p_containers := Some [sample_container];
     p_routes :=
       Some [ {| rd_from := Some "A"; rd_to := Some "B";
                 rd_distance := Some (1500#1)%Q; rd_cost := Some (25#2)%Q;
                 rd_transit_time := Some 48; rd_capacity := Some 50 |} ];
     p_relocations := None;
     p_demands := Some [sample_demand] |}.

(** The optimizer after [load_data] on the sample payload. *)
Definition sample_network : ContainerOptimizer :=
  snd (fst (load_data sample_payload init)).

(** Move the one container from A to B on day 0; B keeps it until day 1. *)
Definition sample_plan (v : var) : Z :=
  match v with
  | flow_var f t c d =>
      if String.eqb f "A" && String.eqb t "B" && String.eqb c "20GP" && (d =? 0)%nat
      then 1 else 0
  | storage_var p c d =>
      if String.eqb p "B" && String.eqb c "20GP" && (d =? 0)%nat then 1 else 0
  | assign_var _ _ => 0
  end.

(** Assign container 0 to demand 0. *)
Definition sample_matching (v : var) : Z :=
  match v with
  | assign_var 0 0 => 1
  | _ => 0
  end.

(** A container of a type outside the compatibility table. *)
Definition odd_container : container_data :=
  {| cd_id := Some "C9"; cd_type := Some "45HC"; cd_current_port := Some "A";
     cd_dwell_time := Some 1; cd_next_booking_port := None;
     cd_priority := Some 1 |}.

(** A container that waits at B, from where the sample network has no
    route, and a demand at A. *)
Definition returning_container : container_data :=
  {| cd_id := Some "C2"; cd_type := Some "20GP"; cd_current_port := Some "B";
     cd_dwell_time := Some 2; cd_next_booking_port := None;
     cd_priority := Some 1 |}.

Definition demand_at_a : demand_data :=
  {| dd_id := Some "D2"; dd_port := Some "A"; dd_required_type := Some "20GP";
     dd_priority := Some 1 |}.

(** Two containers wait at B; the only route goes from A to B and carries one
    container a day; no port forecasts a demand. *)
Definition return_payload : payload :=
  {| p_optimization_type := Some "redistribution";
     p_ports :=
       Some [ {| pd_name := Some "A"; pd_current_empty := Some 0;
                 pd_capacity := Some 100;
                 pd_lstm_forecast := Some [0; 0; 0; 0; 0; 0; 0];
                 pd_storage_cost := Some (2#1)%Q; pd_handling_cost := Some (1#1)%Q;
                 pd_lat := Some (10#1)%Q; pd_lng := Some (106#1)%Q |};
              {| pd_name := Some "B"; pd_current_empty := Some 2;
                 pd_capacity := Some 100;
                 pd_lstm_forecast := Some [0; 0; 0; 0; 0; 0; 0];
                 pd_storage_cost := Some (3#1)%Q; pd_handling_cost := Some (1#1)%Q;
                 pd_lat := Some (21#1)%Q; pd_lng := Some (105#1)%Q |} ];
     p_containers :=
       Some [ returning_container;
              {| cd_id := Some "C3"; cd_type := Some "20GP";
                 cd_current_port := Some "B"; cd_dwell_time := Some 2;
                 cd_next_booking_port := None; cd_priority := Some 1 |} ];
     p_routes :=
       Some [ {| rd_from := Some "A"; rd_to := Some "B";
                 rd_distance := Some (1500#1)%Q; rd_cost := Some (25#2)%Q;
                 rd_transit_time := Some 48; rd_capacity := Some 1 |} ];
     p_relocations := None;
     p_demands := None |}.

Definition return_network : ContainerOptimizer :=
  snd (fst (load_data return_payload init)).

(** Move the two containers from B to A on day 0; A keeps them. *)
Definition return_plan (v : var) : Z :=
  match v with
  | flow_var f t c d =>
      if String.eqb f "B" && String.eqb t "A" && String.eqb c "20GP" && (d =? 0)%nat
      then 2 else 0
  | storage_var p c d =>
      if String.eqb p "A" && String.eqb c "20GP" then 2 else 0
  | assign_var _ _ => 0
  end.

(* ================================================================== *)
(** * Further readings of the loader *)
(* ================================================================== *)

(** The entries parsed before the first one that raises. *)
Fixpoint parsed_prefix {D R} (parse : D -> outcome R) (entries : list D) : list R :=
  match entries with
  | [] => []
  | d :: rest =>
      match parse d with
      | Return r => r :: parsed_prefix parse rest
      | Raise _ => []
      end
  end.

(** The last port called [name] among [ps]. *)
Definition last_port_named (name : string) (ps : list Port.t) : option Port.t :=
  find (fun p => String.eqb (Port.name p) name) (rev ps).

(** The optimizer after [load_data]. *)
Definition loaded (data : payload) (self : ContainerOptimizer) : ContainerOptimizer :=
  snd (fst (load_data data self)).

(** The flag [load_data] returns. *)
Definition load_flag (data : payload) (self : ContainerOptimizer) : bool :=
  fst (fst (load_data data self)).

(** Port A is declared twice, with capacity 100 and then 7. *)
Definition payload_port_twice : payload :=
  {| p_optimization_type := None;
     p_ports :=
       Some [ {| pd_name := Some "A"; pd_current_empty := Some 20;
                 pd_capacity := Some 100;
                 pd_lstm_forecast := Some [0; 0; 0; 0; 0; 0; 0];
                 pd_storage_cost := Some (2#1)%Q; pd_handling_cost := Some (1#1)%Q;
                 pd_lat := Some (10#1)%Q; pd_lng := Some (106#1)%Q |};
              {| pd_name := Some "A"; pd_current_empty := Some 3;
                 pd_capacity := Some 7;
                 pd_lstm_forecast := Some [];
                 pd_storage_cost := Some (2#1)%Q; pd_handling_cost := Some (1#1)%Q;
                 pd_lat := Some (10#1)%Q; pd_lng := Some (106#1)%Q |} ];
     p_containers := None; p_routes := None;
     p_relocations := None; p_demands := None |}.

Definition container_without_type : container_data :=
  {| cd_id := Some "C2"; cd_type := None; cd_current_port := Some "A";
     cd_dwell_time := Some 1; cd_next_booking_port := None;
     cd_priority := Some 1 |}.

(** The second container has no type. *)
Definition payload_bad_second_container : payload :=
  {| p_optimization_type := Some "assignment";
     p_ports := p_ports sample_payload;
     p_containers := Some [sample_container; container_without_type; odd_container];
     p_routes := p_routes sample_payload;
     p_relocations := None;
     p_demands := Some [sample_demand] |}.

(* ================================================================== *)
(** * Further readings of the redistribution result *)
(* ================================================================== *)

(** A relocation entry as the extraction can produce it. *)
Definition well_formed_relocation (self : ContainerOptimizer)
    (r : relocation_entry) : Prop :=
  In (re_from_port r) (port_names self)
  /\ In (re_to_port r) (port_names self)
  /\ re_from_port r <> re_to_port r
  /\ In (re_container_type r) (container_types self)
  /\ 1 <= re_quantity r <= 1000
  /\ (1 <= re_day r <= 7)%nat
  /\ re_priority r = (if (re_day r <=? 3)%nat then "high" else "medium").

(** The key under which a relocation is reported. *)
Definition relocation_key (r : relocation_entry) : string * string * string * nat :=
  (re_from_port r, re_to_port r, re_container_type r, re_day r).

(** The storage planned for a type on a day, all ports together. *)
Definition plan_total (solution : redistribution_solution)
    (ctype : string) (t : nat) : Z :=
  zsum (map (fun by_port : string * dict (list Z) =>
               match dict_lookup (snd by_port) ctype with
               | Some series => nth t series 0
               | None => 0
               end)
            (rs_storage_plan solution)).

(** The loaded containers of a type that stand at a port of the optimizer. *)
Definition loaded_total (self : ContainerOptimizer) (ctype : string) : Z :=
  zsum (map (fun port => current_inventory self port ctype) (port_names self)).

(** The forecast demand of day [t], all ports together. *)
Definition demand_on (self : ContainerOptimizer) (t : nat) : Z :=
  zsum (map (fun item : string * Port.t =>
               nth t (Port.demand_forecast (snd item)) 0) (ports self)).

(** The forecast demand of the days [1 .. t], all ports together. *)
Fixpoint demand_through (self : ContainerOptimizer) (t : nat) : Z :=
  match t with
  | O => 0
  | S t' => demand_through self t' + demand_on self t
  end.

(** One port of capacity -1 and no container. *)
Definition negative_capacity_network : ContainerOptimizer :=
  {| ports := [("A", Port.make "A" 0 (-1) [] (1#1) (1#1) (0#1, 0#1))];
     containers := [];
     routes := [] |}.

(** One container at the only port, which forecasts a demand of 2 on day 1. *)
Definition starved_network : ContainerOptimizer :=
  {| ports := [("A", Port.make "A" 0 10 [0; 2] (1#1) (1#1) (0#1, 0#1))];
     containers := [Container.make "C1" "20GP" "A" 0 None 1];
     routes := [] |}.

(** One container at the only port, no demand. *)
Definition lonely_network : ContainerOptimizer :=
  {| ports := [("A", Port.make "A" 0 10 [] (1#1) (1#1) (0#1, 0#1))];
     containers := [Container.make "C1" "20GP" "A" 0 None 1];
     routes := [] |}.

(** Every storage is 1, every flow 0. *)
Definition keep_one (v : var) : Z :=
  match v with
  | storage_var _ _ _ => 1
  | _ => 0
  end.

(** The relocation is due within the first three days. *)
Definition within_three_days (r : relocation_entry) : bool :=
  (re_day r <=? 3)%nat.

(** The recommendations in terms of the days of the relocations. *)
Definition recommendations_for (relocations : list relocation_entry)
    (total_cost : Q) : list fstring :=
  (if nonempty relocations then
     let urgent := List.length (filter within_three_days relocations) in
     (if (0 <? urgent)%nat then
        [[Lit "🚨 "; Num (Z.of_nat urgent);
          Lit " urgent relocations needed within 3 days"]]
      else [])
     ++ [[Lit "📦 Total optimized movements: ";
          Num (Z.of_nat (List.length relocations));
          Lit " container relocations"]]
   else [])
  ++ [[Lit "💰 Estimated total cost: $"; Money total_cost]].

(** The optimizer with every field that the redistribution never reads
    blanked: [current_empty], [handling_cost] and [coordinates] of a port;
    [id], [dwell_time], [next_booking_port] and [priority] of a container;
    [distance_km] and [transit_time_hours] of a route. *)
Definition blank_port (p : Port.t) : Port.t :=
  Port.make (Port.name p) 0 (Port.capacity p) (Port.demand_forecast p)
            (Port.storage_cost_per_day p) (0#1) (0#1, 0#1).

Definition blank_container (c : Container.t) : Container.t :=
  Container.make "" (Container.type c) (Container.current_port c) 0 None 0.

Definition blank_route (r : Route.t) : Route.t :=
  Route.make (Route.from_port r) (Route.to_port r) (0#1)
             (Route.transport_cost r) 0 (Route.capacity_teu r).

Definition blanked (self : ContainerOptimizer) : ContainerOptimizer :=
  {| ports := map (fun item : string * Port.t => (fst item, blank_port (snd item)))
                  (ports self);
     containers := map blank_container (containers self);
     routes := map blank_route (routes self) |}.

(* ================================================================== *)
(** * Further readings of the routing result *)
(* ================================================================== *)

(** The task nodes of a solution: the visited nodes other than the depot. *)
Definition task_nodes (solution : RoutingSolution) : list nat :=
  filter (fun node => (0 <? node)%nat) (visited solution).

(** Node [node] stands for [task]: the task of index [node - 1]. *)
Definition task_of (relocations : list relocation) (node : nat)
    (task : relocation) : Prop :=
  nth_error relocations (node - 1) = Some task.

(** A routing library that always answers with the same solution. *)
Definition fixed_routing (solution : RoutingSolution) : RoutingBackend :=
  {| SolveWithParameters := fun _ => Return (Some solution) |}.

Definition task_ab : relocation :=
  {| reloc_from_port := Some "A"; reloc_to_port := Some "B";
     reloc_container_count := Some 10 |}.

Definition task_ba : relocation :=
  {| reloc_from_port := Some "B"; reloc_to_port := Some "A";
     reloc_container_count := Some 4 |}.

(** Depot, then the second task, then the first. *)
Definition second_then_first : RoutingSolution :=
  {| ObjectiveValue := 1000; visited := [0; 2; 1]%nat |}.

(* ================================================================== *)
(** * Further readings of the assignment *)
(* ================================================================== *)

(** The container carries the two keys the cost reads. *)
Definition container_priced (c : container_data) : bool :=
  is_some (cd_current_port c) && is_some (cd_type c).

(** The demand carries the two keys the cost reads. *)
Definition demand_priced (d : demand_data) : bool :=
  is_some (dd_port d) && is_some (dd_required_type d).

(** The keys whose absence stops the construction of the model. *)
Definition cost_keys : list string :=
  ["current_port"; "port"; "type"; "required_type"].

(** The result carries a fallback solution. *)
Definition has_fallback (r : result) : bool :=
  match r with
  | ErrorResult _ (Some _) => true
  | _ => false
  end.

Definition demand_without_port : demand_data :=
  {| dd_id := Some "D2"; dd_port := None; dd_required_type := Some "20GP";
     dd_priority := None |}.

(* ================================================================== *)
(** * Further readings of [main] *)
(* ================================================================== *)

(** The run gets as far as calling an optimizer: there is a file argument,
    the file is read and [load_data] accepts it. *)
Definition reaches_the_optimizer (argv : list string)
    (read_json : string -> outcome payload) : Prop :=
  exists prog path rest data,
    argv = prog :: path :: rest
    /\ read_json path = Return data
    /\ load_flag data init = true.

(** The payload with its [optimization_type] replaced. *)
Definition with_type (ty : option string) (data : payload) : payload :=
  {| p_optimization_type := ty;
     p_ports := p_ports data;
     p_containers := p_containers data;
     p_routes := p_routes data;
     p_relocations := p_relocations data;
     p_demands := p_demands data |}.

Definition known_mode (ty : string) : bool :=
  String.eqb ty "redistribution" || String.eqb ty "routing"
  || String.eqb ty "assignment".

(* ================================================================== *)
(** * Costs of the returned solutions *)
(* ================================================================== *)

Definition qsum (l : list Q) : Q := fold_right Qplus (0#1)%Q l.

(** The sum of the [cost] of the returned assignment entries. *)
Definition assignments_cost (assignments : list assignment_entry) : Q :=
  qsum (map ae_cost assignments).

(** The cost of pairing container [i] with demand [j], 0 where it is not
    defined. *)
Definition cost_at (self : ContainerOptimizer)
    (containers : list container_data) (demands : list demand_data)
    (i j : nat) : Q :=
  match nth_error containers i, nth_error demands j with
  | Some c, Some d =>
      match _calculate_assignment_cost self c d with
      | Return cost => cost
      | Raise _ => 0#1
      end
  | _, _ => 0#1
  end.

(** The transport cost of an ordered pair in the words of the source
    comment: the cost of the first matching route, or the default 50. *)
Definition specified_route_cost (routes : list Route.t)
    (from_port to_port : string) : Q :=
  match first_matching_route routes from_port to_port with
  | Some route => Route.transport_cost route
  | None => 50#1
  end.

(** The transport cost of the returned relocations. *)
Definition relocations_cost (self : ContainerOptimizer)
    (relocations : list relocation_entry) : Q :=
  qsum (map (fun r =>
               (specified_route_cost (routes self) (re_from_port r) (re_to_port r)
                * inject_Z (re_quantity r))%Q)
            relocations).

(** The storage cost of the returned plan: every planned storage of a port
    at the storage cost per day of that port. *)
Definition plan_cost (self : ContainerOptimizer)
    (plan : dict (dict (list Z))) : Q :=
  qsum (flat_map (fun item : string * Port.t =>
          match dict_lookup plan (fst item) with
          | Some by_type =>
              flat_map (fun entry : string * list Z =>
                map (fun s => (Port.storage_cost_per_day (snd item)
                               * inject_Z s)%Q) (snd entry))
                by_type
          | None => []
          end)
        (ports self)).

(* ================================================================== *)
(** * Optimality *)
(* ================================================================== *)

(** The other half of the contract of the library: the values read back
    after an [OPTIMAL] solve minimise the objective over the feasible
    points of the model. *)
Definition optimal (B : Backend) : Prop :=
  forall m val val',
    Solve B m = Return OPTIMAL ->
    solution_value B m = Return val ->
    feasibleb m val' = true ->
    (objective_value m val <= objective_value m val')%Q.

(** Pairing any container of the list with any demand of the list costs
    more than 0. *)
Definition positive_costs (self : ContainerOptimizer)
    (containers : list container_data) (demands : list demand_data) : Prop :=
  forall c d cost,
    In c containers -> In d demands ->
    _calculate_assignment_cost self c d = Return cost -> (0 < cost)%Q.

Definition var_eqb (a b : var) : bool :=
  match a, b with
  | flow_var f t c d, flow_var f' t' c' d' =>
      String.eqb f f' && String.eqb t t' && String.eqb c c' && (d =? d')%nat
  | storage_var p c d, storage_var p' c' d' =>
      String.eqb p p' && String.eqb c c' && (d =? d')%nat
  | assign_var i j, assign_var i' j' => (i =? i')%nat && (j =? j')%nat
  | _, _ => false
  end.

(** The point where every variable is 0. *)
Definition nothing (v : var) : Z := 0.

(** No objective term can be negative: its coefficient is not, and its
    variable is declared with a lower bound that is not. *)
Definition cannot_gain (m : MPModel) : bool :=
  forallb (fun cv : Q * var =>
             Qle_bool (0#1) (fst cv)
             && existsb (fun b : var * (Z * Z) =>
                           var_eqb (fst b) (snd cv) && (0 <=? fst (snd b)))
                        (int_vars m))
          (objective m).

(** A library that answers [OPTIMAL] with the point [nothing] when that
    point is feasible and no objective term can be negative, and gives up
    otherwise. *)
Definition frugal_backend : Backend :=
  {| CreateSolver := true;
     build := fun _ => Return tt;
     Solve := fun m =>
       Return (if feasibleb m nothing && cannot_gain m then OPTIMAL else ABNORMAL);
     solution_value := fun _ => Return nothing |}.

(* ================================================================== *)
(** * The part of a forecast that is read *)
(* ================================================================== *)

(** A forecast with its entry of index 0 set to 0 and its entries from
    index 7 on removed. *)
Definition days_one_to_six (forecast : list Z) : list Z :=
  match forecast with
  | [] => []
  | _ :: later => 0 :: firstn 6 later
  end.

Definition trim_port (p : Port.t) : Port.t :=
  Port.make (Port.name p) (Port.current_empty p) (Port.capacity p)
            (days_one_to_six (Port.demand_forecast p))
            (Port.storage_cost_per_day p) (Port.handling_cost p)
            (Port.coordinates p).

(** The optimizer with every forecast reduced to the days 1 to 6. *)
Definition trimmed (self : ContainerOptimizer) : ContainerOptimizer :=
  {| ports := map (fun item : string * Port.t => (fst item, trim_port (snd item)))
                  (ports self);
     containers := containers self;
     routes := routes self |}.

Unset Implicit Arguments.

(* ================================================================== *)
(** * Properties of [load_data] *)
(* ================================================================== *)

Section Loader.

Lemma make_port_spec (d : port_data) :
  if port_complete d then exists p, make_port d = Return p
  else exists k, make_port d = Raise (KeyError k).
Proof.
  destruct d as [[n|] [ce|] [cap|] [fc|] [sc|] [hc|] [lat|] [lng|]];
    cbn; eauto.
Qed.

Lemma make_container_spec (d : container_data) :
  if container_complete d then exists c, make_container d = Return c
  else exists k, make_container d = Raise (KeyError k).
Proof.
  destruct d as [[i|] [ty|] [cp|] [dw|] nb [pr|]]; cbn; eauto.
Qed.

Lemma make_route_spec (d : route_data) :
  if route_complete d then exists r, make_route d = Return r
  else exists k, make_route d = Raise (KeyError k).
Proof.
  destruct d as [[f|] [t|] [di|] [co|] [tt|] [ca|]]; cbn; eauto.
Qed.

Variables D R : Type.
Variable parse : D -> outcome R.
Variable store : R -> ContainerOptimizer -> ContainerOptimizer.
Variable complete : D -> bool.
Hypothesis parse_spec : forall d,
  if complete d then exists r, parse d = Return r
  else exists k, parse d = Raise (KeyError k).

(** A loop returns exactly when every entry is complete; otherwise it
    stops with the [KeyError] of the first incomplete entry. *)
Lemma load_loop_spec (entries : list D) :
  forall self,
    if forallb complete entries
    then fst (load_loop parse store entries self) = Return tt
    else exists k, fst (load_loop parse store entries self) = Raise (KeyError k).
Proof.
  induction entries as [|d rest IH]; intros self; cbn.
  - reflexivity.
  - specialize (parse_spec d). destruct (complete d); cbn.
    + destruct parse_spec as [r ->]. apply IH.
    + destruct parse_spec as [k ->]. cbn. eauto.
Qed.

End Loader.

Lemma load_body_spec (data : payload) (self : ContainerOptimizer) :
  if entries_complete data
  then fst (load_body data self) = Return tt
  else exists k, fst (load_body data self) = Raise (KeyError k).
Proof.
  unfold entries_complete, load_body.
  replace (dict_get (p_ports data) []) with (declared (p_ports data))
    by (destruct (p_ports data); reflexivity).
  replace (dict_get (p_containers data) []) with (declared (p_containers data))
    by (destruct (p_containers data); reflexivity).
  replace (dict_get (p_routes data) []) with (declared (p_routes data))
    by (destruct (p_routes data); reflexivity).
  pose proof (@load_loop_spec _ _ make_port store_port port_complete make_port_spec
                (declared (p_ports data)) self) as Hp.
  destruct (load_loop make_port store_port (declared (p_ports data)) self)
    as [o1 self1].
  destruct (forallb port_complete (declared (p_ports data))); cbn in Hp |- *.
  2:{ destruct Hp as [k ->]. cbn. eauto. }
  subst o1.
  pose proof (@load_loop_spec _ _ make_container append_container container_complete make_container_spec
                (declared (p_containers data)) self1) as Hc.
  destruct (load_loop make_container append_container
              (declared (p_containers data)) self1) as [o2 self2].
  destruct (forallb container_complete (declared (p_containers data)));
    cbn in Hc |- *.
  2:{ destruct Hc as [k ->]. cbn. eauto. }
  subst o2.
  apply (@load_loop_spec _ _ make_route append_route route_complete make_route_spec).
Qed.

(** C7. A top-level key [ports], [containers] or [routes] that is missing is
    read as an empty collection (loading the payload is loading the payload
    with the missing keys set to empty lists), so [load_data] returns [True]
    for a payload with any of these keys missing whose declared entries have
    their required fields; and when some declared entry lacks a required
    field the body raises a [KeyError] that [load_data] catches: it returns
    the flag [False]. *)
Theorem load_data_missing_keys_and_missing_fields :
  forall (data : payload) (self : ContainerOptimizer),
    load_data data self = load_data (with_empty_defaults data) self
    /\ (entries_complete data = true ->
        fst (fst (load_data data self)) = true)
    /\ (entries_complete data = false ->
        fst (fst (load_data data self)) = false
        /\ exists k, fst (load_body data self) = Raise (KeyError k)).
Proof.
  intros data self. split; [|split].
  - unfold load_data, load_body, with_empty_defaults; cbn.
    destruct (p_ports data), (p_containers data), (p_routes data); reflexivity.
  - intros Hc. pose proof (load_body_spec data self) as H. rewrite Hc in H.
    unfold load_data. destruct (load_body data self) as [o s]. cbn in H.
    subst o. reflexivity.
  - intros Hc. pose proof (load_body_spec data self) as H. rewrite Hc in H.
    destruct H as [k Hk]. split; [|eauto].
    unfold load_data. destruct (load_body data self) as [o s]. cbn in Hk.
    subst o. reflexivity.
Qed.

Lemma load_data_missing_keys_and_missing_fields_witness :
  some_key_missing payload_containers_only = true
  /\ fst (fst (load_data payload_containers_only init)) = true
  /\ fst (fst (load_data payload_bad_port init)) = false.
Proof.
  split; [reflexivity|]. split.
  - apply (load_data_missing_keys_and_missing_fields payload_containers_only init).
    reflexivity.
  - apply (load_data_missing_keys_and_missing_fields payload_bad_port init).
    reflexivity.
Defined.

(* ================================================================== *)
(** * Failure reporting of [optimize_container_redistribution] *)
(* ================================================================== *)

(** C3, as stated, fails when the solver is unavailable: the function then
    returns a bare error, without a fallback solution. *)
Lemma solver_unavailable_has_no_fallback :
  CreateSolver unavailable_backend = false
  /\ error_with_fallback
       (fst (optimize_container_redistribution unavailable_backend init)) = false.
Proof. split; reflexivity. Qed.

(** C3, amended. When a library call raises during construction, solve or
    extraction, or the solve ends with a status other than [OPTIMAL], the
    function returns an error message with the fallback solution, whose
    relocations are empty and whose status is "fallback", not "optimal";
    when the solver is unavailable it returns the error message alone; and in
    none of these cases is the result success-shaped. *)
Theorem redistribution_failure_reporting :
  forall (B : Backend) (self : ContainerOptimizer),
    let m := redistribution_model self in
    let r := fst (optimize_container_redistribution B self) in
    (CreateSolver B = false ->
       r = ErrorResult [Lit "SCIP solver not available"] None)
    /\ (CreateSolver B = true -> solve_fails B m ->
        exists msg fb,
          r = ErrorResult msg (Some fb)
          /\ fb_relocations fb = []
          /\ fb_status fb = "fallback"
          /\ fb_status fb <> "optimal")
    /\ (CreateSolver B = false \/ solve_fails B m -> success_shaped r = false).
Proof.
  intros B self m r.
  assert (Hfail : CreateSolver B = true -> solve_fails B m ->
                  exists msg, r = ErrorResult msg (Some _create_fallback_solution)).
  { intros Hc Hf. subst r. unfold optimize_container_redistribution.
    rewrite Hc. cbn [negb]. fold m.
    destruct Hf as [[e He] | [[e He] | [[s [Hs Hopt]] | [e He]]]].
    - rewrite He. cbn. eauto.
    - rewrite He. destruct (build B m); cbn; eauto.
    - rewrite Hs, Hopt. destruct (build B m); cbn; eauto.
    - rewrite He. destruct (build B m); cbn; eauto.
      destruct (Solve B m) as [s|e']; cbn; eauto.
      destruct (is_optimal s); cbn; eauto. }
  assert (Hnone : CreateSolver B = false ->
                  r = ErrorResult [Lit "SCIP solver not available"] None).
  { intros Hc. subst r. unfold optimize_container_redistribution.
    rewrite Hc. reflexivity. }
  split; [exact Hnone|]. split.
  - intros Hc Hf. destruct (Hfail Hc Hf) as [msg ->].
    exists msg, _create_fallback_solution. repeat split. cbn. discriminate.
  - intros [Hc | Hf].
    + rewrite (Hnone Hc). reflexivity.
    + destruct (CreateSolver B) eqn:Hc.
      * destruct (Hfail eq_refl Hf) as [msg ->]. reflexivity.
      * rewrite (Hnone eq_refl). reflexivity.
Qed.

(* ================================================================== *)
(** * Short circuits of the routing and assignment optimizers *)
(* ================================================================== *)

(** C6 on the code: on an empty relocation batch the short circuit returns
    [{routes: [], total_cost: 0, total_distance: 0}] without a call into the
    routing library; the [routes] of the result are the empty list, not a
    list holding one empty route, which is the shape that
    [_extract_routing_solution] gives its result ([routes = [route]]). *)
Theorem empty_batch_returns_no_routes :
  forall (R : RoutingBackend) (self : ContainerOptimizer),
    optimize_vehicle_routing R self [] = (RoutingResult [] (Some 0) 0, [])
    /\ result_routes (fst (optimize_vehicle_routing R self [])) = Some []
    /\ result_routes (fst (optimize_vehicle_routing R self [])) <> Some [[]]
    /\ solver_calls (snd (optimize_vehicle_routing R self [])) = [].
Proof.
  intros R self. split; [reflexivity|]. split; [reflexivity|].
  split; [cbn; discriminate | reflexivity].
Qed.

(** A batch that is not empty does reach the routing library. *)
Lemma nonempty_batch_calls_the_library (R : RoutingBackend)
    (self : ContainerOptimizer) (task : relocation) (rest : list relocation) :
  solver_calls (snd (optimize_vehicle_routing R self (task :: rest)))
  = [RoutingModel_new; Routing_SolveWithParameters].
Proof.
  unfold optimize_vehicle_routing. cbn [nonempty negb].
  destruct (SolveWithParameters R _) as [[s|]|e]; [|reflexivity|reflexivity].
  destruct (_extract_routing_solution s (task :: rest)); reflexivity.
Qed.

(** C9 on the code: with no container and one demand the short circuit
    returns [{assignments: [], unassigned_containers: []}] without calling a
    solver; the result has no [unmet_demands] entry, so the demand is not
    reported as unmet. *)
Theorem empty_containers_result_has_no_unmet_demands :
  forall (B : Backend) (self : ContainerOptimizer),
    optimize_assignment B self [] [sample_demand]
    = (AssignmentResult [] [] None None, [])
    /\ result_unmet_demands (fst (optimize_assignment B self [] [sample_demand]))
       <> Some [sample_demand].
Proof. intros B self. split; [reflexivity | cbn; discriminate]. Qed.

(** The short circuit in general: either list empty, no solver call, the
    containers handed back, nothing else. *)
Lemma optimize_assignment_short_circuit (B : Backend) (self : ContainerOptimizer)
    (containers : list container_data) (demands : list demand_data) :
  containers = [] \/ demands = [] ->
  optimize_assignment B self containers demands
  = (AssignmentResult [] containers None None, []).
Proof.
  intros [-> | ->]; unfold optimize_assignment; cbn.
  - reflexivity.
  - rewrite orb_true_r. reflexivity.
Qed.

(* ================================================================== *)
(** * The command line *)
(* ================================================================== *)

(** C8 on the code: when [load_data] fails (here on a port entry without a
    name) the JSON error object goes to standard output; standard error
    receives only the log line of [load_data], which is not JSON; the exit
    status is 1. *)
Theorem main_load_failure_prints_error_on_stdout :
  forall (B : Backend) (R : RoutingBackend) (prog path : string),
    let run := main B R [prog; path] (fun _ => Return payload_bad_port) in
    snd run = 1
    /\ printed_on stdout (fst run) = [ErrorJson "Failed to load input data"]
    /\ printed_on stderr (fst run)
       = [Text [Lit "Error loading data: "; Lit "'name'"]]
    /\ existsb is_json_error (printed_on stderr (fst run)) = false.
Proof. intros B R prog path. repeat split. Qed.

(** The same for every payload on which [load_data] fails. *)
Lemma main_load_failure (B : Backend) (R : RoutingBackend)
    (prog path : string) (rest : list string)
    (read_json : string -> outcome payload) (data : payload) :
  read_json path = Return data ->
  fst (fst (load_data data init)) = false ->
  let run := main B R (prog :: path :: rest) read_json in
  snd run = 1
  /\ printed_on stdout (fst run) = [ErrorJson "Failed to load input data"]
  /\ existsb is_json_error (printed_on stderr (fst run)) = false.
Proof.
  intros Hread Hload. cbn. unfold main. rewrite Hread.
  unfold load_data in *. destruct (load_body data init) as [[u|e] s];
    cbn in Hload; [discriminate|]. cbn. auto.
Qed.

(** On a successful load the result is printed last, on standard output, as
    JSON indented by 2, and the exit status is 0. *)
Lemma main_success (B : Backend) (R : RoutingBackend)
    (prog path : string) (rest : list string)
    (read_json : string -> outcome payload) (data : payload) :
  read_json path = Return data ->
  fst (fst (load_data data init)) = true ->
  let run := main B R (prog :: path :: rest) read_json in
  snd run = 0
  /\ exists r log, fst run = log ++ [Emit stdout (ResultJson 2 r)]
                   /\ printed_on stderr log = printed_on stderr (fst run).
Proof.
  intros Hread Hload. cbn. unfold main. rewrite Hread.
  destruct (load_data data init) as [[ok optimizer] log1]. cbn in Hload.
  subst ok. cbn [negb].
  match goal with |- context [let '(result, log2) := ?X in _] =>
    destruct X as [result log2] end.
  split; [reflexivity|]. exists result, (log1 ++ log2). cbn [fst].
  split.
  - now rewrite app_assoc.
  - unfold printed_on. rewrite !flat_map_app. cbn.
    now rewrite !app_nil_r.
Qed.

Lemma redistribution_failure_reporting_witness :
  error_with_fallback
    (fst (optimize_container_redistribution
            (checking_backend (fun _ => 0)) sample_network)) = true.
Proof.
  destruct (redistribution_failure_reporting
              (checking_backend (fun _ => 0)) sample_network)
    as [_ [H _]].
  destruct H as [msg [fb [Hr [Hrel [Hst _]]]]].
  - reflexivity.
  - right. right. left. exists INFEASIBLE. split; vm_compute; reflexivity.
  - rewrite Hr. cbn. rewrite Hrel, Hst. reflexivity.
Defined.

(* ================================================================== *)
(** * Loops over lists *)
(* ================================================================== *)

Lemma route_loop_first_match {A} (routes : list Route.t) (from_port to_port : string)
    (default : A) (field : Route.t -> A) :
  route_loop routes from_port to_port default field
  = match first_matching_route routes from_port to_port with
    | Some route => field route
    | None => default
    end.
Proof.
  induction routes as [|r rest IH]; cbn [route_loop first_matching_route];
    [reflexivity|].
  rewrite IH. unfold route_matches.
  destruct (joins_dec r from_port to_port) as [[Hf Ht] | Hno].
  - rewrite Hf, Ht, !String.eqb_refl. reflexivity.
  - destruct (String.eqb_spec (Route.from_port r) from_port) as [Hf|];
      [|reflexivity].
    destruct (String.eqb_spec (Route.to_port r) to_port) as [Ht|];
      [|reflexivity].
    exfalso. apply Hno. split; assumption.
Qed.

(** [first_matching_route] returns a record that matches the pair and is
    preceded by none that does. *)
Lemma first_matching_route_some (routes : list Route.t)
    (from_port to_port : string) (route : Route.t) :
  first_matching_route routes from_port to_port = Some route
  <-> exists before after,
        routes = before ++ route :: after
        /\ joins route from_port to_port
        /\ Forall (fun r => ~ joins r from_port to_port) before.
Proof.
  induction routes as [|r rest IH]; cbn [first_matching_route].
  - split; [discriminate|]. intros (before & after & H & _).
    destruct before; discriminate.
  - destruct (joins_dec r from_port to_port) as [Hyes | Hno]; split.
    + intros H. injection H as <-. exists [], rest. repeat split; try apply Hyes.
      constructor.
    + intros (before & after & H & Hj & Hbefore). destruct before as [|b before].
      * cbn in H. now injection H as <-.
      * cbn in H. injection H as <- _. inversion Hbefore; contradiction.
    + intros H. apply IH in H as (before & after & -> & Hj & Hbefore).
      exists (r :: before), after. repeat split; try apply Hj.
      constructor; assumption.
    + intros (before & after & H & Hj & Hbefore). destruct before as [|b before].
      * cbn in H. injection H as <- _. contradiction.
      * cbn in H. injection H as _ ->. apply IH. exists before, after.
        inversion Hbefore. repeat split; try apply Hj. assumption.
Qed.

Lemma first_matching_route_none (routes : list Route.t)
    (from_port to_port : string) :
  first_matching_route routes from_port to_port = None
  <-> Forall (fun r => ~ joins r from_port to_port) routes.
Proof.
  induction routes as [|r rest IH]; cbn [first_matching_route].
  - split; [constructor | reflexivity].
  - destruct (joins_dec r from_port to_port) as [Hyes | Hno]; split.
    + discriminate.
    + intros H. inversion H. contradiction.
    + intros H. constructor; [assumption | now apply IH].
    + intros H. inversion H. now apply IH.
Qed.

Lemma mapM_In {A B} (f : A -> outcome B) (xs : list A) (ys : list B) :
  mapM f xs = Return ys ->
  forall x, In x xs -> exists y, f x = Return y /\ In y ys.
Proof.
  revert ys. induction xs as [|a xs IH]; intros ys H x Hin; [destruct Hin|].
  cbn in H. destruct (f a) as [b|e] eqn:Hfa; cbn in H; [|discriminate].
  destruct (mapM f xs) as [bs|e] eqn:Hxs; cbn in H; [|discriminate].
  injection H as <-. destruct Hin as [-> | Hin].
  - exists b. split; [assumption | now left].
  - destruct (IH bs eq_refl x Hin) as [y [Hy Hiny]].
    exists y. split; [assumption | now right].
Qed.

Lemma mapM_In_inv {A B} (f : A -> outcome B) (xs : list A) (ys : list B) :
  mapM f xs = Return ys ->
  forall y, In y ys -> exists x, In x xs /\ f x = Return y.
Proof.
  revert ys. induction xs as [|a xs IH]; intros ys H y Hin; cbn in H.
  - injection H as <-. destruct Hin.
  - destruct (f a) as [b|e] eqn:Hfa; cbn in H; [|discriminate].
    destruct (mapM f xs) as [bs|e] eqn:Hxs; cbn in H; [|discriminate].
    injection H as <-. destruct Hin as [<- | Hin].
    + exists a. split; [now left | assumption].
    + destruct (IH bs eq_refl y Hin) as [x [Hx Hfx]].
      exists x. split; [now right | assumption].
Qed.

Lemma In_combine_seq {A} (l : list A) (start i : nat) (a : A) :
  In (i, a) (combine (seq start (List.length l)) l)
  <-> (start <= i)%nat /\ nth_error l (i - start) = Some a.
Proof.
  revert start. induction l as [|b l IH]; intros start; cbn.
  - split; [intros [] | intros [_ H]]. destruct (i - start)%nat; discriminate.
  - rewrite IH. split.
    + intros [H | [Hle H]].
      * injection H as <- <-. split; [lia|]. now rewrite Nat.sub_diag.
      * split; [lia|]. replace (i - start)%nat with (S (i - S start)) by lia.
        exact H.
    + intros [Hle H]. destruct (Nat.eq_dec start i) as [<- | Hne].
      * left. rewrite Nat.sub_diag in H. cbn in H. now injection H as <-.
      * right. split; [lia|].
        replace (i - start)%nat with (S (i - S start)) in H by lia. exact H.
Qed.

Lemma In_enumerate {A} (l : list A) (i : nat) (a : A) :
  In (i, a) (enumerate l) <-> nth_error l i = Some a.
Proof.
  unfold enumerate. rewrite In_combine_seq, Nat.sub_0_r.
  split; [now intros [_ H] | intros H; split; [lia | exact H]].
Qed.

(* ================================================================== *)
(** * The assignment cost *)
(* ================================================================== *)

Lemma _is_compatible_table (container_type required_type : string) :
  _is_compatible container_type required_type = true
  <-> compatible_by_table container_type required_type.
Proof.
  unfold _is_compatible, compatible_by_table, compatibility_map.
  cbn [dict_lookup].
  destruct (String.eqb_spec "20GP" container_type) as [<- | H20].
  { cbn. rewrite orb_false_r, String.eqb_eq.
    split; [intros ->; left; auto | intros [[_ H] | [[H _] | [H _]]]];
      [assumption | discriminate | discriminate]. }
  destruct (String.eqb_spec "40GP" container_type) as [<- | H40].
  { cbn. rewrite orb_false_r, orb_true_iff, !String.eqb_eq.
    split; [intros H; right; left; auto | intros [[H _] | [[_ H] | [H _]]]];
      [discriminate | assumption | discriminate]. }
  destruct (String.eqb_spec "40HC" container_type) as [<- | HHC].
  { cbn. rewrite orb_false_r, orb_true_iff, !String.eqb_eq.
    split; [intros H; right; right; auto | intros [[H _] | [[H _] | [_ H]]]];
      [discriminate | discriminate | assumption]. }
  cbn. split; [discriminate|].
  intros [[H _] | [[H _] | [H _]]]; congruence.
Qed.

(** The penalty of the source is the penalty of the table. *)
Lemma type_penalty_by_table (container_type required_type : string) :
  inject_Z (if _is_compatible container_type required_type then 0 else 1000)
  = if compatible_by_table_dec container_type required_type
    then (0#1)%Q else inject_Z 1000.
Proof.
  destruct (compatible_by_table_dec container_type required_type) as [Hyes | Hno].
  - apply _is_compatible_table in Hyes. rewrite Hyes. reflexivity.
  - destruct (_is_compatible container_type required_type) eqn:E; [|reflexivity].
    apply _is_compatible_table in E. contradiction.
Qed.

Lemma urgency_bonus_is_minus_five_times (x : Q) (priority : Z) :
  (x + inject_Z (- priority * 5))%Q = (x - inject_Z 5 * inject_Z priority)%Q.
Proof.
  unfold Qminus. f_equal. unfold Qopp, Qmult, inject_Z. cbn [Qnum Qden].
  f_equal. lia.
Qed.

Lemma _calculate_assignment_cost_spec (self : ContainerOptimizer)
    (container : container_data) (demand : demand_data) (cost : Q) :
  _calculate_assignment_cost self container demand = Return cost
  <-> pair_cost self container demand cost.
Proof.
  unfold _calculate_assignment_cost, pair_cost, specified_cost.
  destruct (cd_current_port container) as [fp|];
    [|cbn; split; [discriminate | intros (?&?&?&?&H&_); discriminate]].
  destruct (dd_port demand) as [tp|];
    [|cbn; split; [discriminate | intros (?&?&?&?&_&H&_); discriminate]].
  destruct (cd_type container) as [ct|];
    [|cbn; split; [discriminate | intros (?&?&?&?&_&_&H&_); discriminate]].
  destruct (dd_required_type demand) as [rt|];
    [|cbn; split; [discriminate | intros (?&?&?&?&_&_&_&H&_); discriminate]].
  cbn [getitem bind]. rewrite route_loop_first_match.
  rewrite urgency_bonus_is_minus_five_times.
  rewrite type_penalty_by_table. split.
  - intros H. injection H as <-. exists fp, tp, ct, rt. repeat split.
  - intros (fp'&tp'&ct'&rt'&H1&H2&H3&H4&->).
    injection H1 as <-. injection H2 as <-. injection H3 as <-.
    injection H4 as <-. reflexivity.
Qed.

Lemma assignment_objective_In (self : ContainerOptimizer)
    (containers : list container_data) (demands : list demand_data)
    (terms : list (Q * var)) (i j : nat) (c : container_data) (d : demand_data) :
  assignment_objective self containers demands = Return terms ->
  nth_error containers i = Some c ->
  nth_error demands j = Some d ->
  exists cost, _calculate_assignment_cost self c d = Return cost
               /\ In (cost, assign_var i j) terms.
Proof.
  unfold assignment_objective. intros H Hc Hd.
  destruct (mapM _ (enumerate containers)) as [rows|e] eqn:Hrows; cbn in H;
    [|discriminate].
  injection H as <-.
  apply In_enumerate in Hc. apply In_enumerate in Hd.
  destruct (mapM_In _ _ _ Hrows _ Hc) as [row [Hrow Hin_row]]. cbn in Hrow.
  destruct (mapM_In _ _ _ Hrow _ Hd) as [term [Hterm Hin_term]]. cbn in Hterm.
  destruct (_calculate_assignment_cost self c d) as [cost|e]; cbn in Hterm;
    [|discriminate].
  injection Hterm as <-. exists cost. split; [reflexivity|].
  apply in_concat. exists row. split; assumption.
Qed.

(* ================================================================== *)
(** * Sums and feasible points *)
(* ================================================================== *)

Lemma zsum_app (l1 l2 : list Z) : zsum (l1 ++ l2) = zsum l1 + zsum l2.
Proof. induction l1 as [|x l1 IH]; cbn; [reflexivity | rewrite IH; lia]. Qed.

Lemma zsum_map_ext {A} (f g : A -> Z) (l : list A) :
  (forall x, In x l -> f x = g x) -> zsum (map f l) = zsum (map g l).
Proof.
  induction l as [|a l IH]; intros H; cbn; [reflexivity|].
  rewrite (H a) by now left. rewrite IH; [reflexivity|].
  intros x Hx. apply H. now right.
Qed.

Lemma zsum_map_zero {A} (f : A -> Z) (l : list A) :
  (forall x, In x l -> f x = 0) -> zsum (map f l) = 0.
Proof.
  induction l as [|a l IH]; intros H; cbn; [reflexivity|].
  rewrite (H a) by now left. rewrite IH; [reflexivity|].
  intros x Hx. apply H. now right.
Qed.

Lemma zsum_map_nonneg {A} (f : A -> Z) (l : list A) :
  (forall x, In x l -> 0 <= f x) -> 0 <= zsum (map f l).
Proof.
  induction l as [|a l IH]; intros H; cbn; [lia|].
  assert (0 <= f a) by (apply H; now left).
  assert (0 <= zsum (map f l)) by (apply IH; intros x Hx; apply H; now right).
  lia.
Qed.

Lemma zsum_map_ge {A} (f : A -> Z) (l : list A) (a : A) :
  (forall x, In x l -> 0 <= f x) -> In a l -> f a <= zsum (map f l).
Proof.
  induction l as [|b l IH]; intros H Hin; [destruct Hin|]. cbn.
  assert (Hb : 0 <= f b) by (apply H; now left).
  assert (Hl : forall x, In x l -> 0 <= f x) by (intros x Hx; apply H; now right).
  pose proof (zsum_map_nonneg f l Hl).
  destruct Hin as [-> | Hin]; [lia|]. specialize (IH Hl Hin). lia.
Qed.

(** Two different elements of the list both count in the sum. *)
Lemma zsum_map_two {A} (f : A -> Z) (l : list A) (a b : A) :
  (forall x, In x l -> 0 <= f x) -> In a l -> In b l -> a <> b ->
  f a + f b <= zsum (map f l).
Proof.
  induction l as [|c l IH]; intros H Ha Hb Hne; [destruct Ha|]. cbn.
  assert (Hc : 0 <= f c) by (apply H; now left).
  assert (Hl : forall x, In x l -> 0 <= f x) by (intros x Hx; apply H; now right).
  destruct Ha as [-> | Ha], Hb as [-> | Hb].
  - congruence.
  - pose proof (zsum_map_ge f l b Hl Hb). lia.
  - pose proof (zsum_map_ge f l a Hl Ha). lia.
  - specialize (IH Hl Ha Hb Hne). lia.
Qed.

(** The sum of a function that vanishes away from [a]. *)
Lemma zsum_map_pick {A} (f : A -> Z) (l : list A) (a : A) :
  NoDup l -> In a l -> (forall x, In x l -> x <> a -> f x = 0) ->
  zsum (map f l) = f a.
Proof.
  induction l as [|b l IH]; intros Hnd Hin Hz; [destruct Hin|].
  inversion Hnd as [|? ? Hnotin Hnd']; subst. cbn.
  destruct Hin as [-> | Hin].
  - rewrite zsum_map_zero; [lia|]. intros x Hx. apply Hz; [now right|].
    intros ->. contradiction.
  - rewrite (Hz b); [|now left | intros ->; contradiction].
    rewrite IH; [lia | assumption | assumption |].
    intros x Hx. apply Hz. now right.
Qed.

Lemma zsum_map_filter {A} (f : A -> Z) (p : A -> bool) (l : list A) :
  zsum (map f (filter p l)) = zsum (map (fun x => if p x then f x else 0) l).
Proof.
  induction l as [|a l IH]; cbn; [reflexivity|].
  destruct (p a); cbn; rewrite IH; reflexivity.
Qed.

Lemma zsum_flat_map {A} (g : A -> list Z) (l : list A) :
  zsum (flat_map g l) = zsum (map (fun x => zsum (g x)) l).
Proof.
  induction l as [|a l IH]; cbn; [reflexivity|].
  rewrite zsum_app, IH. reflexivity.
Qed.

Lemma feasible_bounds (m : MPModel) (val : var -> Z) (v : var) (lb ub : Z) :
  feasibleb m val = true -> In (v, (lb, ub)) (int_vars m) -> lb <= val v <= ub.
Proof.
  unfold feasibleb. intros H Hin. apply andb_prop in H as [H _].
  rewrite forallb_forall in H. specialize (H _ Hin). cbn in H.
  apply andb_prop in H as [H1 H2]. lia.
Qed.

Lemma feasible_eq (m : MPModel) (val : var -> Z) (a b : linexpr) :
  feasibleb m val = true -> In (CEq a b) (constraints m) ->
  eval val a = eval val b.
Proof.
  unfold feasibleb. intros H Hin. apply andb_prop in H as [_ H].
  rewrite forallb_forall in H. specialize (H _ Hin). cbn in H. lia.
Qed.

Lemma feasible_le (m : MPModel) (val : var -> Z) (a b : linexpr) :
  feasibleb m val = true -> In (CLe a b) (constraints m) ->
  eval val a <= eval val b.
Proof.
  unfold feasibleb. intros H Hin. apply andb_prop in H as [_ H].
  rewrite forallb_forall in H. specialize (H _ Hin). cbn in H. lia.
Qed.

Lemma checking_backend_sound (candidate : var -> Z) :
  sound (checking_backend candidate).
Proof.
  intros m val Hs Hv. cbn in Hs, Hv. injection Hv as <-.
  destruct (feasibleb m candidate); [reflexivity | discriminate].
Qed.

Lemma is_optimal_true (s : ResultStatus) : is_optimal s = true -> s = OPTIMAL.
Proof. destruct s; cbn; congruence. Qed.

(* ================================================================== *)
(** * The assignment is a compatible matching *)
(* ================================================================== *)

Lemma _is_compatible_unknown (container_type required_type : string) :
  ~ known_type container_type ->
  _is_compatible container_type required_type = false.
Proof.
  intros Hun. destruct (_is_compatible container_type required_type) eqn:E;
    [|reflexivity].
  apply _is_compatible_table in E. exfalso. apply Hun. unfold known_type.
  destruct E as [[H _] | [[H _] | [H _]]]; auto.
Qed.

Lemma NoDup_flat_map {A B} (g : A -> list B) (l : list A) :
  NoDup l ->
  (forall x, In x l -> NoDup (g x)) ->
  (forall x y z, In x l -> In y l -> In z (g x) -> In z (g y) -> x = y) ->
  NoDup (flat_map g l).
Proof.
  induction l as [|a l IH]; intros Hnd Hg Hdisj; cbn; [constructor|].
  inversion Hnd as [|? ? Hnotin Hnd']; subst.
  apply NoDup_app.
  - apply Hg. now left.
  - apply IH; [assumption | intros x Hx; apply Hg; now right |].
    intros x y z Hx Hy. apply Hdisj; now right.
  - intros z Hz Hz'. apply in_flat_map in Hz' as [y [Hy Hzy]].
    assert (a = y) by (apply (Hdisj a y z); [now left | now right | assumption | assumption]).
    subst y. contradiction.
Qed.

Lemma In_x_vars (n m i j : nat) :
  (i < n)%nat -> (j < m)%nat -> In (assign_var i j, (0, 1)) (x_vars n m).
Proof.
  intros Hi Hj. unfold x_vars. apply in_flat_map. exists i. split.
  - apply in_seq. lia.
  - apply in_map_iff. exists j. split; [reflexivity | apply in_seq; lia].
Qed.

Lemma In_assigned_pairs (val : var -> Z) (n m i j : nat) :
  In (i, j) (assigned_pairs val n m)
  <-> (i < n)%nat /\ (j < m)%nat /\ selected val i j = true.
Proof.
  unfold assigned_pairs. rewrite in_flat_map. split.
  - intros [i' [Hi' H]]. apply in_flat_map in H as [j' [Hj' H]].
    destruct (selected val i' j') eqn:Hsel; [|destruct H].
    destruct H as [H | []]. injection H as <- <-.
    apply in_seq in Hi', Hj'. repeat split; try lia. assumption.
  - intros (Hi & Hj & Hsel). exists i. split; [apply in_seq; lia|].
    apply in_flat_map. exists j. split; [apply in_seq; lia|].
    rewrite Hsel. now left.
Qed.

Lemma NoDup_assigned_pairs (val : var -> Z) (n m : nat) :
  NoDup (assigned_pairs val n m).
Proof.
  unfold assigned_pairs. apply NoDup_flat_map.
  - apply seq_NoDup.
  - intros i _. apply NoDup_flat_map.
    + apply seq_NoDup.
    + intros j _. destruct (selected val i j); repeat constructor. intros [].
    + intros j j' z _ _ Hz Hz'.
      destruct (selected val i j); [|destruct Hz].
      destruct (selected val i j'); [|destruct Hz'].
      destruct Hz as [<- | []]. destruct Hz' as [H | []]. congruence.
  - intros i i' z _ _ Hz Hz'.
    apply in_flat_map in Hz as [j [_ Hz]]. apply in_flat_map in Hz' as [j' [_ Hz']].
    destruct (selected val i j); [|destruct Hz].
    destruct (selected val i' j'); [|destruct Hz'].
    destruct Hz as [<- | []]. destruct Hz' as [H | []]. congruence.
Qed.

Lemma compatibility_constraints_In
    (containers : list container_data) (demands : list demand_data)
    (compat : list constraint) (i j : nat) (c : container_data) (d : demand_data) :
  compatibility_constraints containers demands = Return compat ->
  nth_error containers i = Some c ->
  nth_error demands j = Some d ->
  exists ct rt,
    cd_type c = Some ct /\ dd_required_type d = Some rt
    /\ (_is_compatible ct rt = false ->
        In (CEq (LVar (assign_var i j)) (LConst 0)) compat).
Proof.
  unfold compatibility_constraints. intros H Hc Hd.
  destruct (mapM _ (enumerate containers)) as [rows|e] eqn:Hrows; cbn in H;
    [|discriminate].
  injection H as <-.
  apply In_enumerate in Hc. apply In_enumerate in Hd.
  destruct (mapM_In _ _ _ Hrows _ Hc) as [row [Hrow Hin_row]]. cbn in Hrow.
  destruct (mapM _ (enumerate demands)) as [cells|e] eqn:Hcells; cbn in Hrow;
    [|discriminate].
  injection Hrow as <-.
  destruct (mapM_In _ _ _ Hcells _ Hd) as [cell [Hcell Hin_cell]]. cbn in Hcell.
  destruct (cd_type c) as [ct|]; cbn in Hcell; [|discriminate].
  destruct (dd_required_type d) as [rt|]; cbn in Hcell; [|discriminate].
  injection Hcell as <-. exists ct, rt. repeat split.
  intros Hinc. rewrite Hinc in Hin_cell.
  apply in_concat. eexists. split; [exact Hin_row|].
  apply in_concat. eexists. split; [exact Hin_cell|]. now left.
Qed.

(** How [optimize_assignment] comes to return an assignment dictionary:
    through the short circuit, or after an [OPTIMAL] solve. *)
Lemma optimize_assignment_inv (B : Backend) (self : ContainerOptimizer)
    (containers : list container_data) (demands : list demand_data)
    asg un unmet tc log :
  optimize_assignment B self containers demands
  = (AssignmentResult asg un unmet tc, log) ->
  (asg = [] /\ un = containers)
  \/ exists m val,
       assignment_model self containers demands = Return m
       /\ Solve B m = Return OPTIMAL
       /\ solution_value B m = Return val
       /\ mapM (entry_at self containers demands)
               (assigned_pairs val (List.length containers) (List.length demands))
          = Return asg
       /\ un = not_assigned
                 (map fst (assigned_pairs val (List.length containers)
                                              (List.length demands)))
                 containers.
Proof.
  unfold optimize_assignment. intros H.
  destruct (negb (nonempty containers) || negb (nonempty demands)).
  { injection H as <- <- _ _ _. left. split; reflexivity. }
  destruct (negb (CreateSolver B)); [discriminate|].
  destruct (assignment_model self containers demands) as [m|e] eqn:Hm;
    cbn in H; [|discriminate].
  destruct (build B m); cbn in H; [|discriminate].
  destruct (Solve B m) as [status|e] eqn:Hsolve; [|discriminate].
  destruct (is_optimal status) eqn:Hopt; [|discriminate].
  apply is_optimal_true in Hopt. subst status.
  destruct (solution_value B m) as [val|e] eqn:Hval; cbn in H; [|discriminate].
  unfold _extract_assignment_solution in H.
  destruct (mapM _ _) as [entries|e] eqn:Hentries; cbn in H; [|discriminate].
  injection H as <- <- _ _ _. right. exists m, val. repeat split; assumption.
Qed.

Lemma assignment_objective_In_inv (self : ContainerOptimizer)
    (containers : list container_data) (demands : list demand_data)
    (terms : list (Q * var)) (i j : nat) (cost : Q) :
  assignment_objective self containers demands = Return terms ->
  In (cost, assign_var i j) terms ->
  exists c d,
    nth_error containers i = Some c
    /\ nth_error demands j = Some d
    /\ _calculate_assignment_cost self c d = Return cost.
Proof.
  unfold assignment_objective. intros H Hin.
  destruct (mapM _ (enumerate containers)) as [rows|e] eqn:Hrows; cbn in H;
    [|discriminate].
  injection H as <-. apply in_concat in Hin as [row [Hrow Hin]].
  destruct (mapM_In_inv _ _ _ Hrows _ Hrow) as [[i' c] [Hic Hmk]]. cbn in Hmk.
  destruct (mapM_In_inv _ _ _ Hmk _ Hin) as [[j' d] [Hjd Hterm]]. cbn in Hterm.
  destruct (_calculate_assignment_cost self c d) as [cost'|e] eqn:Hcost;
    cbn in Hterm; [|discriminate].
  injection Hterm as -> -> ->.
  apply In_enumerate in Hic. apply In_enumerate in Hjd.
  exists c, d. repeat split; assumption.
Qed.

(** C5. The cost that [_calculate_assignment_cost] returns for a container
    and a demand is 10, plus the transport cost of the first Route record
    matching (container.current_port -> demand.port) or 0 when none matches,
    plus 1000 when the types are incompatible, minus 5 times the priority of
    the demand; this is the coefficient of [x[i][j]] in the objective of the
    model (the objective has a term on [x[i][j]], and every term on it
    carries that cost), and the [cost] of every entry of the assignments that
    [optimize_assignment] returns, where it is the cost of the container
    and the demand that the entry names. *)
Theorem assignment_cost_formula :
  forall (self : ContainerOptimizer)
         (containers : list container_data) (demands : list demand_data),
    (forall c d cost,
        _calculate_assignment_cost self c d = Return cost
        <-> pair_cost self c d cost)
    /\ (forall m i j c d,
           assignment_model self containers demands = Return m ->
           nth_error containers i = Some c ->
           nth_error demands j = Some d ->
           exists cost, pair_cost self c d cost
                        /\ In (cost, assign_var i j) (objective m))
    /\ (forall m i j cost,
           assignment_model self containers demands = Return m ->
           In (cost, assign_var i j) (objective m) ->
           exists c d,
             nth_error containers i = Some c
             /\ nth_error demands j = Some d
             /\ pair_cost self c d cost)
    /\ (forall (B : Backend) asg un unmet tc log entry,
           optimize_assignment B self containers demands
           = (AssignmentResult asg un unmet tc, log) ->
           In entry asg ->
           exists i j c d,
             nth_error containers i = Some c
             /\ nth_error demands j = Some d
             /\ cd_id c = Some (ae_container_id entry)
             /\ dd_id d = Some (ae_demand_id entry)
             /\ pair_cost self c d (ae_cost entry)).
Proof.
  intros self containers demands. split; [|split; [|split]].
  - intros c d cost. apply _calculate_assignment_cost_spec.
  - intros m i j c d Hm Hc Hd. unfold assignment_model in Hm.
    destruct (assignment_objective self containers demands) as [terms|e] eqn:Ht;
      cbn in Hm; [|discriminate].
    destruct (compatibility_constraints containers demands) as [compat|e];
      cbn in Hm; [|discriminate].
    injection Hm as <-. cbn [objective].
    destruct (assignment_objective_In _ _ _ _ _ _ _ _ Ht Hc Hd) as [cost [Hcost Hin]].
    exists cost. split; [|assumption].
    now apply _calculate_assignment_cost_spec.
  - intros m i j cost Hm Hin. unfold assignment_model in Hm.
    destruct (assignment_objective self containers demands) as [terms|e] eqn:Ht;
      cbn in Hm; [|discriminate].
    destruct (compatibility_constraints containers demands) as [compat|e];
      cbn in Hm; [|discriminate].
    injection Hm as <-. cbn [objective] in Hin.
    destruct (assignment_objective_In_inv _ _ _ _ _ _ _ Ht Hin)
      as (c & d & Hc & Hd & Hcost).
    exists c, d. split; [exact Hc|]. split; [exact Hd|].
    now apply _calculate_assignment_cost_spec.
  - intros B asg un unmet tc log entry Hrun Hin.
    destruct (optimize_assignment_inv _ _ _ _ _ _ _ _ _ Hrun)
      as [[-> _] | (m & val & _ & _ & _ & Hentries & _)]; [destruct Hin|].
    destruct (mapM_In_inv _ _ _ Hentries _ Hin) as [[i j] [_ H]].
    unfold entry_at, list_getitem in H. cbn [fst snd] in H.
    destruct (nth_error containers i) as [c|] eqn:Hc; cbn in H; [|discriminate].
    destruct (nth_error demands j) as [d|] eqn:Hd; cbn in H; [|discriminate].
    exists i, j, c, d. split; [exact Hc|]. split; [exact Hd|].
    unfold assignment_entry_of in H.
    destruct (cd_id c) as [container_id|]; cbn in H; [|discriminate].
    destruct (dd_id d) as [demand_id|]; cbn in H; [|discriminate].
    destruct (getitem "current_port" (cd_current_port c)); cbn in H; [|discriminate].
    destruct (getitem "port" (dd_port d)); cbn in H; [|discriminate].
    destruct (getitem "type" (cd_type c)); cbn in H; [|discriminate].
    destruct (_calculate_assignment_cost self c d) as [cost|e] eqn:Hcost;
      cbn in H; [|discriminate].
    injection H as <-. cbn [ae_cost ae_container_id ae_demand_id].
    split; [reflexivity|]. split; [reflexivity|].
    now apply _calculate_assignment_cost_spec.
Qed.

Lemma assignment_cost_formula_witness :
  (exists cost,
      _calculate_assignment_cost sample_network sample_container sample_demand
      = Return cost
      /\ (cost == 25 # 2)%Q)
  /\ (exists cost,
         _calculate_assignment_cost sample_network odd_container sample_demand
         = Return cost
         /\ (cost == 2025 # 2)%Q)
  /\ (exists cost,
         _calculate_assignment_cost sample_network returning_container demand_at_a
         = Return cost
         /\ (cost == 5 # 1)%Q)
  /\ (exists m cost,
         assignment_model sample_network [returning_container] [demand_at_a]
         = Return m
         /\ In (cost, assign_var 0 0) (objective m)
         /\ (cost == 5 # 1)%Q)
  /\ exists entry un unmet tc log,
       optimize_assignment (checking_backend sample_matching) sample_network
         [returning_container] [demand_at_a]
       = (AssignmentResult [entry] un unmet tc, log)
       /\ ae_container_id entry = "C2"
       /\ ae_demand_id entry = "D2"
       /\ (ae_cost entry == 5 # 1)%Q.
Proof.
  destruct (assignment_cost_formula sample_network
              [returning_container] [demand_at_a])
    as (Hcost & Hobjective & _ & Hentries).
  split; [|split; [|split; [|split]]].
  - eexists. split.
    + apply Hcost. exists "A", "B", "20GP", "20GP". repeat split.
    + vm_compute. reflexivity.
  - eexists. split.
    + apply Hcost. exists "A", "B", "45HC", "20GP". repeat split.
    + vm_compute. reflexivity.
  - eexists. split.
    + apply Hcost. exists "B", "A", "20GP", "20GP". repeat split.
    + vm_compute. reflexivity.
  - destruct (Hobjective _ 0%nat 0%nat returning_container demand_at_a
                ltac:(vm_compute; reflexivity) eq_refl eq_refl)
      as (cost & (fp & tp & ct & rt & Hfp & Htp & Hct & Hrt & Hvalue) & Hin).
    cbn in Hfp, Htp, Hct, Hrt.
    injection Hfp as <-. injection Htp as <-.
    injection Hct as <-. injection Hrt as <-.
    eexists. exists cost. split; [vm_compute; reflexivity|].
    split; [exact Hin|]. rewrite Hvalue. vm_compute. reflexivity.
  - do 5 eexists. split; [vm_compute; reflexivity|].
    split; [reflexivity|]. split; [reflexivity|].
    destruct (Hentries (checking_backend sample_matching) _ _ _ _ _ _
                ltac:(vm_compute; reflexivity) ltac:(left; reflexivity))
      as (i & j & c & d & Hc & Hd & _ & _
          & (fp & tp & ct & rt & Hfp & Htp & Hct & Hrt & Hvalue)).
    destruct i as [|i]; [|destruct i; discriminate].
    destruct j as [|j]; [|destruct j; discriminate].
    cbn in Hc, Hd. injection Hc as <-. injection Hd as <-.
    cbn in Hfp, Htp, Hct, Hrt.
    injection Hfp as <-. injection Htp as <-.
    injection Hct as <-. injection Hrt as <-.
    rewrite Hvalue. vm_compute. reflexivity.
Defined.

(** A feasible point of the assignment model selects a matching of
    compatible pairs. *)
Lemma feasible_matching (self : ContainerOptimizer)
    (containers : list container_data) (demands : list demand_data)
    (m : MPModel) (val : var -> Z) :
  assignment_model self containers demands = Return m ->
  feasibleb m val = true ->
  let pairs := assigned_pairs val (List.length containers) (List.length demands) in
  NoDup (map fst pairs)
  /\ NoDup (map snd pairs)
  /\ (forall i j, In (i, j) pairs ->
      exists ct rt, pair_types containers demands i j ct rt
                    /\ _is_compatible ct rt = true).
Proof.
  intros Hm Hfeas pairs. unfold assignment_model in Hm.
  destruct (assignment_objective self containers demands) as [terms|e];
    cbn in Hm; [|discriminate].
  destruct (compatibility_constraints containers demands) as [compat|e] eqn:Hcompat;
    cbn in Hm; [|discriminate].
  injection Hm as <-.
  set (n := List.length containers) in *. set (k := List.length demands) in *.
  assert (Hbound : forall i j, (i < n)%nat -> (j < k)%nat ->
                               0 <= val (assign_var i j) <= 1).
  { intros i j Hi Hj. apply (feasible_bounds _ _ _ _ _ Hfeas). cbn.
    now apply In_x_vars. }
  assert (Hrow : forall i, (i < n)%nat ->
             zsum (map (fun j => val (assign_var i j)) (seq 0 k)) <= 1).
  { intros i Hi.
    pose proof (feasible_le _ _
      (LSum (map (fun j => assign_var i j) (seq 0 k))) (LConst 1) Hfeas) as H.
    cbn in H. rewrite map_map in H. apply H.
    apply in_or_app. left. unfold container_constraints.
    apply in_map_iff. exists i. split; [reflexivity | apply in_seq; lia]. }
  assert (Hcol : forall j, (j < k)%nat ->
             zsum (map (fun i => val (assign_var i j)) (seq 0 n)) <= 1).
  { intros j Hj.
    pose proof (feasible_le _ _
      (LSum (map (fun i => assign_var i j) (seq 0 n))) (LConst 1) Hfeas) as H.
    cbn in H. rewrite map_map in H. apply H.
    apply in_or_app. right. apply in_or_app. left. unfold demand_constraints.
    apply in_map_iff. exists j. split; [reflexivity | apply in_seq; lia]. }
  assert (Hsel : forall i j, selected val i j = true -> 1 <= val (assign_var i j)).
  { intros i j H. unfold selected in H. lia. }
  assert (Hone_row : forall i j j', In (i, j) pairs -> In (i, j') pairs -> j = j').
  { intros i j j' H H'. apply In_assigned_pairs in H as (Hi & Hj & Hs).
    apply In_assigned_pairs in H' as (_ & Hj' & Hs').
    destruct (Nat.eq_dec j j') as [|Hne]; [assumption | exfalso].
    pose proof (zsum_map_two (fun j => val (assign_var i j)) (seq 0 k) j j') as H2.
    cbn beta in H2. specialize (Hrow i Hi). apply Hsel in Hs, Hs'.
    assert (val (assign_var i j) + val (assign_var i j')
            <= zsum (map (fun j => val (assign_var i j)) (seq 0 k))).
    { apply H2; [|apply in_seq; lia|apply in_seq; lia|assumption].
      intros x Hx. apply in_seq in Hx. apply Hbound; lia. }
    lia. }
  assert (Hone_col : forall i i' j, In (i, j) pairs -> In (i', j) pairs -> i = i').
  { intros i i' j H H'. apply In_assigned_pairs in H as (Hi & Hj & Hs).
    apply In_assigned_pairs in H' as (Hi' & _ & Hs').
    destruct (Nat.eq_dec i i') as [|Hne]; [assumption | exfalso].
    pose proof (zsum_map_two (fun i => val (assign_var i j)) (seq 0 n) i i') as H2.
    cbn beta in H2. specialize (Hcol j Hj). apply Hsel in Hs, Hs'.
    assert (val (assign_var i j) + val (assign_var i' j)
            <= zsum (map (fun i => val (assign_var i j)) (seq 0 n))).
    { apply H2; [|apply in_seq; lia|apply in_seq; lia|assumption].
      intros x Hx. apply in_seq in Hx. apply Hbound; lia. }
    lia. }
  split; [|split].
  - apply NoDup_map_NoDup_ForallPairs; [|apply NoDup_assigned_pairs].
    intros [i j] [i' j'] H H' Heq. cbn in Heq. subst i'.
    f_equal. eapply Hone_row; eassumption.
  - apply NoDup_map_NoDup_ForallPairs; [|apply NoDup_assigned_pairs].
    intros [i j] [i' j'] H H' Heq. cbn in Heq. subst j'.
    f_equal. eapply Hone_col; eassumption.
  - intros i j H. apply In_assigned_pairs in H as (Hi & Hj & Hs).
    destruct (nth_error containers i) as [c|] eqn:Hc;
      [|apply nth_error_None in Hc; fold n in Hc; lia].
    destruct (nth_error demands j) as [d|] eqn:Hd;
      [|apply nth_error_None in Hd; fold k in Hd; lia].
    destruct (compatibility_constraints_In _ _ _ _ _ _ _ Hcompat Hc Hd)
      as (ct & rt & Hct & Hrt & Hforced).
    exists ct, rt. split; [exists c, d; auto|].
    destruct (_is_compatible ct rt) eqn:Hcomp; [reflexivity | exfalso].
    pose proof (feasible_eq _ _ (LVar (assign_var i j)) (LConst 0) Hfeas) as H0.
    cbn in H0. apply Hsel in Hs. rewrite H0 in Hs; [lia|].
    apply in_or_app. right. apply in_or_app. right. now apply Hforced.
Qed.

(** C4. In an assignment dictionary returned by [optimize_assignment] the
    entries are those of a list of index pairs (container, demand) in which
    no container index and no demand index occurs twice and whose types are
    compatible by the fixed table (20GP satisfies 20GP; 40GP satisfies 40GP
    or 40HC; 40HC satisfies 40HC or 40GP); and the model contains, for every
    incompatible pair, the constraint [x[i][j] == 0]. *)
Theorem optimal_assignment_is_a_compatible_matching :
  forall (B : Backend) (self : ContainerOptimizer)
         (containers : list container_data) (demands : list demand_data)
         asg un unmet tc log,
    sound B ->
    optimize_assignment B self containers demands
    = (AssignmentResult asg un unmet tc, log) ->
    (exists pairs,
        mapM (entry_at self containers demands) pairs = Return asg
        /\ NoDup (map fst pairs)
        /\ NoDup (map snd pairs)
        /\ forall i j, In (i, j) pairs ->
             exists ct rt, pair_types containers demands i j ct rt
                           /\ compatible_by_table ct rt)
    /\ (forall m i j ct rt,
           assignment_model self containers demands = Return m ->
           pair_types containers demands i j ct rt ->
           ~ compatible_by_table ct rt ->
           In (CEq (LVar (assign_var i j)) (LConst 0)) (constraints m)).
Proof.
  intros B self containers demands asg un unmet tc log Hsound Hrun. split.
  - destruct (optimize_assignment_inv _ _ _ _ _ _ _ _ _ Hrun)
      as [[-> _] | (m & val & Hm & Hsolve & Hval & Hentries & _)].
    + exists []. repeat split; try constructor. intros i j [].
    + pose proof (feasible_matching _ _ _ _ val Hm (Hsound _ _ Hsolve Hval))
        as (Hfst & Hsnd & Hcompat).
      eexists. split; [exact Hentries|]. split; [exact Hfst|].
      split; [exact Hsnd|].
      intros i j Hin. destruct (Hcompat i j Hin) as (ct & rt & Hty & Hc).
      exists ct, rt. split; [assumption | now apply _is_compatible_table].
  - intros m i j ct rt Hm (c & d & Hc & Hd & Hct & Hrt) Hinc.
    unfold assignment_model in Hm.
    destruct (assignment_objective self containers demands) as [terms|e];
      cbn in Hm; [|discriminate].
    destruct (compatibility_constraints containers demands) as [compat|e] eqn:Hcompat;
      cbn in Hm; [|discriminate].
    injection Hm as <-. cbn [constraints].
    destruct (compatibility_constraints_In _ _ _ _ _ _ _ Hcompat Hc Hd)
      as (ct' & rt' & Hct' & Hrt' & Hforced).
    rewrite Hct in Hct'. rewrite Hrt in Hrt'.
    injection Hct' as <-. injection Hrt' as <-.
    apply in_or_app. right. apply in_or_app. right. apply Hforced.
    destruct (_is_compatible ct rt) eqn:E; [|reflexivity].
    exfalso. apply Hinc. now apply _is_compatible_table.
Qed.

Lemma optimal_assignment_is_a_compatible_matching_witness :
  exists asg un unmet tc log,
    optimize_assignment (checking_backend sample_matching) sample_network
      [sample_container] [sample_demand]
    = (AssignmentResult asg un unmet tc, log)
    /\ List.length asg = 1%nat
    /\ exists pairs,
         mapM (entry_at sample_network [sample_container] [sample_demand]) pairs
         = Return asg
         /\ NoDup (map fst pairs) /\ NoDup (map snd pairs).
Proof.
  do 5 eexists. split; [vm_compute; reflexivity|]. split; [reflexivity|].
  destruct (optimal_assignment_is_a_compatible_matching
              (checking_backend sample_matching) sample_network
              [sample_container] [sample_demand] _ _ _ _ _
              (checking_backend_sound sample_matching)
              ltac:(vm_compute; reflexivity))
    as [(pairs & Hentries & Hfst & Hsnd & _) _].
  exists pairs. repeat split; assumption.
Defined.

Lemma not_assigned_In {A} (assigned : list nat) (l : list A) (i : nat) (a : A) :
  nth_error l i = Some a -> ~ In i assigned -> In a (not_assigned assigned l).
Proof.
  intros Hnth Hnot. unfold not_assigned. apply in_map_iff.
  exists (i, a). split; [reflexivity|]. apply filter_In. split.
  - now apply In_enumerate.
  - cbn. apply negb_true_iff. destruct (existsb (Nat.eqb i) assigned) eqn:E;
      [|reflexivity].
    apply existsb_exists in E as [x [Hx Heq]]. apply Nat.eqb_eq in Heq.
    subst x. contradiction.
Qed.

(** C10. A container type other than 20GP, 40GP and 40HC is compatible with
    no required type; so in an assignment dictionary returned by
    [optimize_assignment] a container of such a type is the container of no
    assignment pair and is listed among [unassigned_containers]. *)
Theorem unknown_type_is_never_assigned :
  (forall ct rt, ~ known_type ct -> _is_compatible ct rt = false)
  /\ forall (B : Backend) (self : ContainerOptimizer)
            (containers : list container_data) (demands : list demand_data)
            asg un unmet tc log (i : nat) (c : container_data) (ct : string),
      sound B ->
      optimize_assignment B self containers demands
      = (AssignmentResult asg un unmet tc, log) ->
      nth_error containers i = Some c ->
      cd_type c = Some ct ->
      ~ known_type ct ->
      In c un
      /\ exists pairs,
           mapM (entry_at self containers demands) pairs = Return asg
           /\ ~ In i (map fst pairs).
Proof.
  split; [exact _is_compatible_unknown|].
  intros B self containers demands asg un unmet tc log i c ct
         Hsound Hrun Hc Hct Hunknown.
  destruct (optimize_assignment_inv _ _ _ _ _ _ _ _ _ Hrun)
    as [[-> ->] | (m & val & Hm & Hsolve & Hval & Hentries & ->)].
  - split; [eapply nth_error_In; eassumption|].
    exists []. split; [reflexivity | intros []].
  - pose proof (feasible_matching _ _ _ _ val Hm (Hsound _ _ Hsolve Hval))
      as (_ & _ & Hcompat).
    assert (Hfree : ~ In i (map fst (assigned_pairs val (List.length containers)
                                                      (List.length demands)))).
    { intros Hin. apply in_map_iff in Hin as [[i' j] [Heq Hin]].
      cbn in Heq. subst i'.
      destruct (Hcompat i j Hin) as (ct' & rt & (c' & d & Hc' & _ & Hct' & _) & Hok).
      rewrite Hc in Hc'. injection Hc' as <-. rewrite Hct in Hct'.
      injection Hct' as <-.
      rewrite (_is_compatible_unknown ct rt Hunknown) in Hok. discriminate. }
    split; [now apply not_assigned_In with (i := i)|].
    eexists. split; [exact Hentries | exact Hfree].
Qed.

Lemma unknown_type_is_never_assigned_witness :
  exists asg un unmet tc log,
    optimize_assignment (checking_backend (fun _ => 0)) sample_network
      [odd_container; sample_container] [sample_demand]
    = (AssignmentResult asg un unmet tc, log)
    /\ is_some tc = true
    /\ In odd_container un.
Proof.
  do 5 eexists. split; [vm_compute; reflexivity|]. split; [reflexivity|].
  destruct unknown_type_is_never_assigned as [_ H].
  apply (H (checking_backend (fun _ => 0)) sample_network
           [odd_container; sample_container] [sample_demand]
           _ _ _ _ _ 0%nat odd_container "45HC"
           (checking_backend_sound _)
           ltac:(vm_compute; reflexivity) eq_refl eq_refl).
  intros [H0 | [H0 | H0]]; discriminate.
Defined.

(* ================================================================== *)
(** * The redistribution plan *)
(* ================================================================== *)

Lemma quantity_where_flat_map {A} (p : relocation_entry -> bool)
    (g : A -> list relocation_entry) (l : list A) :
  quantity_where p (flat_map g l)
  = zsum (map (fun x => quantity_where p (g x)) l).
Proof.
  unfold quantity_where. induction l as [|a l IH]; cbn; [reflexivity|].
  rewrite filter_app, map_app, zsum_app, IH. reflexivity.
Qed.

(** The returned quantities, loop by loop. *)
Lemma quantity_where_extract (p : relocation_entry -> bool) (val : var -> Z)
    (names types : list string) :
  quantity_where p (extract_relocations val names types)
  = zsum (map (fun from_port =>
      zsum (map (fun to_port =>
        if String.eqb from_port to_port then 0
        else zsum (map (fun ctype =>
               zsum (map (fun t =>
                 quantity_where p (relocation_of val from_port to_port ctype t))
                 days)) types)) names)) names).
Proof.
  unfold extract_relocations. rewrite quantity_where_flat_map.
  apply zsum_map_ext. intros f _. rewrite quantity_where_flat_map.
  apply zsum_map_ext. intros to _.
  destruct (String.eqb f to); [reflexivity|].
  rewrite quantity_where_flat_map. apply zsum_map_ext. intros c _.
  apply quantity_where_flat_map.
Qed.

(** One cell of the loops: a positive flow value is reported as it is. *)
Lemma quantity_where_cell (p : relocation_entry -> bool) (val : var -> Z)
    (f to c : string) (t : nat) :
  0 <= val (flow_var f to c t) ->
  quantity_where p (relocation_of val f to c t)
  = if p {| re_from_port := f; re_to_port := to; re_container_type := c;
            re_quantity := val (flow_var f to c t); re_day := (t + 1)%nat;
            re_priority := if (t <=? 2)%nat then "high" else "medium" |}
    then val (flow_var f to c t) else 0.
Proof.
  intros Hnn. unfold quantity_where, relocation_of.
  destruct (0 <? val (flow_var f to c t)) eqn:Hpos.
  - cbn. destruct (p _); cbn; lia.
  - apply Z.ltb_ge in Hpos. cbn. destruct (p _); lia.
Qed.

Lemma on_day_cell (t t0 : nat) f to c q pr :
  on_day t0 {| re_from_port := f; re_to_port := to; re_container_type := c;
               re_quantity := q; re_day := (t + 1)%nat; re_priority := pr |}
  = (t =? t0)%nat.
Proof.
  unfold on_day. cbn [re_day].
  destruct (Nat.eqb_spec t t0) as [-> | Hne].
  - apply Nat.eqb_refl.
  - apply Nat.eqb_neq. lia.
Qed.

Section ReturnedFlows.

Variable val : var -> Z.
Variables names types : list string.
Hypothesis names_unique : NoDup names.
Hypothesis types_unique : NoDup types.
Hypothesis flows_nonnegative :
  forall f to c t, In f names -> In to names -> f <> to -> In c types ->
                   In t days -> 0 <= val (flow_var f to c t).

(** The cells of one ordered pair that satisfy a predicate fixing the
    type and the day add up to the one flow value it selects. *)
Lemma pair_cells_type_day (p : relocation_entry -> bool) (f to c0 : string)
    (t0 : nat) :
  In f names -> In to names -> f <> to -> In c0 types -> In t0 days ->
  (forall c t q pr,
      p {| re_from_port := f; re_to_port := to; re_container_type := c;
           re_quantity := q; re_day := (t + 1)%nat; re_priority := pr |}
      = String.eqb c c0 && (t =? t0)%nat) ->
  zsum (map (fun c =>
    zsum (map (fun t => quantity_where p (relocation_of val f to c t)) days))
    types)
  = val (flow_var f to c0 t0).
Proof.
  intros Hf Hto Hne Hc0 Ht0 Hp.
  rewrite (zsum_map_pick _ types c0 types_unique Hc0).
  - rewrite (zsum_map_pick _ days t0 (seq_NoDup _ _) Ht0).
    + rewrite quantity_where_cell by now apply flows_nonnegative.
      rewrite Hp, String.eqb_refl, Nat.eqb_refl. reflexivity.
    + intros t Ht Hnt. rewrite quantity_where_cell by now apply flows_nonnegative.
      rewrite Hp. apply Nat.eqb_neq in Hnt. rewrite Hnt, andb_false_r.
      reflexivity.
  - intros c Hc Hnc. apply zsum_map_zero. intros t Ht.
    rewrite quantity_where_cell by now apply flows_nonnegative.
    rewrite Hp. apply String.eqb_neq in Hnc. rewrite Hnc. reflexivity.
Qed.

(** The cells of one ordered pair that a predicate rejects add up to 0. *)
Lemma pair_cells_rejected (p : relocation_entry -> bool) (f to : string) :
  In f names -> In to names -> f <> to ->
  (forall c t q pr,
      p {| re_from_port := f; re_to_port := to; re_container_type := c;
           re_quantity := q; re_day := (t + 1)%nat; re_priority := pr |}
      = false) ->
  zsum (map (fun c =>
    zsum (map (fun t => quantity_where p (relocation_of val f to c t)) days))
    types)
  = 0.
Proof.
  intros Hf Hto Hne Hp. apply zsum_map_zero. intros c Hc.
  apply zsum_map_zero. intros t Ht.
  rewrite quantity_where_cell by now apply flows_nonnegative.
  rewrite Hp. reflexivity.
Qed.

Lemma returned_inflow (port ctype : string) (t0 : nat) :
  In port names -> In ctype types -> In t0 days ->
  quantity_where (fun r => String.eqb (re_to_port r) port
                           && String.eqb (re_container_type r) ctype
                           && on_day t0 r)
                 (extract_relocations val names types)
  = zsum (map val (inflow_vars names port ctype t0)).
Proof.
  intros Hport Hctype Ht0. rewrite quantity_where_extract.
  unfold inflow_vars, others. rewrite map_map, zsum_map_filter.
  apply zsum_map_ext. intros f Hf.
  rewrite (zsum_map_pick _ names port names_unique Hport).
  - destruct (String.eqb_spec f port) as [-> | Hne]; [reflexivity|]. cbn [negb].
    apply pair_cells_type_day; try assumption.
    intros c t q pr. cbn [re_to_port re_container_type].
    rewrite on_day_cell, String.eqb_refl. reflexivity.
  - intros to Hto Hnto. destruct (String.eqb_spec f to) as [-> | Hne];
      [reflexivity|].
    apply pair_cells_rejected; try assumption.
    intros c t q pr. cbn [re_to_port]. apply String.eqb_neq in Hnto.
    rewrite Hnto. reflexivity.
Qed.

Lemma returned_outflow (port ctype : string) (t0 : nat) :
  In port names -> In ctype types -> In t0 days ->
  quantity_where (fun r => String.eqb (re_from_port r) port
                           && String.eqb (re_container_type r) ctype
                           && on_day t0 r)
                 (extract_relocations val names types)
  = zsum (map val (outflow_vars names port ctype t0)).
Proof.
  intros Hport Hctype Ht0. rewrite quantity_where_extract.
  rewrite (zsum_map_pick _ names port names_unique Hport).
  - unfold outflow_vars, others. rewrite map_map, zsum_map_filter.
    apply zsum_map_ext. intros to Hto. rewrite (String.eqb_sym port to).
    destruct (String.eqb_spec to port) as [-> | Hne]; [reflexivity|]. cbn [negb].
    apply pair_cells_type_day; try assumption; [congruence|].
    intros c t q pr. cbn [re_from_port re_container_type].
    rewrite on_day_cell, String.eqb_refl. reflexivity.
  - intros f Hf Hnf. apply zsum_map_zero. intros to Hto.
    destruct (String.eqb_spec f to) as [-> | Hne]; [reflexivity|].
    apply pair_cells_rejected; try assumption.
    intros c t q pr. cbn [re_from_port]. apply String.eqb_neq in Hnf.
    rewrite Hnf. reflexivity.
Qed.

End ReturnedFlows.

Section ReturnedPairFlow.

Variable val : var -> Z.
Variables names types : list string.
Hypothesis names_unique : NoDup names.
Hypothesis flows_nonnegative :
  forall f to c t, In f names -> In to names -> f <> to -> In c types ->
                   In t days -> 0 <= val (flow_var f to c t).

Lemma returned_pair_flow (from_port to_port : string) (t0 : nat) :
  In from_port names -> In to_port names -> from_port <> to_port -> In t0 days ->
  quantity_where (fun r => String.eqb (re_from_port r) from_port
                           && String.eqb (re_to_port r) to_port
                           && on_day t0 r)
                 (extract_relocations val names types)
  = zsum (map val (map (fun ctype => flow_var from_port to_port ctype t0) types)).
Proof.
  intros Hfrom Hto Hne Ht0. rewrite quantity_where_extract.
  assert (Hcell : forall f to c t,
             In f names -> In to names -> f <> to -> In c types -> In t days ->
             quantity_where (fun r => String.eqb (re_from_port r) from_port
                                      && String.eqb (re_to_port r) to_port
                                      && on_day t0 r)
                            (relocation_of val f to c t)
             = if String.eqb f from_port && String.eqb to to_port && (t =? t0)%nat
               then val (flow_var f to c t) else 0).
  { intros f to c t Hf Hto' Hne' Hc Ht.
    rewrite quantity_where_cell by now apply flows_nonnegative.
    cbn [re_from_port re_to_port]. rewrite on_day_cell. reflexivity. }
  rewrite (zsum_map_pick _ names from_port names_unique Hfrom).
  - rewrite (zsum_map_pick _ names to_port names_unique Hto).
    + apply String.eqb_neq in Hne. rewrite Hne. rewrite map_map.
      apply zsum_map_ext. intros c Hc.
      rewrite (zsum_map_pick _ days t0 (seq_NoDup _ _) Ht0).
      * apply String.eqb_neq in Hne.
        rewrite Hcell, !String.eqb_refl, Nat.eqb_refl by assumption.
        reflexivity.
      * intros t Ht Hnt. apply String.eqb_neq in Hne.
        rewrite Hcell by assumption. apply Nat.eqb_neq in Hnt.
        rewrite Hnt, andb_false_r. reflexivity.
    + intros to Hto' Hnto.
      destruct (String.eqb_spec from_port to) as [-> | Hne']; [reflexivity|].
      apply zsum_map_zero. intros c Hc. apply zsum_map_zero. intros t Ht.
      rewrite Hcell by assumption. apply String.eqb_neq in Hnto.
      rewrite Hnto, andb_false_r. reflexivity.
  - intros f Hf Hnf. apply zsum_map_zero. intros to Hto'.
    destruct (String.eqb_spec f to) as [-> | Hne']; [reflexivity|].
    apply zsum_map_zero. intros c Hc. apply zsum_map_zero. intros t Ht.
    rewrite Hcell by assumption. apply String.eqb_neq in Hnf.
    rewrite Hnf. reflexivity.
Qed.

End ReturnedPairFlow.

(** ** Dictionaries *)

Lemma dict_lookup_In {V} (d : dict V) (k : string) (v : V) :
  dict_lookup d k = Some v -> In (k, v) d.
Proof.
  induction d as [|[k' v'] d IH]; cbn; [discriminate|].
  destruct (String.eqb_spec k' k) as [-> | Hne].
  - intros H. injection H as <-. now left.
  - intros H. right. now apply IH.
Qed.

Lemma dict_lookup_keys {V} (d : dict V) (k : string) (v : V) :
  dict_lookup d k = Some v -> In k (keys d).
Proof.
  intros H. apply dict_lookup_In in H. unfold keys.
  apply in_map_iff. exists (k, v). split; [reflexivity | assumption].
Qed.

Lemma dict_lookup_built {V} (g : string -> V) (l : list string) (k : string) :
  In k l -> dict_lookup (map (fun k => (k, g k)) l) k = Some (g k).
Proof.
  induction l as [|a l IH]; intros Hin; [destruct Hin|]. cbn.
  destruct (String.eqb_spec a k) as [-> | Hne]; [reflexivity|].
  destruct Hin as [-> | Hin]; [congruence | now apply IH].
Qed.

Lemma keys_dict_set {V} (d : dict V) (k : string) (v : V) :
  keys (dict_set d k v) = if existsb (String.eqb k) (keys d) then keys d
                          else keys d ++ [k].
Proof.
  induction d as [|[k' v'] d IH]; cbn; [reflexivity|].
  rewrite (String.eqb_sym k k').
  destruct (String.eqb_spec k' k) as [-> | Hne]; cbn; [reflexivity|].
  unfold keys in IH. rewrite IH. destruct (existsb _ _); reflexivity.
Qed.

Lemma dict_set_keeps_keys_unique {V} (d : dict V) (k : string) (v : V) :
  NoDup (keys d) -> NoDup (keys (dict_set d k v)).
Proof.
  intros Hnd. rewrite keys_dict_set.
  destruct (existsb (String.eqb k) (keys d)) eqn:E; [assumption|].
  apply NoDup_app; [assumption | repeat constructor; intros [] |].
  intros a Ha [Heq | []]. subst a.
  assert (existsb (String.eqb k) (keys d) = true); [|congruence].
  apply existsb_exists. exists k. split; [assumption | apply String.eqb_refl].
Qed.

(** The port names of an optimizer stay distinct through [load_data]: they
    are the keys of a dictionary. *)
Lemma load_data_keeps_port_names_unique (data : payload) (self : ContainerOptimizer) :
  NoDup (port_names self) ->
  NoDup (port_names (snd (fst (load_data data self)))).
Proof.
  assert (Hports : forall entries s,
             NoDup (port_names s) ->
             NoDup (port_names (snd (load_loop make_port store_port entries s)))).
  { induction entries as [|d rest IH]; intros s Hs; cbn; [assumption|].
    destruct (make_port d); [|assumption].
    apply IH. unfold port_names, store_port. cbn.
    now apply dict_set_keeps_keys_unique. }
  assert (Hcont : forall entries s,
             port_names (snd (load_loop make_container append_container entries s))
             = port_names s).
  { induction entries as [|d rest IH]; intros s; cbn; [reflexivity|].
    destruct (make_container d); [|reflexivity]. now rewrite IH. }
  assert (Hroute : forall entries s,
             port_names (snd (load_loop make_route append_route entries s))
             = port_names s).
  { induction entries as [|d rest IH]; intros s; cbn; [reflexivity|].
    destruct (make_route d); [|reflexivity]. now rewrite IH. }
  intros Hnd. unfold load_data, load_body.
  specialize (Hports (dict_get (p_ports data) []) self Hnd).
  destruct (load_loop make_port store_port _ self) as [[u|e] s1]; cbn in Hports;
    [|exact Hports].
  specialize (Hcont (dict_get (p_containers data) []) s1).
  destruct (load_loop make_container append_container _ s1) as [[u2|e] s2];
    cbn in Hcont; [|cbn; now rewrite Hcont].
  specialize (Hroute (dict_get (p_routes data) []) s2).
  destruct (load_loop make_route append_route _ s2) as [[u3|e] s3];
    cbn in Hroute |- *; rewrite Hroute, Hcont; exact Hports.
Qed.

(** ** What the model contains *)

Lemma In_days (t : nat) : In t days <-> (t < time_horizon)%nat.
Proof. unfold days. rewrite in_seq. lia. Qed.

Lemma flow_var_declared (self : ContainerOptimizer) (f to c : string) (t : nat) :
  In f (port_names self) -> In to (port_names self) -> f <> to ->
  In c (container_types self) -> In t days ->
  In (flow_var f to c t, (0, 1000)) (int_vars (redistribution_model self)).
Proof.
  intros Hf Hto Hne Hc Ht. cbn. apply in_or_app. left. unfold flow_vars.
  apply in_flat_map. exists f. split; [assumption|].
  apply in_flat_map. exists to. split; [assumption|].
  apply String.eqb_neq in Hne. rewrite Hne.
  apply in_flat_map. exists c. split; [assumption|].
  apply in_map_iff. exists t. split; [reflexivity | assumption].
Qed.

Lemma conservation_added (self : ContainerOptimizer) (port : string)
    (port_obj : Port.t) (c : string) (t : nat) :
  In (port, port_obj) (ports self) -> In c (container_types self) -> In t days ->
  In (conservation self (port_names self) port port_obj c t)
     (constraints (redistribution_model self)).
Proof.
  intros Hp Hc Ht. cbn. apply in_or_app. left. unfold conservation_constraints.
  apply in_flat_map. exists (port, port_obj). split; [assumption|].
  apply in_flat_map. exists c. split; [assumption|].
  apply in_map_iff. exists t. split; [reflexivity | assumption].
Qed.

Lemma capacity_added (self : ContainerOptimizer) (port : string)
    (port_obj : Port.t) (t : nat) :
  In (port, port_obj) (ports self) -> In t days ->
  In (CLe (LSum (map (fun ctype => storage_var port ctype t) (container_types self)))
          (LConst (Port.capacity port_obj)))
     (constraints (redistribution_model self)).
Proof.
  intros Hp Ht. cbn. apply in_or_app. right. apply in_or_app. left.
  unfold capacity_constraints.
  apply in_flat_map. exists (port, port_obj). split; [assumption|].
  apply in_map_iff. exists t. split; [reflexivity | assumption].
Qed.

Lemma route_capacity_added (self : ContainerOptimizer) (f to : string) (t : nat) :
  In f (port_names self) -> In to (port_names self) -> f <> to -> In t days ->
  In (CLe (LSum (map (fun ctype => flow_var f to ctype t) (container_types self)))
          (LConst (route_capacity self f to)))
     (constraints (redistribution_model self)).
Proof.
  intros Hf Hto Hne Ht. cbn. apply in_or_app. right. apply in_or_app. right.
  unfold route_capacity_constraints.
  apply in_flat_map. exists f. split; [assumption|].
  apply in_flat_map. exists to. split; [assumption|].
  apply String.eqb_neq in Hne. rewrite Hne.
  apply in_map_iff. exists t. split; [reflexivity | assumption].
Qed.

Lemma lstm_demand_nth (port_obj : Port.t) (t : nat) :
  lstm_demand port_obj t = nth t (Port.demand_forecast port_obj) 0.
Proof.
  unfold lstm_demand. destruct (Nat.ltb_spec t (List.length (Port.demand_forecast port_obj)));
    [reflexivity|].
  symmetry. now apply nth_overflow.
Qed.

(** ** What the extraction returns *)

Lemma nth_error_days {A} (g : nat -> A) (t : nat) :
  (t < time_horizon)%nat -> nth_error (map g days) t = Some (g t).
Proof.
  unfold time_horizon. intros Ht.
  do 7 (destruct t as [|t]; [reflexivity|]). lia.
Qed.

Lemma planned_storage_extracted (m : MPModel) (val : var -> Z)
    (names types : list string) (port ctype : string) (t : nat) :
  In port names -> In ctype types -> (t < time_horizon)%nat ->
  planned_storage (_extract_redistribution_solution m val names types) port ctype t
  = Some (val (storage_var port ctype t)).
Proof.
  intros Hp Hc Ht. unfold planned_storage, _extract_redistribution_solution.
  cbn [rs_storage_plan]. unfold extract_storage_plan, dict.
  rewrite (dict_lookup_built (V := list (string * list Z))
             (fun port => map (fun ctype =>
                (ctype, map (fun t => val (storage_var port ctype t)) days)) types)
             names port Hp).
  rewrite (dict_lookup_built
             (fun ctype => map (fun t => val (storage_var port ctype t)) days)
             types ctype Hc).
  exact (nth_error_days (fun t => val (storage_var port ctype t)) t Ht).
Qed.

Lemma port_storage_extracted (m : MPModel) (val : var -> Z)
    (names types : list string) (port : string) (t : nat) :
  In port names -> (t < time_horizon)%nat ->
  port_storage (_extract_redistribution_solution m val names types) port t
  = Some (zsum (map val (map (fun ctype => storage_var port ctype t) types))).
Proof.
  intros Hp Ht. unfold port_storage, _extract_redistribution_solution.
  cbn [rs_storage_plan]. unfold extract_storage_plan, dict.
  rewrite (dict_lookup_built (V := list (string * list Z))
             (fun port => map (fun ctype =>
                (ctype, map (fun t => val (storage_var port ctype t)) days)) types)
             names port Hp).
  f_equal. rewrite !map_map. apply zsum_map_ext. intros c _. cbn [snd].
  apply nth_error_nth.
  exact (nth_error_days (fun t => val (storage_var port c t)) t Ht).
Qed.

(** How [optimize_container_redistribution] comes to return a solution. *)
Lemma optimize_container_redistribution_inv (B : Backend)
    (self : ContainerOptimizer) (sol : redistribution_solution) (log : list event) :
  optimize_container_redistribution B self = (RedistributionResult sol, log) ->
  exists val,
    Solve B (redistribution_model self) = Return OPTIMAL
    /\ solution_value B (redistribution_model self) = Return val
    /\ sol = _extract_redistribution_solution (redistribution_model self) val
               (port_names self) (container_types self).
Proof.
  unfold optimize_container_redistribution. intros H.
  destruct (negb (CreateSolver B)); [discriminate|].
  destruct (build B (redistribution_model self)); [|discriminate].
  destruct (Solve B (redistribution_model self)) as [status|e]; [|discriminate].
  destruct (is_optimal status) eqn:Hopt; [|discriminate].
  apply is_optimal_true in Hopt. subst status.
  destruct (solution_value B (redistribution_model self)) as [val|e];
    [|discriminate].
  injection H as <- _. exists val. repeat split.
Qed.

(** The flow values of an optimal point are not negative. *)
Lemma optimal_flows_nonnegative (self : ContainerOptimizer) (val : var -> Z) :
  feasibleb (redistribution_model self) val = true ->
  forall f to c t,
    In f (port_names self) -> In to (port_names self) -> f <> to ->
    In c (container_types self) -> In t days ->
    0 <= val (flow_var f to c t).
Proof.
  intros Hfeas f to c t Hf Hto Hne Hc Ht.
  apply (feasible_bounds _ _ _ 0 1000 Hfeas).
  now apply flow_var_declared.
Qed.

(** C1. In a solution returned with status "optimal", for every port,
    container type and day [t] of the horizon: on day 0 the planned storage
    is the number of loaded containers of that type at that port plus the
    returned inflow minus the returned outflow of day 0, with no demand
    subtracted; on a day [0 < t < 7] it is the planned storage of day [t-1]
    plus inflow minus outflow of day [t] minus [demand_forecast[t]] (0 where
    the forecast is shorter than the horizon, as in the source). Inflow and
    outflow are the sums of the quantities of the returned relocations into
    and out of the port for that type on that day. *)
Theorem flow_conservation :
  forall (B : Backend) (self : ContainerOptimizer)
         (sol : redistribution_solution) (log : list event),
    sound B ->
    NoDup (port_names self) ->
    optimize_container_redistribution B self = (RedistributionResult sol, log) ->
    rs_status sol = "optimal"
    /\ forall port port_obj ctype,
         dict_lookup (ports self) port = Some port_obj ->
         In ctype (container_types self) ->
         planned_storage sol port ctype 0
         = Some (current_inventory self port ctype
                 + inflow sol port ctype 0 - outflow sol port ctype 0)
         /\ forall t, (0 < t < time_horizon)%nat ->
              exists previous,
                planned_storage sol port ctype (t - 1) = Some previous
                /\ planned_storage sol port ctype t
                   = Some (previous + inflow sol port ctype t
                           - outflow sol port ctype t
                           - nth t (Port.demand_forecast port_obj) 0).
Proof.
  intros B self sol log Hsound Hnames Hrun.
  destruct (optimize_container_redistribution_inv _ _ _ _ Hrun)
    as (val & Hsolve & Hval & ->).
  pose proof (Hsound _ _ Hsolve Hval) as Hfeas.
  split; [reflexivity|].
  intros port port_obj ctype Hlookup Hctype.
  pose proof (dict_lookup_keys _ _ _ Hlookup) as Hport.
  pose proof (dict_lookup_In _ _ _ Hlookup) as Hitem.
  fold (port_names self) in Hport.
  pose proof (NoDup_nodup string_dec (map Container.type (containers self)))
    as Htypes. fold (container_types self) in Htypes.
  pose proof (optimal_flows_nonnegative self val Hfeas) as Hnn.
  assert (Hin : forall t, (t < time_horizon)%nat ->
            inflow (_extract_redistribution_solution (redistribution_model self)
                      val (port_names self) (container_types self)) port ctype t
            = zsum (map val (inflow_vars (port_names self) port ctype t))).
  { intros t Ht. unfold inflow. cbn [rs_relocations _extract_redistribution_solution].
    apply returned_inflow; try assumption. now apply In_days. }
  assert (Hout : forall t, (t < time_horizon)%nat ->
            outflow (_extract_redistribution_solution (redistribution_model self)
                       val (port_names self) (container_types self)) port ctype t
            = zsum (map val (outflow_vars (port_names self) port ctype t))).
  { intros t Ht. unfold outflow. cbn [rs_relocations _extract_redistribution_solution].
    apply returned_outflow; try assumption. now apply In_days. }
  assert (Hcons : forall t, (t < time_horizon)%nat ->
            holdsb val (conservation self (port_names self) port port_obj ctype t)
            = true).
  { intros t Ht. pose proof Hfeas as H. unfold feasibleb in H.
    apply andb_prop in H as [_ H]. rewrite forallb_forall in H. apply H.
    apply conservation_added; try assumption. now apply In_days. }
  split.
  - rewrite planned_storage_extracted by (try assumption; unfold time_horizon; lia).
    rewrite Hin, Hout by (unfold time_horizon; lia).
    specialize (Hcons 0%nat ltac:(unfold time_horizon; lia)).
    cbn in Hcons. apply Z.eqb_eq in Hcons. now rewrite Hcons.
  - intros t [Hpos Ht]. exists (val (storage_var port ctype (t - 1))).
    rewrite !planned_storage_extracted by (try assumption; lia).
    split; [reflexivity|].
    rewrite Hin, Hout by assumption. specialize (Hcons t Ht).
    destruct t as [|t']; [lia|]. cbn in Hcons. apply Z.eqb_eq in Hcons.
    rewrite lstm_demand_nth in Hcons.
    replace (S t' - 1)%nat with t' by lia. now rewrite Hcons.
Qed.

(** C2. In a solution returned with status "optimal", for every port and
    day the storage summed over the container types of the plan is at most
    the capacity of the port, and for every ordered pair of distinct ports
    and every day the quantity moved on the pair, all types together, is at
    most the [capacity_teu] of the first Route record matching the pair, or
    100 when no Route matches. *)
Theorem capacity_respected :
  forall (B : Backend) (self : ContainerOptimizer)
         (sol : redistribution_solution) (log : list event),
    sound B ->
    NoDup (port_names self) ->
    optimize_container_redistribution B self = (RedistributionResult sol, log) ->
    (forall port port_obj t,
        dict_lookup (ports self) port = Some port_obj ->
        (t < time_horizon)%nat ->
        exists total, port_storage sol port t = Some total
                      /\ total <= Port.capacity port_obj)
    /\ (forall from_port to_port t,
           In from_port (port_names self) -> In to_port (port_names self) ->
           from_port <> to_port ->
           (t < time_horizon)%nat ->
           pair_flow sol from_port to_port t
           <= specified_route_capacity (routes self) from_port to_port).
Proof.
  intros B self sol log Hsound Hnames Hrun.
  destruct (optimize_container_redistribution_inv _ _ _ _ Hrun)
    as (val & Hsolve & Hval & ->).
  pose proof (Hsound _ _ Hsolve Hval) as Hfeas.
  split.
  - intros port port_obj t Hlookup Ht.
    pose proof (dict_lookup_keys _ _ _ Hlookup) as Hport.
    pose proof (dict_lookup_In _ _ _ Hlookup) as Hitem.
    eexists. split; [now apply port_storage_extracted|].
    apply (feasible_le _ _ (LSum _) (LConst _) Hfeas).
    apply capacity_added; [assumption | now apply In_days].
  - intros f to t Hf Hto Hne Ht. unfold pair_flow.
    cbn [rs_relocations _extract_redistribution_solution].
    rewrite returned_pair_flow;
      [| assumption | now apply optimal_flows_nonnegative
       | assumption | assumption | assumption | now apply In_days].
    unfold specified_route_capacity.
    rewrite <- (route_loop_first_match (routes self) f to 100 Route.capacity_teu).
    apply (feasible_le _ _ (LSum _) (LConst _) Hfeas).
    apply route_capacity_added; try assumption. now apply In_days.
Qed.

Lemma sample_network_port_names : NoDup (port_names sample_network).
Proof.
  change (NoDup ["A"; "B"]).
  constructor; [intros [H | []]; discriminate|].
  constructor; [intros [] | constructor].
Qed.

Lemma flow_conservation_witness :
  exists sol log,
    optimize_container_redistribution (checking_backend sample_plan) sample_network
    = (RedistributionResult sol, log)
    /\ inflow sol "B" "20GP" 0 = 1
    /\ planned_storage sol "B" "20GP" 0
       = Some (current_inventory sample_network "B" "20GP"
               + inflow sol "B" "20GP" 0 - outflow sol "B" "20GP" 0)
    /\ exists previous,
         planned_storage sol "B" "20GP" 0 = Some previous
         /\ planned_storage sol "B" "20GP" 1
            = Some (previous + inflow sol "B" "20GP" 1 - outflow sol "B" "20GP" 1 - 1).
Proof.
  do 2 eexists. split; [vm_compute; reflexivity|]. split; [reflexivity|].
  destruct (flow_conservation (checking_backend sample_plan) sample_network _ _
              (checking_backend_sound sample_plan)
              sample_network_port_names
              ltac:(vm_compute; reflexivity)) as [_ H].
  destruct (H "B" (Port.make "B" 5 100 [0; 1; 0; 0; 0; 0; 0] (3#1) (1#1) (21#1, 105#1))
              "20GP" eq_refl ltac:(left; reflexivity)) as [H0 Ht].
  split; [exact H0|].
  exact (Ht 1%nat ltac:(unfold time_horizon; lia)).
Defined.

Lemma return_network_port_names : NoDup (port_names return_network).
Proof.
  change (NoDup ["A"; "B"]).
  constructor; [intros [H | []]; discriminate|].
  constructor; [intros [] | constructor].
Qed.

(** On the sample network the pair A -> B is bounded by the 50 of its route
    and the pair B -> A, which has no route, by 100. On the network whose
    only route A -> B carries 1, the two containers moved from B to A on day
    0 are more than that route carries and within the 100 of a pair without
    a route. *)
Lemma capacity_respected_witness :
  (exists sol log,
      optimize_container_redistribution (checking_backend sample_plan)
        sample_network
      = (RedistributionResult sol, log)
      /\ pair_flow sol "A" "B" 0 = 1
      /\ pair_flow sol "A" "B" 0 <= 50
      /\ pair_flow sol "B" "A" 0 <= 100
      /\ exists total, port_storage sol "B" 0 = Some total /\ total <= 100)
  /\ (exists sol log,
         optimize_container_redistribution (checking_backend return_plan)
           return_network
         = (RedistributionResult sol, log)
         /\ pair_flow sol "B" "A" 0 = 2
         /\ pair_flow sol "B" "A" 0 <= 100
         /\ pair_flow sol "A" "B" 0 <= 1
         /\ exists total, port_storage sol "A" 6 = Some total /\ total <= 100).
Proof.
  split.
  - do 2 eexists. split; [vm_compute; reflexivity|]. split; [reflexivity|].
    destruct (capacity_respected (checking_backend sample_plan) sample_network _ _
                (checking_backend_sound sample_plan)
                sample_network_port_names
                ltac:(vm_compute; reflexivity)) as [Hstorage Hflow].
    split; [|split].
    + apply (Hflow "A" "B" 0%nat); [now left | right; now left | discriminate
                                   | unfold time_horizon; lia].
    + apply (Hflow "B" "A" 0%nat); [right; now left | now left | discriminate
                                   | unfold time_horizon; lia].
    + exact (Hstorage "B"
               (Port.make "B" 5 100 [0; 1; 0; 0; 0; 0; 0] (3#1) (1#1) (21#1, 105#1))
               0%nat eq_refl ltac:(unfold time_horizon; lia)).
  - do 2 eexists. split; [vm_compute; reflexivity|]. split; [reflexivity|].
    destruct (capacity_respected (checking_backend return_plan) return_network _ _
                (checking_backend_sound return_plan)
                return_network_port_names
                ltac:(vm_compute; reflexivity)) as [Hstorage Hflow].
    split; [|split].
    + apply (Hflow "B" "A" 0%nat); [right; now left | now left | discriminate
                                   | unfold time_horizon; lia].
    + apply (Hflow "A" "B" 0%nat); [now left | right; now left | discriminate
                                   | unfold time_horizon; lia].
    + exact (Hstorage "A"
               (Port.make "A" 0 100 [0; 0; 0; 0; 0; 0; 0] (2#1) (1#1) (10#1, 106#1))
               6%nat eq_refl ltac:(unfold time_horizon; lia)).
Defined.

(* ================================================================== *)
(** * Further properties of [load_data] *)
(* ================================================================== *)

Lemma load_loop_state {D R} (parse : D -> outcome R)
    (store : R -> ContainerOptimizer -> ContainerOptimizer) (entries : list D) :
  forall self,
    snd (load_loop parse store entries self)
    = fold_left (fun s r => store r s) (parsed_prefix parse entries) self.
Proof.
  induction entries as [|d rest IH]; intros self; cbn; [reflexivity|].
  destruct (parse d) as [r|e]; cbn; [apply IH | reflexivity].
Qed.

Lemma load_loop_returns {D R} (parse : D -> outcome R)
    (store : R -> ContainerOptimizer -> ContainerOptimizer) (entries : list D) :
  forall self,
    fst (load_loop parse store entries self) = Return tt ->
    mapM parse entries = Return (parsed_prefix parse entries).
Proof.
  induction entries as [|d rest IH]; intros self H; cbn in *; [reflexivity|].
  destruct (parse d) as [r|e]; cbn in *; [|discriminate].
  rewrite (IH _ H). reflexivity.
Qed.

Lemma load_loop_raises {D R} (parse : D -> outcome R)
    (store : R -> ContainerOptimizer -> ContainerOptimizer)
    (good : list D) (bad : D) (rest : list D) (parsed : list R) (e : exn) :
  mapM parse good = Return parsed ->
  parse bad = Raise e ->
  forall self,
    fst (load_loop parse store (good ++ bad :: rest) self) = Raise e
    /\ parsed_prefix parse (good ++ bad :: rest) = parsed.
Proof.
  revert parsed. induction good as [|d good IH]; intros parsed Hgood Hbad self.
  - cbn in *. injection Hgood as <-. rewrite Hbad. split; reflexivity.
  - cbn in Hgood |- *. destruct (parse d) as [r|e']; cbn in Hgood; [|discriminate].
    destruct (mapM parse good) as [rs|e'] eqn:Hrs; cbn in Hgood; [|discriminate].
    injection Hgood as <-.
    destruct (IH rs eq_refl Hbad (store r self)) as [H1 H2].
    split; [exact H1 | now rewrite H2].
Qed.

Lemma fold_store_port (ps : list Port.t) :
  forall self,
    containers (fold_left (fun s p => store_port p s) ps self) = containers self
    /\ routes (fold_left (fun s p => store_port p s) ps self) = routes self.
Proof.
  induction ps as [|p ps IH]; intros self; cbn; [split; reflexivity|].
  destruct (IH (store_port p self)) as [H1 H2]. rewrite H1, H2.
  split; reflexivity.
Qed.

Lemma fold_append_container (cs : list Container.t) :
  forall self,
    containers (fold_left (fun s c => append_container c s) cs self)
    = containers self ++ cs
    /\ ports (fold_left (fun s c => append_container c s) cs self) = ports self
    /\ routes (fold_left (fun s c => append_container c s) cs self) = routes self.
Proof.
  induction cs as [|c cs IH]; intros self; cbn.
  - rewrite app_nil_r. repeat split.
  - destruct (IH (append_container c self)) as (H1 & H2 & H3).
    rewrite H1, H2, H3. cbn. rewrite <- app_assoc. repeat split.
Qed.

Lemma fold_append_route (rs : list Route.t) :
  forall self,
    routes (fold_left (fun s r => append_route r s) rs self) = routes self ++ rs
    /\ ports (fold_left (fun s r => append_route r s) rs self) = ports self
    /\ containers (fold_left (fun s r => append_route r s) rs self)
       = containers self.
Proof.
  induction rs as [|r rs IH]; intros self; cbn.
  - rewrite app_nil_r. repeat split.
  - destruct (IH (append_route r self)) as (H1 & H2 & H3).
    rewrite H1, H2, H3. cbn. rewrite <- app_assoc. repeat split.
Qed.

Lemma dict_lookup_set {V} (d : dict V) (k k' : string) (v : V) :
  dict_lookup (dict_set d k v) k'
  = if String.eqb k k' then Some v else dict_lookup d k'.
Proof.
  induction d as [|[k0 v0] d IH]; cbn.
  - reflexivity.
  - destruct (String.eqb_spec k0 k) as [-> | Hne]; cbn.
    + destruct (String.eqb k k'); reflexivity.
    + rewrite IH. destruct (String.eqb_spec k0 k') as [-> | Hne'];
        [|reflexivity].
      apply String.eqb_neq in Hne. rewrite String.eqb_sym in Hne.
      now rewrite Hne.
Qed.

Lemma find_last {A} (p : A -> bool) (l : list A) (a : A) :
  find p (l ++ [a])
  = match find p l with
    | Some x => Some x
    | None => if p a then Some a else None
    end.
Proof.
  induction l as [|b l IH]; cbn; [reflexivity|].
  destruct (p b); [reflexivity | exact IH].
Qed.

Lemma fold_store_port_lookup (ps : list Port.t) (name : string) :
  forall self,
    dict_lookup (ports (fold_left (fun s p => store_port p s) ps self)) name
    = match last_port_named name ps with
      | Some p => Some p
      | None => dict_lookup (ports self) name
      end.
Proof.
  unfold last_port_named.
  induction ps as [|p ps IH]; intros self; cbn [fold_left rev]; [reflexivity|].
  rewrite IH, find_last. destruct (find _ (rev ps)); [reflexivity|].
  cbn [store_port ports]. rewrite dict_lookup_set.
  destruct (String.eqb (Port.name p) name); reflexivity.
Qed.

(** What a run of [load_data] leaves in the optimizer, whether or not it
    succeeds. *)
Lemma loaded_state (data : payload) (self : ContainerOptimizer) :
  let ps := parsed_prefix make_port (declared (p_ports data)) in
  let after_ports := fold_left (fun s p => store_port p s) ps self in
  loaded data self
  = if forallb port_complete (declared (p_ports data)) then
      let cs := parsed_prefix make_container (declared (p_containers data)) in
      let after_containers :=
        fold_left (fun s c => append_container c s) cs after_ports in
      if forallb container_complete (declared (p_containers data)) then
        fold_left (fun s r => append_route r s)
          (parsed_prefix make_route (declared (p_routes data))) after_containers
      else after_containers
    else after_ports.
Proof.
  cbn zeta. unfold loaded, load_data, load_body.
  replace (dict_get (p_ports data) []) with (declared (p_ports data))
    by (destruct (p_ports data); reflexivity).
  replace (dict_get (p_containers data) []) with (declared (p_containers data))
    by (destruct (p_containers data); reflexivity).
  replace (dict_get (p_routes data) []) with (declared (p_routes data))
    by (destruct (p_routes data); reflexivity).
  pose proof (load_loop_spec _ _ make_port store_port port_complete make_port_spec
                (declared (p_ports data)) self) as Hp.
  pose proof (load_loop_state make_port store_port (declared (p_ports data)) self)
    as Sp.
  destruct (load_loop make_port store_port (declared (p_ports data)) self)
    as [o1 s1]. cbn [fst snd] in Hp, Sp. subst s1.
  destruct (forallb port_complete (declared (p_ports data))).
  2:{ destruct Hp as [k ->]. reflexivity. }
  subst o1.
  set (s1 := fold_left _ (parsed_prefix make_port _) self).
  pose proof (load_loop_spec _ _ make_container append_container container_complete
                make_container_spec (declared (p_containers data)) s1) as Hc.
  pose proof (load_loop_state make_container append_container
                (declared (p_containers data)) s1) as Sc.
  destruct (load_loop make_container append_container
              (declared (p_containers data)) s1) as [o2 s2].
  cbn [fst snd] in Hc, Sc. subst s2.
  destruct (forallb container_complete (declared (p_containers data))).
  2:{ destruct Hc as [k ->]. reflexivity. }
  subst o2.
  set (s2 := fold_left _ (parsed_prefix make_container _) s1).
  pose proof (load_loop_state make_route append_route
                (declared (p_routes data)) s2) as Sr.
  destruct (load_loop make_route append_route (declared (p_routes data)) s2)
    as [[u|e] s3]; cbn [fst snd] in Sr |- *; exact Sr.
Qed.

Lemma parsed_prefix_complete {D R} (parse : D -> outcome R) (complete : D -> bool)
    (entries : list D) :
  (forall d, if complete d then exists r, parse d = Return r
             else exists k, parse d = Raise (KeyError k)) ->
  forallb complete entries = true ->
  mapM parse entries = Return (parsed_prefix parse entries).
Proof.
  intros Hspec. induction entries as [|d rest IH]; cbn; [reflexivity|].
  intros H. apply andb_prop in H as [Hd Hrest]. specialize (Hspec d).
  rewrite Hd in Hspec. destruct Hspec as [r ->]. cbn.
  rewrite (IH Hrest). reflexivity.
Qed.

Lemma load_flag_complete (data : payload) (self : ContainerOptimizer) :
  load_flag data self = entries_complete data.
Proof.
  unfold load_flag, load_data. pose proof (load_body_spec data self) as H.
  destruct (load_body data self) as [o s]. cbn [fst] in H.
  destruct (entries_complete data).
  - subst o. reflexivity.
  - destruct H as [k ->]. reflexivity.
Qed.

(** X1. A successful [load_data] appends: the containers and the routes of
    the optimizer afterwards are those it held before followed by the parsed
    entries of the payload, in the order of the payload. Nothing is replaced
    or removed, so loading a payload twice holds every container twice. *)
Theorem load_data_appends :
  forall (data : payload) (self : ContainerOptimizer),
    load_flag data self = true ->
    exists cs rs,
      mapM make_container (declared (p_containers data)) = Return cs
      /\ mapM make_route (declared (p_routes data)) = Return rs
      /\ containers (loaded data self) = containers self ++ cs
      /\ routes (loaded data self) = routes self ++ rs
      /\ List.length (containers (loaded data (loaded data self)))
         = (List.length (containers self)
            + 2 * List.length (declared (p_containers data)))%nat.
Proof.
  intros data self Hflag.
  assert (Hstate : forall s,
             containers (loaded data s)
             = containers s ++ parsed_prefix make_container (declared (p_containers data))
             /\ routes (loaded data s)
                = routes s ++ parsed_prefix make_route (declared (p_routes data))).
  { intros s. rewrite load_flag_complete in Hflag. unfold entries_complete in Hflag.
    apply andb_prop in Hflag as [Hflag Hr]. apply andb_prop in Hflag as [Hp Hc].
    pose proof (loaded_state data s) as H. cbn zeta in H. rewrite Hp, Hc in H.
    rewrite H.
    destruct (fold_append_route
                (parsed_prefix make_route (declared (p_routes data)))
                (fold_left (fun s c => append_container c s)
                   (parsed_prefix make_container (declared (p_containers data)))
                   (fold_left (fun s p => store_port p s)
                      (parsed_prefix make_port (declared (p_ports data))) s)))
      as (R1 & _ & R3).
    destruct (fold_append_container
                (parsed_prefix make_container (declared (p_containers data)))
                (fold_left (fun s p => store_port p s)
                   (parsed_prefix make_port (declared (p_ports data))) s))
      as (C1 & _ & C3).
    destruct (fold_store_port (parsed_prefix make_port (declared (p_ports data))) s)
      as (P1 & P2).
    rewrite R1, R3, C1, C3, P1, P2. split; reflexivity. }
  pose proof Hflag as Hcomplete. rewrite load_flag_complete in Hcomplete.
  unfold entries_complete in Hcomplete.
  apply andb_prop in Hcomplete as [Hcomplete Hr].
  apply andb_prop in Hcomplete as [Hp Hc].
  pose proof (parsed_prefix_complete make_container container_complete _
                make_container_spec Hc) as Hcs.
  pose proof (parsed_prefix_complete make_route route_complete _
                make_route_spec Hr) as Hrs.
  exists (parsed_prefix make_container (declared (p_containers data))),
         (parsed_prefix make_route (declared (p_routes data))).
  split; [exact Hcs|]. split; [exact Hrs|].
  destruct (Hstate self) as [H1 H2]. split; [exact H1|]. split; [exact H2|].
  destruct (Hstate (loaded data self)) as [H3 _]. rewrite H3, H1.
  rewrite !length_app.
  assert (Hlen : forall (l : list container_data) cs',
             mapM make_container l = Return cs' ->
             List.length cs' = List.length l).
  { induction l as [|d l IH]; intros cs' H; cbn in H.
    - injection H as <-. reflexivity.
    - destruct (make_container d); cbn in H; [|discriminate].
      destruct (mapM make_container l) as [cs''|]; cbn in H; [|discriminate].
      injection H as <-. cbn. f_equal. now apply IH. }
  rewrite (Hlen _ _ Hcs). lia.
Qed.

Lemma load_data_appends_witness :
  List.length (containers (loaded sample_payload (loaded sample_payload init)))
  = 2%nat.
Proof.
  destruct (load_data_appends sample_payload init eq_refl)
    as (cs & rs & _ & _ & _ & _ & H).
  exact H.
Defined.

(** X2. After a successful [load_data] the port found under a name is the
    last port of the payload declared with that name (a later entry
    overwrites an earlier one); a name the payload does not declare keeps
    the port it had before. *)
Theorem load_data_last_port_wins :
  forall (data : payload) (self : ContainerOptimizer) (name : string),
    load_flag data self = true ->
    exists ps,
      mapM make_port (declared (p_ports data)) = Return ps
      /\ dict_lookup (ports (loaded data self)) name
         = match last_port_named name ps with
           | Some p => Some p
           | None => dict_lookup (ports self) name
           end.
Proof.
  intros data self name Hflag. rewrite load_flag_complete in Hflag.
  unfold entries_complete in Hflag.
  apply andb_prop in Hflag as [Hflag Hr]. apply andb_prop in Hflag as [Hp Hc].
  exists (parsed_prefix make_port (declared (p_ports data))).
  split; [exact (parsed_prefix_complete make_port port_complete _ make_port_spec Hp)|].
  pose proof (loaded_state data self) as H. cbn zeta in H. rewrite Hp, Hc in H.
  rewrite H.
  destruct (fold_append_route
              (parsed_prefix make_route (declared (p_routes data)))
              (fold_left (fun s c => append_container c s)
                 (parsed_prefix make_container (declared (p_containers data)))
                 (fold_left (fun s p => store_port p s)
                    (parsed_prefix make_port (declared (p_ports data))) self)))
    as (_ & R2 & _).
  destruct (fold_append_container
              (parsed_prefix make_container (declared (p_containers data)))
              (fold_left (fun s p => store_port p s)
                 (parsed_prefix make_port (declared (p_ports data))) self))
    as (_ & C2 & _).
  rewrite R2, C2. apply fold_store_port_lookup.
Qed.

Lemma load_data_last_port_wins_witness :
  option_map Port.capacity
    (dict_lookup (ports (loaded payload_port_twice init)) "A") = Some 7
  /\ port_names (loaded payload_port_twice init) = ["A"].
Proof.
  split; [|reflexivity].
  destruct (load_data_last_port_wins payload_port_twice init "A" eq_refl)
    as (ps & Hps & H).
  rewrite H. vm_compute in Hps. injection Hps as <-. reflexivity.
Defined.

(** X3. [load_data] does not undo what it stored before an entry fails:
    when the ports of the payload are complete and a container entry lacks
    a required field, the call returns [False], yet every port of the
    payload and every container declared before the failing one are in the
    optimizer, while no route has been added. *)
Theorem load_data_keeps_what_it_loaded_before_failing :
  forall (data : payload) (self : ContainerOptimizer)
         (good : list container_data) (bad : container_data)
         (rest : list container_data) (cs : list Container.t),
    forallb port_complete (declared (p_ports data)) = true ->
    declared (p_containers data) = good ++ bad :: rest ->
    mapM make_container good = Return cs ->
    container_complete bad = false ->
    load_flag data self = false
    /\ containers (loaded data self) = containers self ++ cs
    /\ routes (loaded data self) = routes self
    /\ exists ps,
         mapM make_port (declared (p_ports data)) = Return ps
         /\ ports (loaded data self)
            = ports (fold_left (fun s p => store_port p s) ps self).
Proof.
  intros data self good bad rest cs Hp Hdecl Hgood Hbad.
  assert (Hc : forallb container_complete (declared (p_containers data)) = false).
  { rewrite Hdecl, forallb_app. cbn. rewrite Hbad, andb_false_r. reflexivity. }
  split.
  { rewrite load_flag_complete. unfold entries_complete. rewrite Hp, Hc.
    reflexivity. }
  pose proof (make_container_spec bad) as Hraise. rewrite Hbad in Hraise.
  destruct Hraise as [k Hraise].
  destruct (load_loop_raises make_container append_container good bad rest cs _
              Hgood Hraise self) as [_ Hprefix].
  pose proof (loaded_state data self) as H. cbn zeta in H. rewrite Hp, Hc in H.
  rewrite H, Hdecl, Hprefix.
  destruct (fold_append_container cs
              (fold_left (fun s p => store_port p s)
                 (parsed_prefix make_port (declared (p_ports data))) self))
    as (C1 & C2 & C3).
  destruct (fold_store_port (parsed_prefix make_port (declared (p_ports data))) self)
    as (P1 & P2).
  rewrite C1, C2, C3, P1, P2. repeat split.
  exists (parsed_prefix make_port (declared (p_ports data))).
  split; [|reflexivity].
  exact (parsed_prefix_complete make_port port_complete _ make_port_spec Hp).
Qed.

Lemma load_data_keeps_what_it_loaded_before_failing_witness :
  load_flag payload_bad_second_container init = false
  /\ List.length (containers (loaded payload_bad_second_container init)) = 1%nat
  /\ port_names (loaded payload_bad_second_container init) = ["A"; "B"].
Proof.
  destruct (load_data_keeps_what_it_loaded_before_failing
              payload_bad_second_container init
              [sample_container] container_without_type [odd_container]
              [Container.make "C1" "20GP" "A" 3 None 5]
              eq_refl eq_refl eq_refl eq_refl)
    as (Hflag & Hcont & _ & _).
  split; [exact Hflag|]. split; [rewrite Hcont; reflexivity | reflexivity].
Defined.

(* ================================================================== *)
(** * Further properties of the redistribution plan *)
(* ================================================================== *)

Lemma In_extract_relocations (val : var -> Z) (names types : list string)
    (r : relocation_entry) :
  In r (extract_relocations val names types) ->
  exists f to c t,
    In f names /\ In to names /\ f <> to /\ In c types /\ In t days
    /\ 0 < val (flow_var f to c t)
    /\ r = {| re_from_port := f; re_to_port := to; re_container_type := c;
              re_quantity := val (flow_var f to c t); re_day := (t + 1)%nat;
              re_priority := if (t <=? 2)%nat then "high" else "medium" |}.
Proof.
  unfold extract_relocations. intros H.
  apply in_flat_map in H as [f [Hf H]]. apply in_flat_map in H as [to [Hto H]].
  destruct (String.eqb_spec f to) as [|Hne]; [destruct H|].
  apply in_flat_map in H as [c [Hc H]]. apply in_flat_map in H as [t [Ht H]].
  unfold relocation_of in H.
  destruct (0 <? val (flow_var f to c t)) eqn:Hpos; [|destruct H].
  destruct H as [<- | []]. apply Z.ltb_lt in Hpos.
  exists f, to, c, t. repeat split; assumption.
Qed.

(** X4. Every relocation of a returned solution joins two different ports
    of the optimizer, carries a container type of the loaded containers, a
    quantity between 1 and 1000 and a day between 1 and 7, and is labelled
    "high" exactly when its day is at most 3, "medium" otherwise. *)
Theorem returned_relocations_are_well_formed :
  forall (B : Backend) (self : ContainerOptimizer)
         (sol : redistribution_solution) (log : list event),
    sound B ->
    optimize_container_redistribution B self = (RedistributionResult sol, log) ->
    forall r, In r (rs_relocations sol) -> well_formed_relocation self r.
Proof.
  intros B self sol log Hsound Hrun r Hr.
  destruct (optimize_container_redistribution_inv _ _ _ _ Hrun)
    as (val & Hsolve & Hval & ->).
  pose proof (Hsound _ _ Hsolve Hval) as Hfeas.
  cbn [rs_relocations _extract_redistribution_solution] in Hr.
  apply In_extract_relocations in Hr
    as (f & to & c & t & Hf & Hto & Hne & Hc & Ht & Hpos & ->).
  pose proof (feasible_bounds _ _ _ 0 1000 Hfeas
                (flow_var_declared self f to c t Hf Hto Hne Hc Ht)) as Hb.
  apply In_days in Ht. unfold time_horizon in Ht.
  unfold well_formed_relocation. cbn.
  repeat split; try assumption; try lia.
  destruct (Nat.leb_spec t 2), (Nat.leb_spec (t + 1) 3); try reflexivity; lia.
Qed.

Lemma returned_relocations_are_well_formed_witness :
  exists sol log,
    optimize_container_redistribution (checking_backend sample_plan) sample_network
    = (RedistributionResult sol, log)
    /\ List.length (rs_relocations sol) = 1%nat
    /\ Forall (well_formed_relocation sample_network) (rs_relocations sol).
Proof.
  do 2 eexists. split; [vm_compute; reflexivity|]. split; [reflexivity|].
  apply Forall_forall.
  exact (returned_relocations_are_well_formed
           (checking_backend sample_plan) sample_network _ _
           (checking_backend_sound sample_plan)
           ltac:(vm_compute; reflexivity)).
Defined.

Lemma storage_var_declared (self : ContainerOptimizer) (port : string)
    (port_obj : Port.t) (c : string) (t : nat) :
  In (port, port_obj) (ports self) -> In c (container_types self) -> In t days ->
  In (storage_var port c t, (0, Port.capacity port_obj))
     (int_vars (redistribution_model self)).
Proof.
  intros Hp Hc Ht. cbn. apply in_or_app. right. unfold storage_vars.
  apply in_flat_map. exists (port, port_obj). split; [assumption|].
  apply in_flat_map. exists c. split; [assumption|].
  apply in_map_iff. exists t. split; [reflexivity | assumption].
Qed.

Lemma dict_lookup_absent {V} (d : dict V) (k : string) :
  ~ In k (keys d) -> dict_lookup d k = None.
Proof.
  induction d as [|[k' v] d IH]; cbn; [reflexivity|]. intros H.
  destruct (String.eqb_spec k' k) as [-> | Hne]; [exfalso; apply H; now left|].
  apply IH. intros Hin. apply H. now right.
Qed.

(** X5. The storage plan of a returned solution has one entry for each port
    of the optimizer, each type of the loaded containers and each of the 7
    days, and nothing else; every planned storage lies between 0 and the
    capacity of its port. *)
Theorem storage_plan_is_complete_and_bounded :
  forall (B : Backend) (self : ContainerOptimizer)
         (sol : redistribution_solution) (log : list event),
    sound B ->
    optimize_container_redistribution B self = (RedistributionResult sol, log) ->
    keys (rs_storage_plan sol) = port_names self
    /\ (forall port port_obj ctype t,
           dict_lookup (ports self) port = Some port_obj ->
           In ctype (container_types self) ->
           (t < time_horizon)%nat ->
           exists s, planned_storage sol port ctype t = Some s
                     /\ 0 <= s <= Port.capacity port_obj)
    /\ (forall port ctype t,
           ~ In port (port_names self) \/ ~ In ctype (container_types self)
           \/ (time_horizon <= t)%nat ->
           planned_storage sol port ctype t = None).
Proof.
  intros B self sol log Hsound Hrun.
  destruct (optimize_container_redistribution_inv _ _ _ _ Hrun)
    as (val & Hsolve & Hval & ->).
  pose proof (Hsound _ _ Hsolve Hval) as Hfeas.
  split; [|split].
  - cbn [rs_storage_plan _extract_redistribution_solution].
    unfold extract_storage_plan, keys. rewrite map_map. cbn [fst]. apply map_id.
  - intros port port_obj ctype t Hlookup Hc Ht.
    pose proof (dict_lookup_keys _ _ _ Hlookup) as Hport.
    pose proof (dict_lookup_In _ _ _ Hlookup) as Hitem.
    eexists. split; [now apply planned_storage_extracted|].
    apply (feasible_bounds _ _ _ _ _ Hfeas).
    apply storage_var_declared; try assumption. now apply In_days.
  - intros port ctype t Hout. unfold planned_storage.
    cbn [rs_storage_plan _extract_redistribution_solution].
    unfold extract_storage_plan, dict.
    destruct (in_dec string_dec port (port_names self)) as [Hp | Hp].
    2:{ rewrite dict_lookup_absent; [reflexivity|].
        unfold keys. rewrite map_map. cbn [fst]. now rewrite map_id. }
    rewrite (dict_lookup_built (V := list (string * list Z))
               (fun port => map (fun ctype =>
                  (ctype, map (fun t => val (storage_var port ctype t)) days))
                  (container_types self))
               (port_names self) port Hp).
    destruct (in_dec string_dec ctype (container_types self)) as [Hc | Hc].
    2:{ rewrite dict_lookup_absent; [reflexivity|].
        unfold keys. rewrite map_map. cbn [fst]. now rewrite map_id. }
    rewrite (dict_lookup_built
               (fun ctype => map (fun t => val (storage_var port ctype t)) days)
               (container_types self) ctype Hc).
    destruct Hout as [H | [H | H]]; [contradiction | contradiction |].
    apply nth_error_None. rewrite length_map. unfold days. rewrite length_seq.
    exact H.
Qed.

Lemma storage_plan_is_complete_and_bounded_witness :
  exists sol log,
    optimize_container_redistribution (checking_backend sample_plan) sample_network
    = (RedistributionResult sol, log)
    /\ planned_storage sol "B" "20GP" 0 = Some 1
    /\ (exists s, planned_storage sol "B" "20GP" 6 = Some s /\ 0 <= s <= 100)
    /\ planned_storage sol "B" "20GP" 7 = None.
Proof.
  do 2 eexists. split; [vm_compute; reflexivity|]. split; [reflexivity|].
  destruct (storage_plan_is_complete_and_bounded
              (checking_backend sample_plan) sample_network _ _
              (checking_backend_sound sample_plan)
              ltac:(vm_compute; reflexivity)) as (_ & Hin & Hout).
  split.
  - exact (Hin "B"
             (Port.make "B" 5 100 [0; 1; 0; 0; 0; 0; 0] (3#1) (1#1) (21#1, 105#1))
             "20GP" 6%nat eq_refl ltac:(left; reflexivity)
             ltac:(unfold time_horizon; lia)).
  - apply Hout. right. right. unfold time_horizon. lia.
Defined.

(** X6. A port whose capacity is negative makes the model infeasible: with
    a solver that keeps its contract the call never returns a solution. *)
Theorem negative_capacity_is_never_optimal :
  forall (B : Backend) (self : ContainerOptimizer) (port : string)
         (port_obj : Port.t),
    sound B ->
    In (port, port_obj) (ports self) ->
    Port.capacity port_obj < 0 ->
    success_shaped (fst (optimize_container_redistribution B self)) = false.
Proof.
  intros B self port port_obj Hsound Hitem Hneg.
  destruct (optimize_container_redistribution B self) as [r log] eqn:Hrun.
  destruct r as [msg fb | sol | | ]; try reflexivity. exfalso.
  destruct (optimize_container_redistribution_inv _ _ _ _ Hrun)
    as (val & Hsolve & Hval & _).
  pose proof (Hsound _ _ Hsolve Hval) as Hfeas.
  assert (H0 : In 0%nat days) by (apply In_days; unfold time_horizon; lia).
  pose proof (feasible_le _ _ (LSum _) (LConst _) Hfeas
                (capacity_added self port port_obj 0%nat Hitem H0)) as Hcap.
  cbn in Hcap. rewrite map_map in Hcap.
  assert (0 <= zsum (map (fun c => val (storage_var port c 0))
                         (container_types self))).
  { apply zsum_map_nonneg. intros c Hc.
    apply (feasible_bounds _ _ _ 0 (Port.capacity port_obj) Hfeas).
    now apply storage_var_declared. }
  lia.
Qed.

Lemma negative_capacity_is_never_optimal_witness :
  success_shaped
    (fst (optimize_container_redistribution (checking_backend (fun _ => 0))
            negative_capacity_network)) = false.
Proof.
  apply (negative_capacity_is_never_optimal (checking_backend (fun _ => 0))
           negative_capacity_network "A"
           (Port.make "A" 0 (-1) [] (1#1) (1#1) (0#1, 0#1))).
  - apply checking_backend_sound.
  - left. reflexivity.
  - cbn. lia.
Defined.

(** ** Containers are neither created nor lost *)

Lemma zsum_map_add {A} (f g : A -> Z) (l : list A) :
  zsum (map (fun x => f x + g x) l) = zsum (map f l) + zsum (map g l).
Proof. induction l as [|a l IH]; cbn; [reflexivity | rewrite IH; lia]. Qed.

Lemma zsum_map_sub {A} (f g : A -> Z) (l : list A) :
  zsum (map (fun x => f x - g x) l) = zsum (map f l) - zsum (map g l).
Proof. induction l as [|a l IH]; cbn; [reflexivity | rewrite IH; lia]. Qed.

Lemma zsum_swap {A B} (h : A -> B -> Z) (l1 : list A) (l2 : list B) :
  zsum (map (fun x => zsum (map (fun y => h x y) l2)) l1)
  = zsum (map (fun y => zsum (map (fun x => h x y) l1)) l2).
Proof.
  induction l1 as [|a l1 IH]; cbn.
  - symmetry. now apply zsum_map_zero.
  - rewrite IH. symmetry. apply zsum_map_add.
Qed.

(** What enters the ports is what leaves the ports. *)
Lemma flows_cancel (val : var -> Z) (names : list string) (c : string) (t : nat) :
  zsum (map (fun p => zsum (map val (inflow_vars names p c t))) names)
  = zsum (map (fun p => zsum (map val (outflow_vars names p c t))) names).
Proof.
  unfold inflow_vars, outflow_vars, others.
  transitivity
    (zsum (map (fun p => zsum (map (fun o =>
       if negb (String.eqb o p) then val (flow_var o p c t) else 0) names)) names)).
  { apply zsum_map_ext. intros p _. rewrite map_map. apply zsum_map_filter. }
  rewrite zsum_swap. apply zsum_map_ext. intros p _.
  rewrite map_map, zsum_map_filter. apply zsum_map_ext. intros o _.
  now rewrite (String.eqb_sym p o).
Qed.

(** The balance that the model imposes on the values, port by port. *)
Lemma optimal_balance (self : ContainerOptimizer) (val : var -> Z)
    (port : string) (port_obj : Port.t) (c : string) (t : nat) :
  feasibleb (redistribution_model self) val = true ->
  In (port, port_obj) (ports self) -> In c (container_types self) ->
  (t < time_horizon)%nat ->
  val (storage_var port c t)
  = match t with
    | O => current_inventory self port c
    | S t' => val (storage_var port c t') - nth t (Port.demand_forecast port_obj) 0
    end
    + zsum (map val (inflow_vars (port_names self) port c t))
    - zsum (map val (outflow_vars (port_names self) port c t)).
Proof.
  intros Hfeas Hitem Hc Ht.
  assert (Hin : In (conservation self (port_names self) port port_obj c t)
                   (constraints (redistribution_model self))).
  { apply conservation_added; try assumption. now apply In_days. }
  destruct t as [|t']; unfold conservation in Hin;
    apply (feasible_eq _ _ _ _ Hfeas) in Hin; cbn in Hin.
  - rewrite Hin. lia.
  - rewrite lstm_demand_nth in Hin. rewrite Hin. lia.
Qed.

Lemma plan_total_extracted (m : MPModel) (val : var -> Z)
    (names types : list string) (c : string) (t : nat) :
  In c types -> (t < time_horizon)%nat ->
  plan_total (_extract_redistribution_solution m val names types) c t
  = zsum (map (fun p => val (storage_var p c t)) names).
Proof.
  intros Hc Ht. unfold plan_total.
  cbn [rs_storage_plan _extract_redistribution_solution].
  unfold extract_storage_plan. rewrite map_map. apply zsum_map_ext.
  intros p _. cbn [snd]. unfold dict.
  rewrite (dict_lookup_built
             (fun ctype => map (fun t => val (storage_var p ctype t)) days)
             types c Hc).
  apply nth_error_nth.
  exact (nth_error_days (fun t => val (storage_var p c t)) t Ht).
Qed.

Lemma optimal_total (self : ContainerOptimizer) (val : var -> Z) (c : string) :
  feasibleb (redistribution_model self) val = true ->
  In c (container_types self) ->
  forall t, (t < time_horizon)%nat ->
    zsum (map (fun p => val (storage_var p c t)) (port_names self))
    = loaded_total self c - demand_through self t.
Proof.
  intros Hfeas Hc.
  assert (Hstep : forall t, (t < time_horizon)%nat ->
            zsum (map (fun p => val (storage_var p c t)) (port_names self))
            = zsum (map (fun item : string * Port.t =>
                      match t with
                      | O => current_inventory self (fst item) c
                      | S t' => val (storage_var (fst item) c t')
                                - nth t (Port.demand_forecast (snd item)) 0
                      end) (ports self))).
  { intros t Ht. unfold port_names, keys. rewrite map_map.
    transitivity
      (zsum (map (fun item : string * Port.t =>
          (match t with
           | O => current_inventory self (fst item) c
           | S t' => val (storage_var (fst item) c t')
                     - nth t (Port.demand_forecast (snd item)) 0
           end
           + zsum (map val (inflow_vars (port_names self) (fst item) c t)))
          - zsum (map val (outflow_vars (port_names self) (fst item) c t)))
        (ports self))).
    { apply zsum_map_ext. intros [p obj] Hitem. cbn [fst snd].
      now apply optimal_balance. }
    rewrite zsum_map_sub, zsum_map_add.
    pose proof (flows_cancel val (port_names self) c t) as Hcancel.
    unfold port_names, keys in Hcancel. rewrite !map_map in Hcancel.
    fold (keys (ports self)) in Hcancel. fold (port_names self) in Hcancel.
    lia. }
  induction t as [|t IH]; intros Ht.
  - rewrite (Hstep 0%nat Ht). unfold loaded_total, port_names, keys.
    rewrite map_map. cbn [demand_through]. lia.
  - rewrite (Hstep (S t) Ht), zsum_map_sub. cbn [demand_through].
    unfold demand_on.
    assert (IH' := IH ltac:(lia)). unfold port_names, keys in IH'.
    rewrite map_map in IH'. rewrite IH'. lia.
Qed.

(** X7. Relocations neither create nor lose containers. In a returned
    solution the storage planned for a container type on day [t], all ports
    together, is the number of loaded containers of that type standing at the
    ports of the optimizer minus the forecast demand of all ports over the
    days 1 to [t]. (Each container type is charged the whole demand of every
    port, and a container whose port is not loaded counts for nothing.) *)
Theorem containers_are_conserved :
  forall (B : Backend) (self : ContainerOptimizer)
         (sol : redistribution_solution) (log : list event)
         (ctype : string) (t : nat),
    sound B ->
    optimize_container_redistribution B self = (RedistributionResult sol, log) ->
    In ctype (container_types self) ->
    (t < time_horizon)%nat ->
    plan_total sol ctype t = loaded_total self ctype - demand_through self t.
Proof.
  intros B self sol log c t Hsound Hrun Hc Ht.
  destruct (optimize_container_redistribution_inv _ _ _ _ Hrun)
    as (val & Hsolve & Hval & ->).
  rewrite plan_total_extracted by assumption.
  apply optimal_total; try assumption. exact (Hsound _ _ Hsolve Hval).
Qed.

Lemma containers_are_conserved_witness :
  exists sol log,
    optimize_container_redistribution (checking_backend sample_plan) sample_network
    = (RedistributionResult sol, log)
    /\ plan_total sol "20GP" 0 = 1
    /\ plan_total sol "20GP" 1
       = loaded_total sample_network "20GP" - demand_through sample_network 1.
Proof.
  do 2 eexists. split; [vm_compute; reflexivity|]. split; [reflexivity|].
  apply (containers_are_conserved (checking_backend sample_plan) sample_network
           _ _ "20GP" 1%nat (checking_backend_sound sample_plan)
           ltac:(vm_compute; reflexivity)).
  - left. reflexivity.
  - unfold time_horizon. lia.
Defined.

(** X8. When the forecast demand of the days 1 to [t] exceeds the loaded
    containers of some type, the model is infeasible: with a solver that
    keeps its contract the call never returns a solution. *)
Theorem demand_above_stock_is_never_optimal :
  forall (B : Backend) (self : ContainerOptimizer) (ctype : string) (t : nat),
    sound B ->
    In ctype (container_types self) ->
    (t < time_horizon)%nat ->
    loaded_total self ctype < demand_through self t ->
    success_shaped (fst (optimize_container_redistribution B self)) = false.
Proof.
  intros B self c t Hsound Hc Ht Hshort.
  destruct (optimize_container_redistribution B self) as [r log] eqn:Hrun.
  destruct r as [msg fb | sol | | ]; try reflexivity. exfalso.
  destruct (optimize_container_redistribution_inv _ _ _ _ Hrun)
    as (val & Hsolve & Hval & _).
  pose proof (Hsound _ _ Hsolve Hval) as Hfeas.
  pose proof (optimal_total self val c Hfeas Hc t Ht) as Htotal.
  assert (0 <= zsum (map (fun p => val (storage_var p c t)) (port_names self))).
  { unfold port_names, keys. rewrite map_map. apply zsum_map_nonneg.
    intros [p obj] Hitem. cbn [fst].
    apply (feasible_bounds _ _ _ 0 (Port.capacity obj) Hfeas).
    apply storage_var_declared; try assumption. now apply In_days. }
  lia.
Qed.

Lemma demand_above_stock_is_never_optimal_witness :
  success_shaped
    (fst (optimize_container_redistribution (checking_backend keep_one)
            starved_network)) = false.
Proof.
  apply (demand_above_stock_is_never_optimal (checking_backend keep_one)
           starved_network "20GP" 1%nat).
  - apply checking_backend_sound.
  - left. reflexivity.
  - unfold time_horizon. lia.
  - vm_compute. reflexivity.
Defined.

Lemma flat_map_nil {A B} (g : A -> list B) (l : list A) :
  (forall x, In x l -> g x = []) -> flat_map g l = [].
Proof.
  induction l as [|a l IH]; intros H; cbn; [reflexivity|].
  rewrite (H a) by now left. apply IH. intros x Hx. apply H. now right.
Qed.

Lemma extract_relocations_few_ports (val : var -> Z) (names types : list string) :
  (List.length names <= 1)%nat -> extract_relocations val names types = [].
Proof.
  destruct names as [|a [|b l]]; cbn [List.length]; intros H; [reflexivity| |lia].
  unfold extract_relocations. cbn. now rewrite String.eqb_refl.
Qed.

Lemma extract_relocations_no_type (val : var -> Z) (names : list string) :
  extract_relocations val names [] = [].
Proof.
  unfold extract_relocations. apply flat_map_nil. intros f _.
  apply flat_map_nil. intros to _. destruct (String.eqb f to); reflexivity.
Qed.

(** X9. With fewer than two ports, or with no container loaded, a returned
    solution holds no relocation, and its only recommendation is the cost
    line. *)
Theorem no_relocation_without_two_ports_and_a_container :
  forall (B : Backend) (self : ContainerOptimizer)
         (sol : redistribution_solution) (log : list event),
    optimize_container_redistribution B self = (RedistributionResult sol, log) ->
    (List.length (ports self) <= 1)%nat \/ containers self = [] ->
    rs_relocations sol = []
    /\ rs_recommendations sol
       = [[Lit "💰 Estimated total cost: $"; Money (rs_total_cost sol)]].
Proof.
  intros B self sol log Hrun Hfew.
  destruct (optimize_container_redistribution_inv _ _ _ _ Hrun)
    as (val & _ & _ & ->).
  assert (Hnone : extract_relocations val (port_names self) (container_types self)
                  = []).
  { destruct Hfew as [Hports | Hcont].
    - apply extract_relocations_few_ports. unfold port_names, keys.
      now rewrite length_map.
    - unfold container_types. rewrite Hcont. apply extract_relocations_no_type. }
  unfold _extract_redistribution_solution, _generate_recommendations.
  cbn [rs_relocations rs_recommendations rs_total_cost]. rewrite Hnone.
  split; reflexivity.
Qed.

Lemma no_relocation_without_two_ports_and_a_container_witness :
  exists sol log,
    optimize_container_redistribution (checking_backend keep_one) lonely_network
    = (RedistributionResult sol, log)
    /\ rs_relocations sol = []
    /\ List.length (rs_recommendations sol) = 1%nat.
Proof.
  do 2 eexists. split; [vm_compute; reflexivity|].
  destruct (no_relocation_without_two_ports_and_a_container
              (checking_backend keep_one) lonely_network _ _
              ltac:(vm_compute; reflexivity)
              ltac:(left; cbn; lia)) as [H1 H2].
  split; [exact H1 | rewrite H2; reflexivity].
Defined.

Lemma filter_length_nonempty {A} (p : A -> bool) (l : list A) :
  nonempty (filter p l) = (0 <? List.length (filter p l))%nat.
Proof. destruct (filter p l); reflexivity. Qed.

(** X10. The recommendations of a returned solution: when there are
    relocations, a line counting those due on day 1, 2 or 3 if there is any,
    then a line counting all relocations; in every case a last line with the
    total cost. *)
Theorem recommendations_count_the_relocations :
  forall (B : Backend) (self : ContainerOptimizer)
         (sol : redistribution_solution) (log : list event),
    optimize_container_redistribution B self = (RedistributionResult sol, log) ->
    rs_recommendations sol
    = recommendations_for (rs_relocations sol) (rs_total_cost sol).
Proof.
  intros B self sol log Hrun.
  destruct (optimize_container_redistribution_inv _ _ _ _ Hrun)
    as (val & _ & _ & ->).
  unfold _extract_redistribution_solution, _generate_recommendations,
    recommendations_for.
  cbn [rs_relocations rs_recommendations rs_total_cost].
  set (relocs := extract_relocations val (port_names self) (container_types self)).
  assert (Hfilter : filter (fun r => String.eqb (re_priority r) "high") relocs
                    = filter within_three_days relocs).
  { apply filter_ext_in. intros r Hr.
    apply In_extract_relocations in Hr as (f & to & c & t & _ & _ & _ & _ & _ & _ & ->).
    unfold within_three_days. cbn [re_priority re_day].
    destruct (Nat.leb_spec t 2), (Nat.leb_spec (t + 1) 3); try reflexivity; lia. }
  rewrite Hfilter, filter_length_nonempty. reflexivity.
Qed.

Lemma recommendations_count_the_relocations_witness :
  exists sol log,
    optimize_container_redistribution (checking_backend sample_plan) sample_network
    = (RedistributionResult sol, log)
    /\ List.length (rs_recommendations sol) = 3%nat
    /\ rs_recommendations sol
       = recommendations_for (rs_relocations sol) (rs_total_cost sol).
Proof.
  do 2 eexists. split; [vm_compute; reflexivity|]. split; [reflexivity|].
  exact (recommendations_count_the_relocations
           (checking_backend sample_plan) sample_network _ _
           ltac:(vm_compute; reflexivity)).
Defined.

(** ** What the redistribution does not read *)

Lemma flat_map_map {A B C} (h : A -> B) (g : B -> list C) (l : list A) :
  flat_map g (map h l) = flat_map (fun x => g (h x)) l.
Proof. induction l as [|a l IH]; cbn; [reflexivity | now rewrite IH]. Qed.

Lemma filter_map_length {A B} (h : A -> B) (p : B -> bool) (l : list A) :
  List.length (filter p (map h l)) = List.length (filter (fun x => p (h x)) l).
Proof.
  induction l as [|a l IH]; cbn; [reflexivity|].
  destruct (p (h a)); cbn; now rewrite IH.
Qed.

Lemma route_loop_blank {A} (rs : list Route.t) (f to : string) (default : A)
    (field : Route.t -> A) :
  (forall r, field (blank_route r) = field r) ->
  route_loop (map blank_route rs) f to default field
  = route_loop rs f to default field.
Proof.
  intros Hfield. induction rs as [|r rs IH]; cbn; [reflexivity|].
  rewrite Hfield, IH. reflexivity.
Qed.

Lemma blanked_port_names (self : ContainerOptimizer) :
  port_names (blanked self) = port_names self.
Proof. unfold port_names, keys, blanked. cbn. now rewrite map_map. Qed.

Lemma blanked_container_types (self : ContainerOptimizer) :
  container_types (blanked self) = container_types self.
Proof. unfold container_types, blanked. cbn. now rewrite map_map. Qed.

Lemma blanked_current_inventory (self : ContainerOptimizer) (port c : string) :
  current_inventory (blanked self) port c = current_inventory self port c.
Proof.
  unfold current_inventory, blanked. cbn [containers].
  now rewrite filter_map_length.
Qed.

Lemma blanked_model (self : ContainerOptimizer) :
  redistribution_model (blanked self) = redistribution_model self.
Proof.
  unfold redistribution_model.
  rewrite blanked_port_names, blanked_container_types.
  f_equal.
  - f_equal. unfold storage_vars, blanked. cbn [ports]. now rewrite flat_map_map.
  - f_equal.
    + unfold storage_cost_terms, blanked. cbn [ports]. now rewrite flat_map_map.
    + unfold transport_cost_terms, blanked. cbn [routes].
      apply flat_map_ext. intros f. apply flat_map_ext. intros to.
      now rewrite route_loop_blank.
  - f_equal; [|f_equal].
    + unfold conservation_constraints. unfold blanked at 2. cbn [ports].
      rewrite flat_map_map. apply flat_map_ext. intros [p obj]. cbn [fst snd].
      apply flat_map_ext. intros c. apply map_ext. intros t.
      unfold conservation. rewrite blanked_current_inventory.
      destruct t; reflexivity.
    + unfold capacity_constraints, blanked. cbn [ports]. now rewrite flat_map_map.
    + unfold route_capacity_constraints, route_capacity, blanked. cbn [routes].
      apply flat_map_ext. intros f. apply flat_map_ext. intros to.
      now rewrite route_loop_blank.
Qed.

(** X11. The redistribution reads of a port only its name, capacity,
    forecast and storage cost, of a container only its type and port, of a
    route only its end points, transport cost and capacity: blanking
    [current_empty], [handling_cost], the coordinates, the container ids,
    dwell times, bookings and priorities, the distances and the transit
    times changes neither the result nor what is printed. *)
Theorem redistribution_ignores_the_other_fields :
  forall (B : Backend) (self : ContainerOptimizer),
    optimize_container_redistribution B (blanked self)
    = optimize_container_redistribution B self.
Proof.
  intros B self. unfold optimize_container_redistribution, starting_banner.
  assert (Hlen : List.length (containers (blanked self))
                 = List.length (containers self))
    by (unfold blanked; cbn [containers]; apply length_map).
  rewrite blanked_model, blanked_port_names, blanked_container_types, Hlen.
  reflexivity.
Qed.

(** ** One relocation per key *)

Lemma In_relocation_of (val : var -> Z) (f to c : string) (t : nat)
    (r : relocation_entry) :
  In r (relocation_of val f to c t) ->
  r = {| re_from_port := f; re_to_port := to; re_container_type := c;
         re_quantity := val (flow_var f to c t); re_day := (t + 1)%nat;
         re_priority := if (t <=? 2)%nat then "high" else "medium" |}.
Proof.
  unfold relocation_of. destruct (0 <? val (flow_var f to c t)); [|intros []].
  intros [<- | []]. reflexivity.
Qed.

Lemma In_pair_relocations (val : var -> Z) (types : list string) (f to : string)
    (r : relocation_entry) :
  In r (flat_map (fun c =>
          flat_map (fun t => relocation_of val f to c t) days) types) ->
  re_from_port r = f /\ re_to_port r = to.
Proof.
  intros H. apply in_flat_map in H as [c [_ H]].
  apply in_flat_map in H as [t [_ H]]. apply In_relocation_of in H. subst r.
  split; reflexivity.
Qed.

Lemma extract_relocations_keys_unique (val : var -> Z) (names types : list string) :
  NoDup names -> NoDup types ->
  NoDup (map relocation_key (extract_relocations val names types)).
Proof.
  intros Hnames Htypes.
  apply NoDup_map_NoDup_ForallPairs.
  - intros r1 r2 H1 H2 Hkey.
    apply In_extract_relocations in H1
      as (f1 & to1 & c1 & t1 & _ & _ & _ & _ & _ & _ & ->).
    apply In_extract_relocations in H2
      as (f2 & to2 & c2 & t2 & _ & _ & _ & _ & _ & _ & ->).
    unfold relocation_key in Hkey. cbn in Hkey.
    injection Hkey as -> -> -> Ht. assert (t1 = t2) by lia. subst t2.
    reflexivity.
  - unfold extract_relocations. apply NoDup_flat_map; [assumption| |].
    + intros f _. apply NoDup_flat_map; [assumption| |].
      * intros to _. destruct (String.eqb f to); [constructor|].
        apply NoDup_flat_map; [assumption| |].
        -- intros c _. apply NoDup_flat_map; [apply seq_NoDup| |].
           ++ intros t _. unfold relocation_of.
              destruct (0 <? val (flow_var f to c t)); repeat constructor.
              intros [].
           ++ intros t t' r _ _ H H'. apply In_relocation_of in H, H'.
              rewrite H in H'. apply (f_equal re_day) in H'. cbn in H'. lia.
        -- intros c c' r _ _ H H'.
           apply in_flat_map in H as [t [_ H]].
           apply in_flat_map in H' as [t' [_ H']].
           apply In_relocation_of in H, H'. rewrite H in H'.
           apply (f_equal re_container_type) in H'. exact H'.
      * intros to to' r _ _ H H'.
        destruct (String.eqb f to); [destruct H|].
        destruct (String.eqb f to'); [destruct H'|].
        apply In_pair_relocations in H as [_ H].
        apply In_pair_relocations in H' as [_ H']. congruence.
    + intros f f' r _ _ H H'.
      apply in_flat_map in H as [to [_ H]].
      apply in_flat_map in H' as [to' [_ H']].
      destruct (String.eqb f to); [destruct H|].
      destruct (String.eqb f' to'); [destruct H'|].
      apply In_pair_relocations in H as [H _].
      apply In_pair_relocations in H' as [H' _]. congruence.
Qed.

(** X12. A returned solution reports at most one relocation for a given
    origin, destination, container type and day. *)
Theorem relocations_have_distinct_keys :
  forall (B : Backend) (self : ContainerOptimizer)
         (sol : redistribution_solution) (log : list event),
    NoDup (port_names self) ->
    optimize_container_redistribution B self = (RedistributionResult sol, log) ->
    NoDup (map relocation_key (rs_relocations sol)).
Proof.
  intros B self sol log Hnames Hrun.
  destruct (optimize_container_redistribution_inv _ _ _ _ Hrun)
    as (val & _ & _ & ->).
  cbn [rs_relocations _extract_redistribution_solution].
  apply extract_relocations_keys_unique; [assumption|].
  apply NoDup_nodup.
Qed.

Lemma relocations_have_distinct_keys_witness :
  exists sol log,
    optimize_container_redistribution (checking_backend sample_plan) sample_network
    = (RedistributionResult sol, log)
    /\ map relocation_key (rs_relocations sol) = [("A", "B", "20GP", 1%nat)]
    /\ NoDup (map relocation_key (rs_relocations sol)).
Proof.
  do 2 eexists. split; [vm_compute; reflexivity|]. split; [reflexivity|].
  exact (relocations_have_distinct_keys
           (checking_backend sample_plan) sample_network _ _
           sample_network_port_names ltac:(vm_compute; reflexivity)).
Defined.

(* ================================================================== *)
(** * Further properties of [optimize_vehicle_routing] *)
(* ================================================================== *)

Lemma walk_route_in_range (relocations : list relocation) (nodes : list nat) :
  Forall (fun node => (node <= List.length relocations)%nat) nodes ->
  exists route,
    walk_route relocations nodes = Return route
    /\ Forall2 (task_of relocations)
               (filter (fun node => (0 <? node)%nat) nodes) route.
Proof.
  induction nodes as [|node rest IH]; intros H.
  - exists []. split; [reflexivity | constructor].
  - inversion H as [|? ? Hnode Hrest]; subst.
    destruct (IH Hrest) as [route [Hwalk Hroute]].
    destruct node as [|k].
    + exists route. split; assumption.
    + cbn [walk_route filter Nat.ltb Nat.leb]. unfold list_getitem.
      destruct (nth_error relocations (S k - 1)) as [task|] eqn:Htask.
      * cbn [bind]. rewrite Hwalk. cbn [bind]. exists (task :: route).
        split; [reflexivity | constructor; assumption].
      * apply nth_error_None in Htask. lia.
Qed.

Lemma walk_route_out_of_range (relocations : list relocation) (nodes : list nat) :
  Exists (fun node => (List.length relocations < node)%nat) nodes ->
  walk_route relocations nodes = Raise IndexError.
Proof.
  induction nodes as [|node rest IH]; intros H; [inversion H|].
  destruct node as [|k].
  - inversion H as [? ? Hout | ? ? Hout]; subst; [lia | now apply IH].
  - cbn [walk_route Nat.ltb Nat.leb]. unfold list_getitem.
    destruct (nth_error relocations (S k - 1)) as [task|] eqn:Htask; cbn [bind].
    + inversion H as [? ? Hout | ? ? Hout]; subst.
      * assert (S k - 1 < List.length relocations)%nat
          by (apply nth_error_Some; congruence). lia.
      * now rewrite (IH Hout).
    + reflexivity.
Qed.

(** X13. For a batch that is not empty and a solution of the library: when
    every visited node is the depot or a task node, the call returns exactly
    one route, which lists the tasks of the visited task nodes in the order
    of the visit, with the objective value of the library as
    [total_distance] and no [total_cost]; when a visited node lies beyond
    the batch, the call returns the error "list index out of range". *)
Theorem routing_follows_the_visited_nodes :
  forall (R : RoutingBackend) (self : ContainerOptimizer)
         (relocations : list relocation) (solution : RoutingSolution),
    relocations <> [] ->
    SolveWithParameters R (routing_problem self relocations)
    = Return (Some solution) ->
    (Forall (fun node => (node <= List.length relocations)%nat)
            (visited solution) ->
     exists route,
       optimize_vehicle_routing R self relocations
       = (RoutingResult [route] None (ObjectiveValue solution),
          [Call RoutingModel_new; Call Routing_SolveWithParameters])
       /\ Forall2 (task_of relocations) (task_nodes solution) route)
    /\ (Exists (fun node => (List.length relocations < node)%nat)
               (visited solution) ->
        fst (optimize_vehicle_routing R self relocations)
        = ErrorResult [Lit "list index out of range"] None).
Proof.
  intros R self relocations solution Hne Hsolve.
  unfold optimize_vehicle_routing.
  destruct relocations as [|task rest]; [congruence|]. cbn [nonempty negb].
  rewrite Hsolve. unfold _extract_routing_solution. split.
  - intros Hin. destruct (walk_route_in_range _ _ Hin) as [route [Hwalk Hroute]].
    rewrite Hwalk. cbn. exists route. split; [reflexivity | exact Hroute].
  - intros Hout. rewrite (walk_route_out_of_range _ _ Hout). reflexivity.
Qed.

Lemma routing_follows_the_visited_nodes_witness :
  exists route,
    optimize_vehicle_routing (fixed_routing second_then_first) sample_network
      [task_ab; task_ba]
    = (RoutingResult [route] None 1000,
       [Call RoutingModel_new; Call Routing_SolveWithParameters])
    /\ Forall2 (task_of [task_ab; task_ba]) [2; 1]%nat route.
Proof.
  destruct (routing_follows_the_visited_nodes
              (fixed_routing second_then_first) sample_network
              [task_ab; task_ba] second_then_first
              ltac:(discriminate) eq_refl) as [H _].
  apply H. repeat constructor.
Defined.

Lemma Forall2_task_of_map (relocations : list relocation) (d : relocation)
    (nodes : list nat) (route : list relocation) :
  Forall2 (task_of relocations) nodes route ->
  route = map (fun node => nth (node - 1) relocations d) nodes.
Proof.
  induction 1 as [|node task nodes route Htask _ IH]; [reflexivity|].
  cbn. rewrite <- IH. f_equal. symmetry. now apply nth_error_nth.
Qed.

Lemma map_nth_from_one {A} (l : list A) (d : A) :
  map (fun node => nth (node - 1) l d) (seq 1 (List.length l)) = l.
Proof.
  rewrite <- seq_shift, map_map.
  transitivity (map (fun k => nth k l d) (seq 0 (List.length l))).
  { apply map_ext. intros k. now rewrite Nat.sub_succ, Nat.sub_0_r. }
  apply nth_ext with (d := d) (d' := d).
  - now rewrite length_map, length_seq.
  - intros k Hk. rewrite length_map, length_seq in Hk.
    rewrite (nth_indep _ d (nth 0 l d)) by (now rewrite length_map, length_seq).
    rewrite (map_nth (fun k => nth k l d) (seq 0 (List.length l)) 0%nat k).
    now rewrite seq_nth.
Qed.

(** X14. When the solution of the library visits every task node exactly
    once (its task nodes are a permutation of 1 .. n), the route returned is
    a permutation of the batch: every relocation is served once. *)
Theorem route_serves_every_task_once :
  forall (R : RoutingBackend) (self : ContainerOptimizer)
         (relocations : list relocation) (solution : RoutingSolution),
    relocations <> [] ->
    SolveWithParameters R (routing_problem self relocations)
    = Return (Some solution) ->
    Permutation (task_nodes solution) (seq 1 (List.length relocations)) ->
    exists route,
      fst (optimize_vehicle_routing R self relocations)
      = RoutingResult [route] None (ObjectiveValue solution)
      /\ Permutation route relocations.
Proof.
  intros R self relocations solution Hne Hsolve Hperm.
  assert (Hrange : Forall (fun node => (node <= List.length relocations)%nat)
                          (visited solution)).
  { apply Forall_forall. intros node Hnode.
    destruct (Nat.ltb_spec 0 node) as [Hpos | Hzero]; [|lia].
    assert (Hin : In node (task_nodes solution)).
    { unfold task_nodes. apply filter_In. split; [assumption|].
      now apply Nat.ltb_lt. }
    apply (Permutation_in _ Hperm) in Hin. apply in_seq in Hin. lia. }
  assert (Hnonempty : nonempty relocations = true)
    by (destruct relocations; [congruence | reflexivity]).
  assert (Hd : exists d : relocation, In d relocations)
    by (destruct relocations as [|d ?]; [congruence | exists d; now left]).
  destruct Hd as [d _].
  unfold optimize_vehicle_routing. rewrite Hnonempty. cbn [negb].
  rewrite Hsolve. unfold _extract_routing_solution.
  destruct (walk_route_in_range _ _ Hrange) as [route [Hwalk Hroute]].
  rewrite Hwalk. cbn. exists route. split; [reflexivity|].
  fold (task_nodes solution) in Hroute.
  rewrite (Forall2_task_of_map relocations d _ _ Hroute).
  apply Permutation_trans
    with (map (fun node => nth (node - 1) relocations d)
              (seq 1 (List.length relocations))).
  - now apply Permutation_map.
  - rewrite map_nth_from_one. apply Permutation_refl.
Qed.

Lemma route_serves_every_task_once_witness :
  exists route,
    fst (optimize_vehicle_routing (fixed_routing second_then_first) sample_network
           [task_ab; task_ba])
    = RoutingResult [route] None 1000
    /\ Permutation route [task_ab; task_ba].
Proof.
  apply (route_serves_every_task_once
           (fixed_routing second_then_first) sample_network
           [task_ab; task_ba] second_then_first).
  - discriminate.
  - reflexivity.
  - cbn. apply perm_swap.
Defined.

(* ================================================================== *)
(** * Further properties of [optimize_assignment] *)
(* ================================================================== *)

(** X16. Compatibility is symmetric, and a type is compatible with itself
    exactly when it is one of 20GP, 40GP and 40HC. *)
Theorem _is_compatible_is_symmetric :
  forall a b : string,
    _is_compatible a b = _is_compatible b a
    /\ (_is_compatible a a = true <-> known_type a).
Proof.
  intros a b. split.
  - destruct (_is_compatible a b) eqn:Hab, (_is_compatible b a) eqn:Hba;
      try reflexivity; exfalso.
    + apply _is_compatible_table in Hab.
      assert (_is_compatible b a = true); [|congruence].
      apply _is_compatible_table. unfold compatible_by_table in *.
      destruct Hab as [[-> ->] | [[-> [-> | ->]] | [-> [-> | ->]]]]; auto 6.
    + apply _is_compatible_table in Hba.
      assert (_is_compatible a b = true); [|congruence].
      apply _is_compatible_table. unfold compatible_by_table in *.
      destruct Hba as [[-> ->] | [[-> [-> | ->]] | [-> [-> | ->]]]]; auto 6.
  - rewrite _is_compatible_table. unfold compatible_by_table, known_type. split.
    + intros [[H _] | [[H _] | [H _]]]; auto.
    + intros [-> | [-> | ->]]; auto 6.
Qed.

Lemma mapM_length {A B} (f : A -> outcome B) (xs : list A) (ys : list B) :
  mapM f xs = Return ys -> List.length ys = List.length xs.
Proof.
  revert ys. induction xs as [|a xs IH]; intros ys H; cbn in H.
  - injection H as <-. reflexivity.
  - destruct (f a); cbn in H; [|discriminate].
    destruct (mapM f xs) as [bs|]; cbn in H; [|discriminate].
    injection H as <-. cbn. f_equal. now apply IH.
Qed.



(** How [optimize_assignment] comes to return a dictionary with
    [unmet_demands]: after an [OPTIMAL] solve. *)
Lemma optimize_assignment_solved (B : Backend) (self : ContainerOptimizer)
    (containers : list container_data) (demands : list demand_data)
    asg un unmet tc log :
  optimize_assignment B self containers demands
  = (AssignmentResult asg un (Some unmet) tc, log) ->
  exists m val,
    assignment_model self containers demands = Return m
    /\ Solve B m = Return OPTIMAL
    /\ solution_value B m = Return val
    /\ mapM (entry_at self containers demands)
            (assigned_pairs val (List.length containers) (List.length demands))
       = Return asg
    /\ un = not_assigned
              (map fst (assigned_pairs val (List.length containers)
                                           (List.length demands)))
              containers
    /\ unmet = not_assigned
                 (map snd (assigned_pairs val (List.length containers)
                                              (List.length demands)))
                 demands
    /\ tc = Some (objective_value m val)
    /\ log = [Call CreateSolver_SCIP; Call MPSolver_Solve].
Proof.
  unfold optimize_assignment. intros H.
  destruct (negb (nonempty containers) || negb (nonempty demands));
    [discriminate|].
  destruct (negb (CreateSolver B)); [discriminate|].
  destruct (assignment_model self containers demands) as [m|e] eqn:Hm;
    cbn in H; [|discriminate].
  destruct (build B m); cbn in H; [|discriminate].
  destruct (Solve B m) as [status|e] eqn:Hsolve; [|discriminate].
  destruct (is_optimal status) eqn:Hopt; [|discriminate].
  apply is_optimal_true in Hopt. subst status.
  destruct (solution_value B m) as [val|e] eqn:Hval; cbn in H; [|discriminate].
  unfold _extract_assignment_solution in H.
  destruct (mapM _ _) as [entries|e] eqn:Hentries; cbn in H; [|discriminate].
  injection H as <- <- <- <- <-. exists m, val. repeat split; assumption.
Qed.



Lemma mapM_raises {A B} (f : A -> outcome B) (P : exn -> Prop) (xs : list A) :
  (exists x e, In x xs /\ f x = Raise e) ->
  (forall x e, In x xs -> f x = Raise e -> P e) ->
  exists e, mapM f xs = Raise e /\ P e.
Proof.
  induction xs as [|a xs IH]; intros (x & e & Hin & Hx) HP; [destruct Hin|].
  cbn. destruct (f a) as [b|e'] eqn:Hfa.
  - destruct Hin as [-> | Hin]; [congruence|].
    destruct IH as (e'' & He'' & HP'').
    + exists x, e. split; assumption.
    + intros y ey Hy. apply HP. now right.
    + cbn. rewrite He''. cbn. exists e''. split; [reflexivity | assumption].
  - cbn. exists e'. split; [reflexivity|]. apply (HP a); [now left | assumption].
Qed.

Lemma mapM_raise_inv {A B} (f : A -> outcome B) (xs : list A) (e : exn) :
  mapM f xs = Raise e -> exists x, In x xs /\ f x = Raise e.
Proof.
  induction xs as [|a xs IH]; cbn; [discriminate|].
  destruct (f a) as [b|e'] eqn:Hfa; cbn.
  - destruct (mapM f xs) as [bs|e'']; cbn; [discriminate|].
    intros H. injection H as <-. destruct (IH eq_refl) as [x [Hin Hx]].
    exists x. split; [now right | assumption].
  - intros H. injection H as <-. exists a. split; [now left | assumption].
Qed.

Lemma forallb_false {A} (p : A -> bool) (l : list A) :
  forallb p l = false -> exists x, In x l /\ p x = false.
Proof.
  induction l as [|a l IH]; cbn; [discriminate|].
  destruct (p a) eqn:Hpa; cbn.
  - intros H. destruct (IH H) as [x [Hin Hx]]. exists x. split; [now right|assumption].
  - intros _. exists a. split; [now left | assumption].
Qed.

Lemma cost_raise_is_a_cost_key (self : ContainerOptimizer)
    (c : container_data) (d : demand_data) (e : exn) :
  _calculate_assignment_cost self c d = Raise e ->
  exists k, In k cost_keys /\ e = KeyError k.
Proof.
  unfold _calculate_assignment_cost, cost_keys.
  destruct (cd_current_port c); cbn;
    [|intros H; injection H as <-; eexists; split; [|reflexivity]; cbn; tauto].
  destruct (dd_port d); cbn;
    [|intros H; injection H as <-; eexists; split; [|reflexivity]; cbn; tauto].
  destruct (cd_type c); cbn;
    [|intros H; injection H as <-; eexists; split; [|reflexivity]; cbn; tauto].
  destruct (dd_required_type d); cbn;
    [|intros H; injection H as <-; eexists; split; [|reflexivity]; cbn; tauto].
  discriminate.
Qed.

Lemma cost_raises_when_unpriced (self : ContainerOptimizer)
    (c : container_data) (d : demand_data) :
  container_priced c = false \/ demand_priced d = false ->
  exists e, _calculate_assignment_cost self c d = Raise e.
Proof.
  intros H. destruct (_calculate_assignment_cost self c d) as [cost|e] eqn:Hcost;
    [|now exists e].
  apply _calculate_assignment_cost_spec in Hcost
    as (fp & tp & ct & rt & Hfp & Htp & Hct & Hrt & _).
  unfold container_priced, demand_priced in H.
  rewrite Hfp, Htp, Hct, Hrt in H. destruct H; discriminate.
Qed.

Lemma enumerate_nonempty {A} (l : list A) :
  l <> [] -> exists i a, In (i, a) (enumerate l).
Proof.
  destruct l as [|a l]; [congruence|]. intros _. exists 0%nat, a.
  apply In_enumerate. reflexivity.
Qed.

Lemma In_enumerate_element {A} (l : list A) (a : A) :
  In a l -> exists i, In (i, a) (enumerate l).
Proof.
  intros H. apply In_nth_error in H as [i Hi]. exists i. now apply In_enumerate.
Qed.

Lemma assignment_objective_raises (self : ContainerOptimizer)
    (containers : list container_data) (demands : list demand_data) :
  containers <> [] -> demands <> [] ->
  forallb container_priced containers && forallb demand_priced demands = false ->
  exists k, In k cost_keys
            /\ assignment_objective self containers demands = Raise (KeyError k).
Proof.
  intros Hc Hd Hbad.
  assert (Hpair : exists i c j d,
             In (i, c) (enumerate containers) /\ In (j, d) (enumerate demands)
             /\ (container_priced c = false \/ demand_priced d = false)).
  { apply andb_false_iff in Hbad as [Hbad | Hbad];
      apply forallb_false in Hbad as [x [Hin Hx]].
    - destruct (In_enumerate_element _ _ Hin) as [i Hi].
      destruct (enumerate_nonempty demands Hd) as (j & d & Hj).
      exists i, x, j, d. auto.
    - destruct (In_enumerate_element _ _ Hin) as [j Hj].
      destruct (enumerate_nonempty containers Hc) as (i & c & Hi).
      exists i, c, j, x. auto. }
  destruct Hpair as (i & c & j & d & Hi & Hj & Hunpriced).
  destruct (cost_raises_when_unpriced self c d Hunpriced) as [e He].
  set (P := fun e : exn => exists k, In k cost_keys /\ e = KeyError k).
  set (cell := fun (ic : nat * container_data) (jd : nat * demand_data) =>
                 cost <- _calculate_assignment_cost self (snd ic) (snd jd) ;;
                 Return (cost, assign_var (fst ic) (fst jd))).
  assert (Hcell : forall ic jd e', cell ic jd = Raise e' -> P e').
  { intros ic jd e' H. unfold cell in H.
    destruct (_calculate_assignment_cost self (snd ic) (snd jd)) as [q|e'']
      eqn:Hq; cbn in H; [discriminate|].
    injection H as <-. now apply cost_raise_is_a_cost_key in Hq. }
  destruct (mapM_raises (fun ic => mapM (cell ic) (enumerate demands)) P
              (enumerate containers)) as (e' & He' & (k & Hk & ->)).
  - destruct (mapM_raises (cell (i, c)) P (enumerate demands)) as (e' & He' & _).
    + exists (j, d), e. split; [assumption|]. unfold cell. cbn [fst snd].
      rewrite He. reflexivity.
    + intros jd e' _. apply Hcell.
    + exists (i, c), e'. split; assumption.
  - intros ic e' _ H.
    destruct (mapM_raise_inv _ _ _ H) as (jd & _ & Hjd).
    exact (Hcell ic jd e' Hjd).
  - exists k. split; [assumption|]. unfold assignment_objective.
    unfold cell in He'. cbv beta in He'. rewrite He'. reflexivity.
Qed.

(** X18. With both lists non-empty and a solver available, a container
    without [current_port] or [type], or a demand without [port] or
    [required_type], stops the call while the model is built: the result is
    the bare error naming one of these keys, the same text is logged on
    standard error, and the solver is created but never asked to solve. *)
Theorem assignment_missing_key_stops_before_the_solve :
  forall (B : Backend) (self : ContainerOptimizer)
         (containers : list container_data) (demands : list demand_data),
    containers <> [] -> demands <> [] ->
    CreateSolver B = true ->
    forallb container_priced containers && forallb demand_priced demands = false ->
    exists k,
      In k cost_keys
      /\ optimize_assignment B self containers demands
         = (ErrorResult [Lit ("'" ++ k ++ "'")] None,
            [Call CreateSolver_SCIP;
             Emit stderr (Text [Lit "Error in assignment optimization: ";
                                Lit ("'" ++ k ++ "'")])]).
Proof.
  intros B self containers demands Hc Hd Hsolver Hbad.
  destruct (assignment_objective_raises self containers demands Hc Hd Hbad)
    as (k & Hk & Hraise).
  exists k. split; [assumption|]. unfold optimize_assignment.
  destruct containers as [|c cs]; [congruence|].
  destruct demands as [|d ds]; [congruence|].
  cbn [nonempty negb orb]. rewrite Hsolver. cbn [negb].
  unfold assignment_model. rewrite Hraise. reflexivity.
Qed.

Lemma assignment_missing_key_stops_before_the_solve_witness :
  fst (optimize_assignment (checking_backend sample_matching) sample_network
         [sample_container] [sample_demand; demand_without_port])
  = ErrorResult [Lit "'port'"] None.
Proof.
  destruct (assignment_missing_key_stops_before_the_solve
              (checking_backend sample_matching) sample_network
              [sample_container] [sample_demand; demand_without_port]
              ltac:(discriminate) ltac:(discriminate) eq_refl eq_refl)
    as (k & _ & Hrun).
  rewrite Hrun. vm_compute in Hrun. injection Hrun as Hk. cbn [fst].
  now rewrite Hk.
Defined.

(** X19. Only the redistribution falls back: whatever the library does,
    the routing and the assignment never return a fallback solution, and a
    library that raises is reported as a bare error. *)
Theorem routing_and_assignment_never_fall_back :
  forall (B : Backend) (R : RoutingBackend) (self : ContainerOptimizer)
         (relocations : list relocation)
         (containers : list container_data) (demands : list demand_data),
    has_fallback (fst (optimize_vehicle_routing R self relocations)) = false
    /\ has_fallback (fst (optimize_assignment B self containers demands)) = false.
Proof.
  intros B R self relocations containers demands. split.
  - unfold optimize_vehicle_routing.
    destruct (negb (nonempty relocations)); [reflexivity|].
    destruct (SolveWithParameters R _) as [[s|]|e]; [|reflexivity|reflexivity].
    unfold _extract_routing_solution.
    destruct (walk_route relocations (visited s)); reflexivity.
  - unfold optimize_assignment.
    destruct (negb (nonempty containers) || negb (nonempty demands));
      [reflexivity|].
    destruct (negb (CreateSolver B)); [reflexivity|].
    destruct (assignment_model self containers demands) as [m|e]; cbn;
      [|reflexivity].
    destruct (build B m); cbn; [|reflexivity].
    destruct (Solve B m) as [s|e]; [|reflexivity].
    destruct (is_optimal s); [|reflexivity].
    destruct (solution_value B m) as [val|e]; cbn; [|reflexivity].
    unfold _extract_assignment_solution.
    destruct (mapM _ _); reflexivity.
Qed.

(* ================================================================== *)
(** * Further properties of [main] *)
(* ================================================================== *)

Lemma load_data_true_is_silent (data : payload) (self : ContainerOptimizer) :
  load_flag data self = true -> snd (load_data data self) = [].
Proof.
  unfold load_flag, load_data. destruct (load_body data self) as [[u|e] s];
    cbn; [reflexivity | discriminate].
Qed.

Lemma load_data_split (data : payload) (self : ContainerOptimizer) :
  load_data data self
  = (load_flag data self, loaded data self, snd (load_data data self)).
Proof.
  unfold load_flag, loaded. destruct (load_data data self) as [[b s] l].
  reflexivity.
Qed.

(** X20. The exit status of [main] is 0 or 1, and it is 0 exactly when the
    run reaches an optimizer: a file argument is given, the file is read and
    [load_data] accepts the payload. What the optimizer then returns, an
    error object included, does not change the status. *)
Theorem main_exit_status :
  forall (B : Backend) (R : RoutingBackend) (argv : list string)
         (read_json : string -> outcome payload),
    (snd (main B R argv read_json) = 0 \/ snd (main B R argv read_json) = 1)
    /\ (snd (main B R argv read_json) = 0 <-> reaches_the_optimizer argv read_json).
Proof.
  intros B R argv read_json. unfold main, reaches_the_optimizer.
  destruct argv as [|prog [|path rest]].
  - split; [now right|]. split; [discriminate|].
    intros (p & q & r & d & H & _). discriminate.
  - split; [now right|]. split; [discriminate|].
    intros (p & q & r & d & H & _). discriminate.
  - destruct (read_json path) as [data|e] eqn:Hread.
    2:{ split; [now right|]. split; [discriminate|].
        intros (p & q & r & d & H & Hr & _). injection H as <- <- <-.
        congruence. }
    rewrite (load_data_split data init).
    destruct (load_flag data init) eqn:Hflag; cbn [negb].
    + match goal with |- context [let '(result, log2) := ?X in _] =>
        destruct X as [result log2] end.
      split; [now left|]. split; [|reflexivity].
      intros _. exists prog, path, rest, data. repeat split; assumption.
    + split; [now right|]. split; [discriminate|].
      intros (p & q & r & d & H & Hr & Hf). injection H as <- <- <-.
      rewrite Hread in Hr. injection Hr as <-. congruence.
Qed.

Lemma main_exit_status_witness :
  snd (main unavailable_backend idle_routing ["prog"; "input.json"]
         (fun _ => Return sample_payload)) = 0
  /\ snd (main unavailable_backend idle_routing ["prog"; "input.json"]
            (fun _ => Return payload_bad_port)) = 1.
Proof.
  split.
  - apply (main_exit_status unavailable_backend idle_routing
             ["prog"; "input.json"] (fun _ => Return sample_payload)).
    exists "prog", "input.json", [], sample_payload. repeat split.
  - destruct (main_exit_status unavailable_backend idle_routing
                ["prog"; "input.json"] (fun _ => Return payload_bad_port))
      as [[H0 | H1] [Hreach _]]; [|exact H1].
    destruct (Hreach H0) as (p & q & r & d & _ & Hr & Hf).
    injection Hr as <-. discriminate.
Defined.

(** X21. When the payload loads and the solver is unavailable, the
    redistribution mode prints the error object as the result on standard
    output, prints nothing on standard error and exits 0. *)
Theorem main_prints_optimizer_errors_as_results :
  forall (B : Backend) (R : RoutingBackend) (prog path : string)
         (rest : list string) (read_json : string -> outcome payload)
         (data : payload),
    read_json path = Return data ->
    load_flag data init = true ->
    dict_get (p_optimization_type data) "redistribution" = "redistribution" ->
    CreateSolver B = false ->
    main B R (prog :: path :: rest) read_json
    = ([Call CreateSolver_SCIP;
        Emit stdout (ResultJson 2
          (ErrorResult [Lit "SCIP solver not available"] None))], 0).
Proof.
  intros B R prog path rest read_json data Hread Hflag Hty Hsolver.
  unfold main. rewrite Hread, (load_data_split data init), Hflag.
  rewrite (load_data_true_is_silent data init Hflag). cbn [negb].
  rewrite Hty. cbn [String.eqb Ascii.eqb Bool.eqb].
  unfold optimize_container_redistribution. rewrite Hsolver. reflexivity.
Qed.

Lemma main_prints_optimizer_errors_as_results_witness :
  printed_on stderr
    (fst (main unavailable_backend idle_routing ["prog"; "input.json"]
            (fun _ => Return sample_payload))) = []
  /\ snd (main unavailable_backend idle_routing ["prog"; "input.json"]
            (fun _ => Return sample_payload)) = 0.
Proof.
  rewrite (main_prints_optimizer_errors_as_results
             unavailable_backend idle_routing "prog" "input.json" []
             (fun _ => Return sample_payload) sample_payload
             eq_refl eq_refl eq_refl eq_refl).
  split; reflexivity.
Defined.

(** X22. An [optimization_type] other than the three modes calls no
    optimizer and no solver: [main] prints the error object naming the type
    on standard output and exits 0. *)
Theorem main_unknown_optimization_type :
  forall (B : Backend) (R : RoutingBackend) (prog path : string)
         (rest : list string) (read_json : string -> outcome payload)
         (data : payload) (ty : string),
    read_json path = Return data ->
    load_flag data init = true ->
    p_optimization_type data = Some ty ->
    known_mode ty = false ->
    main B R (prog :: path :: rest) read_json
    = ([Emit stdout (ResultJson 2
          (ErrorResult [Lit "Unknown optimization type: "; Lit ty] None))], 0).
Proof.
  intros B R prog path rest read_json data ty Hread Hflag Hty Hmode.
  unfold main. rewrite Hread, (load_data_split data init), Hflag.
  rewrite (load_data_true_is_silent data init Hflag). cbn [negb].
  rewrite Hty. cbn [dict_get]. unfold known_mode in Hmode.
  apply orb_false_iff in Hmode as [Hmode Ha].
  apply orb_false_iff in Hmode as [Hr Hv].
  rewrite Hr, Hv, Ha. reflexivity.
Qed.

Lemma main_unknown_optimization_type_witness :
  solver_calls
    (fst (main (checking_backend sample_plan) idle_routing ["prog"; "input.json"]
            (fun _ => Return (with_type (Some "packing") sample_payload)))) = []
  /\ snd (main (checking_backend sample_plan) idle_routing ["prog"; "input.json"]
            (fun _ => Return (with_type (Some "packing") sample_payload))) = 0.
Proof.
  rewrite (main_unknown_optimization_type
             (checking_backend sample_plan) idle_routing "prog" "input.json" []
             (fun _ => Return (with_type (Some "packing") sample_payload))
             (with_type (Some "packing") sample_payload) "packing"
             eq_refl eq_refl eq_refl eq_refl).
  split; reflexivity.
Defined.

Lemma load_data_with_type (ty : option string) (data : payload)
    (self : ContainerOptimizer) :
  load_data (with_type ty data) self = load_data data self.
Proof. reflexivity. Qed.

(** X23. A payload without [optimization_type] is run as a
    redistribution: [main] behaves on it as on the same payload with the
    type "redistribution". *)
Theorem main_defaults_to_redistribution :
  forall (B : Backend) (R : RoutingBackend) (argv : list string) (data : payload),
    p_optimization_type data = None ->
    main B R argv (fun _ => Return data)
    = main B R argv (fun _ => Return (with_type (Some "redistribution") data)).
Proof.
  intros B R argv data Hnone. unfold main.
  destruct argv as [|prog [|path rest]]; try reflexivity.
  rewrite load_data_with_type, Hnone. reflexivity.
Qed.

Lemma main_defaults_to_redistribution_witness :
  main (checking_backend sample_plan) idle_routing ["prog"; "input.json"]
    (fun _ => Return (with_type None sample_payload))
  = main (checking_backend sample_plan) idle_routing ["prog"; "input.json"]
      (fun _ => Return sample_payload).
Proof.
  exact (main_defaults_to_redistribution
           (checking_backend sample_plan) idle_routing ["prog"; "input.json"]
           (with_type None sample_payload) eq_refl).
Defined.

Lemma mapM_returns {A B} (f : A -> outcome B) (xs : list A) :
  (forall x, In x xs -> exists y, f x = Return y) ->
  exists ys, mapM f xs = Return ys.
Proof.
  induction xs as [|a xs IH]; intros H; [now exists []|].
  destruct (H a ltac:(now left)) as [b Hb].
  destruct IH as [bs Hbs]; [intros x Hx; apply H; now right|].
  exists (b :: bs). cbn. rewrite Hb. cbn. rewrite Hbs. reflexivity.
Qed.

Lemma priced_pair_has_a_cost (self : ContainerOptimizer)
    (c : container_data) (d : demand_data) :
  container_priced c = true -> demand_priced d = true ->
  exists cost, _calculate_assignment_cost self c d = Return cost.
Proof.
  unfold container_priced, demand_priced. intros Hc Hd.
  destruct (cd_current_port c) as [fp|] eqn:Hfp; [|discriminate].
  destruct (cd_type c) as [ct|] eqn:Hct; [|discriminate].
  destruct (dd_port d) as [tp|] eqn:Htp; [|discriminate].
  destruct (dd_required_type d) as [rt|] eqn:Hrt; [|discriminate].
  eexists. apply _calculate_assignment_cost_spec.
  exists fp, tp, ct, rt. repeat split; assumption.
Qed.

Lemma priced_lists_have_a_model (self : ContainerOptimizer)
    (containers : list container_data) (demands : list demand_data) :
  forallb container_priced containers = true ->
  forallb demand_priced demands = true ->
  exists m, assignment_model self containers demands = Return m.
Proof.
  intros Hc Hd. rewrite forallb_forall in Hc, Hd.
  assert (Hin_c : forall ic, In ic (enumerate containers) ->
                             container_priced (snd ic) = true).
  { intros [i c] H. apply In_enumerate in H. apply Hc.
    eapply nth_error_In; eassumption. }
  assert (Hin_d : forall jd, In jd (enumerate demands) ->
                             demand_priced (snd jd) = true).
  { intros [j d] H. apply In_enumerate in H. apply Hd.
    eapply nth_error_In; eassumption. }
  unfold assignment_model, assignment_objective, compatibility_constraints.
  destruct (mapM_returns
              (fun ic : nat * container_data =>
                 mapM (fun jd : nat * demand_data =>
                         cost <- _calculate_assignment_cost self (snd ic) (snd jd) ;;
                         Return (cost, assign_var (fst ic) (fst jd)))
                      (enumerate demands))
              (enumerate containers)) as [rows Hrows].
  { intros ic Hic. apply mapM_returns. intros jd Hjd.
    destruct (priced_pair_has_a_cost self (snd ic) (snd jd)
                (Hin_c ic Hic) (Hin_d jd Hjd)) as [cost Hcost].
    rewrite Hcost. cbn. eauto. }
  rewrite Hrows. cbn [bind].
  destruct (mapM_returns
              (fun ic : nat * container_data =>
                 cells <- mapM (fun jd : nat * demand_data =>
                            container_type <- getitem "type" (cd_type (snd ic)) ;;
                            required_type <- getitem "required_type"
                                               (dd_required_type (snd jd)) ;;
                            Return (if _is_compatible container_type required_type
                                    then []
                                    else [CEq (LVar (assign_var (fst ic) (fst jd)))
                                              (LConst 0)]))
                          (enumerate demands) ;;
                 Return (List.concat cells))
              (enumerate containers)) as [crows Hcrows].
  { intros ic Hic.
    destruct (mapM_returns
                (fun jd : nat * demand_data =>
                   container_type <- getitem "type" (cd_type (snd ic)) ;;
                   required_type <- getitem "required_type"
                                      (dd_required_type (snd jd)) ;;
                   Return (if _is_compatible container_type required_type
                           then []
                           else [CEq (LVar (assign_var (fst ic) (fst jd)))
                                     (LConst 0)]))
                (enumerate demands)) as [cells Hcells].
    { intros jd Hjd. specialize (Hin_c ic Hic). specialize (Hin_d jd Hjd).
      unfold container_priced in Hin_c. unfold demand_priced in Hin_d.
      destruct (cd_type (snd ic)); [|rewrite andb_false_r in Hin_c; discriminate].
      destruct (dd_required_type (snd jd));
        [|rewrite andb_false_r in Hin_d; discriminate].
      cbn. eauto. }
    rewrite Hcells. cbn. eauto. }
  rewrite Hcrows. cbn [bind]. eauto.
Qed.

(** X25. What [load_data] accepts, [optimize_assignment] can price: when
    [load_data] returns [True], every container of the payload carries [id],
    [type] and [current_port], so for demands that carry [port] and
    [required_type] the assignment model of the payload's containers is
    built without a [KeyError]. In the assignment mode of [main] a missing
    key at construction is always a key of a demand. *)
Theorem loaded_containers_can_be_priced :
  forall (data : payload) (self : ContainerOptimizer)
         (demands : list demand_data),
    load_flag data init = true ->
    (forall c, In c (dict_get (p_containers data) []) ->
               is_some (cd_id c) = true /\ container_priced c = true)
    /\ (forallb demand_priced demands = true ->
        exists m,
          assignment_model self (dict_get (p_containers data) []) demands
          = Return m).
Proof.
  intros data self demands Hflag.
  rewrite load_flag_complete in Hflag. unfold entries_complete in Hflag.
  apply andb_prop in Hflag as [Hflag _]. apply andb_prop in Hflag as [_ Hc].
  replace (declared (p_containers data)) with (dict_get (p_containers data) [])
    in Hc by (destruct (p_containers data); reflexivity).
  assert (Hall : forall c, In c (dict_get (p_containers data) []) ->
                           is_some (cd_id c) = true /\ container_priced c = true).
  { intros c Hin. rewrite forallb_forall in Hc. specialize (Hc c Hin).
    unfold container_complete in Hc. unfold container_priced.
    destruct (cd_id c), (cd_type c), (cd_current_port c); try discriminate.
    split; reflexivity. }
  split; [exact Hall|].
  intros Hd. apply priced_lists_have_a_model; [|assumption].
  apply forallb_forall. intros c Hin. now apply Hall.
Qed.

Lemma loaded_containers_can_be_priced_witness :
  exists m,
    assignment_model (loaded sample_payload init)
      (dict_get (p_containers sample_payload) []) [sample_demand]
    = Return m.
Proof.
  destruct (loaded_containers_can_be_priced sample_payload
              (loaded sample_payload init) [sample_demand] eq_refl)
    as [_ H].
  apply H. reflexivity.
Defined.

(* ================================================================== *)
(** * The total cost of an assignment *)
(* ================================================================== *)

Lemma qsum_map_ext {A} (f g : A -> Q) (l : list A) :
  (forall x, In x l -> (f x == g x)%Q) ->
  (qsum (map f l) == qsum (map g l))%Q.
Proof.
  induction l as [|a l IH]; intros H; cbn; [reflexivity|].
  rewrite (H a) by now left. rewrite IH; [reflexivity|].
  intros x Hx. apply H. now right.
Qed.

Lemma qsum_map_filter {A} (f : A -> Q) (p : A -> bool) (l : list A) :
  (qsum (map (fun x => if p x then f x else 0#1) l)
   == qsum (map f (filter p l)))%Q.
Proof.
  induction l as [|a l IH]; cbn; [reflexivity|].
  destruct (p a); cbn; rewrite IH; [reflexivity | apply Qplus_0_l].
Qed.

Lemma qsum_app (l1 l2 : list Q) :
  (qsum (l1 ++ l2) == qsum l1 + qsum l2)%Q.
Proof.
  induction l1 as [|a l1 IH]; cbn; [now rewrite Qplus_0_l|].
  rewrite IH. apply Qplus_assoc.
Qed.

Lemma qsum_flat_map {A} (g : A -> list Q) (l : list A) :
  (qsum (flat_map g l) == qsum (map (fun x => qsum (g x)) l))%Q.
Proof.
  induction l as [|a l IH]; cbn; [reflexivity|].
  rewrite qsum_app, IH. reflexivity.
Qed.

Lemma map_of_flat_map {A B C} (f : B -> C) (g : A -> list B) (l : list A) :
  map f (flat_map g l) = flat_map (fun x => map f (g x)) l.
Proof.
  induction l as [|a l IH]; cbn; [reflexivity|]. now rewrite map_app, IH.
Qed.

Lemma mapM_combine_seq {A B} (f : nat * A -> outcome B) (g : nat -> B)
    (l : list A) :
  forall (start : nat) (ys : list B),
    (forall i a y, nth_error l i = Some a ->
                   f ((start + i)%nat, a) = Return y -> y = g (start + i)%nat) ->
    mapM f (combine (seq start (List.length l)) l) = Return ys ->
    ys = map g (seq start (List.length l)).
Proof.
  induction l as [|a l IH]; intros start ys Hg H; cbn in H |- *.
  - now injection H as <-.
  - destruct (f (start, a)) as [y|e] eqn:Hy; cbn in H; [|discriminate].
    destruct (mapM f (combine (seq (S start) (List.length l)) l)) as [ys'|e]
      eqn:Hys; cbn in H; [|discriminate].
    injection H as <-. f_equal.
    + specialize (Hg 0%nat a y eq_refl). rewrite Nat.add_0_r in Hg. now apply Hg.
    + apply IH; [|assumption]. intros i a' y' Hi Hf.
      specialize (Hg (S i) a' y' Hi). rewrite Nat.add_succ_r in Hg.
      now apply Hg.
Qed.

(** The objective that the model carries, index by index. *)
Lemma assignment_objective_by_index (self : ContainerOptimizer)
    (containers : list container_data) (demands : list demand_data)
    (terms : list (Q * var)) :
  assignment_objective self containers demands = Return terms ->
  terms = flat_map (fun i =>
            map (fun j => (cost_at self containers demands i j, assign_var i j))
                (seq 0 (List.length demands)))
            (seq 0 (List.length containers)).
Proof.
  unfold assignment_objective. intros H.
  destruct (mapM _ (enumerate containers)) as [rows|e] eqn:Hrows; cbn in H;
    [|discriminate].
  injection H as <-. rewrite flat_map_concat_map. f_equal.
  unfold enumerate in Hrows.
  refine (mapM_combine_seq _
            (fun i => map (fun j => (cost_at self containers demands i j,
                                     assign_var i j))
                          (seq 0 (List.length demands)))
            containers 0%nat rows _ Hrows).
  intros i c row Hc Hrow. cbn [Nat.add fst snd] in Hrow |- *.
  refine (mapM_combine_seq _
            (fun j => (cost_at self containers demands i j, assign_var i j))
            demands 0%nat row _ Hrow).
  intros j d y Hd Hy. cbn [Nat.add fst snd] in Hy |- *.
  unfold cost_at. rewrite Hc, Hd.
  destruct (_calculate_assignment_cost self c d) as [cost|e]; cbn in Hy;
    [|discriminate].
  now injection Hy as <-.
Qed.

Lemma entry_costs_by_index (self : ContainerOptimizer)
    (containers : list container_data) (demands : list demand_data)
    (pairs : list (nat * nat)) (asg : list assignment_entry) :
  mapM (entry_at self containers demands) pairs = Return asg ->
  map ae_cost asg
  = map (fun p => cost_at self containers demands (fst p) (snd p)) pairs.
Proof.
  revert asg. induction pairs as [|p pairs IH]; intros asg H; cbn in H.
  - now injection H as <-.
  - destruct (entry_at self containers demands p) as [entry|e] eqn:Hentry;
      cbn in H; [|discriminate].
    destruct (mapM (entry_at self containers demands) pairs) as [rest|e];
      cbn in H; [|discriminate].
    injection H as <-. cbn. f_equal; [|now apply IH].
    unfold entry_at, list_getitem in Hentry. unfold cost_at.
    destruct (nth_error containers (fst p)) as [c|]; cbn in Hentry;
      [|discriminate].
    destruct (nth_error demands (snd p)) as [d|]; cbn in Hentry; [|discriminate].
    unfold assignment_entry_of in Hentry.
    destruct (getitem "id" (cd_id c)); cbn in Hentry; [|discriminate].
    destruct (getitem "id" (dd_id d)); cbn in Hentry; [|discriminate].
    destruct (getitem "current_port" (cd_current_port c)); cbn in Hentry;
      [|discriminate].
    destruct (getitem "port" (dd_port d)); cbn in Hentry; [|discriminate].
    destruct (getitem "type" (cd_type c)); cbn in Hentry; [|discriminate].
    destruct (_calculate_assignment_cost self c d) as [cost|e]; cbn in Hentry;
      [|discriminate].
    now injection Hentry as <-.
Qed.

Lemma assigned_pairs_filter (val : var -> Z) (n k : nat) :
  assigned_pairs val n k
  = flat_map (fun i => map (fun j => (i, j))
                         (filter (fun j => selected val i j) (seq 0 k)))
             (seq 0 n).
Proof.
  unfold assigned_pairs. apply flat_map_ext. intros i.
  induction (seq 0 k) as [|j l IH]; cbn; [reflexivity|].
  destruct (selected val i j); cbn; now rewrite IH.
Qed.

(** The objective value at a feasible point is the sum of the costs of the
    entries that the extraction builds from it. *)
Lemma feasible_total_cost (self : ContainerOptimizer)
    (containers : list container_data) (demands : list demand_data)
    (m : MPModel) (val : var -> Z) (asg : list assignment_entry) :
  assignment_model self containers demands = Return m ->
  feasibleb m val = true ->
  mapM (entry_at self containers demands)
       (assigned_pairs val (List.length containers) (List.length demands))
  = Return asg ->
  (objective_value m val == assignments_cost asg)%Q.
Proof.
  intros Hm Hfeas Hentries.
  unfold assignments_cost. rewrite (entry_costs_by_index _ _ _ _ _ Hentries).
  unfold assignment_model in Hm.
  destruct (assignment_objective self containers demands) as [terms|e] eqn:Hterms;
    cbn in Hm; [|discriminate].
  destruct (compatibility_constraints containers demands) as [compat|e];
    cbn in Hm; [|discriminate].
  injection Hm as <-.
  set (n := List.length containers) in *. set (k := List.length demands) in *.
  assert (Hbound : forall i j, In i (seq 0 n) -> In j (seq 0 k) ->
                               0 <= val (assign_var i j) <= 1).
  { intros i j Hi Hj. apply in_seq in Hi, Hj.
    apply (feasible_bounds _ _ _ _ _ Hfeas). cbn. apply In_x_vars; lia. }
  unfold objective_value. cbn [objective].
  rewrite (assignment_objective_by_index _ _ _ _ Hterms). fold n k.
  rewrite assigned_pairs_filter.
  change (fold_right Qplus (0#1)%Q) with qsum.
  rewrite !map_of_flat_map, !qsum_flat_map.
  apply qsum_map_ext. intros i Hi.
  rewrite !map_map. cbn [fst snd].
  rewrite <- (qsum_map_filter
                (fun j => cost_at self containers demands i j)
                (fun j => selected val i j) (seq 0 k)).
  apply qsum_map_ext. intros j Hj.
  specialize (Hbound i j Hi Hj). unfold selected.
  destruct (Z.eq_dec (val (assign_var i j)) 1) as [-> | Hne].
  - cbn. apply Qmult_1_r.
  - assert (H0 : val (assign_var i j) = 0) by lia. rewrite H0. cbn.
    apply Qmult_0_r.
Qed.

(** X26. After an optimal solve [total_cost] is the sum of the [cost] of the
    returned assignments (as rationals: floating-point rounding is not
    modelled). *)
Theorem assignment_total_cost_is_the_sum_of_the_entry_costs :
  forall (B : Backend) (self : ContainerOptimizer)
         (containers : list container_data) (demands : list demand_data)
         asg un unmet (tc : Q) log,
    sound B ->
    optimize_assignment B self containers demands
    = (AssignmentResult asg un (Some unmet) (Some tc), log) ->
    (tc == assignments_cost asg)%Q.
Proof.
  intros B self containers demands asg un unmet tc log Hsound Hrun.
  destruct (optimize_assignment_solved _ _ _ _ _ _ _ _ _ Hrun)
    as (m & val & Hm & Hsolve & Hval & Hentries & _ & _ & Htc & _).
  injection Htc as ->.
  exact (feasible_total_cost _ _ _ _ _ _ Hm (Hsound _ _ Hsolve Hval) Hentries).
Qed.

Lemma assignment_total_cost_is_the_sum_of_the_entry_costs_witness :
  exists asg un unmet tc log,
    optimize_assignment (checking_backend sample_matching) sample_network
      [sample_container; odd_container] [sample_demand]
    = (AssignmentResult asg un (Some unmet) (Some tc), log)
    /\ List.length asg = 1%nat
    /\ (tc == assignments_cost asg)%Q.
Proof.
  do 5 eexists. split; [vm_compute; reflexivity|]. split; [reflexivity|].
  exact (assignment_total_cost_is_the_sum_of_the_entry_costs
           (checking_backend sample_matching) sample_network
           [sample_container; odd_container] [sample_demand] _ _ _ _ _
           (checking_backend_sound sample_matching)
           ltac:(vm_compute; reflexivity)).
Defined.

(* ================================================================== *)
(** * The total cost of a redistribution *)
(* ================================================================== *)

Lemma flat_map_ext_In {A B} (f g : A -> list B) (l : list A) :
  (forall x, In x l -> f x = g x) -> flat_map f l = flat_map g l.
Proof.
  induction l as [|a l IH]; intros H; cbn; [reflexivity|].
  rewrite (H a) by now left. rewrite IH; [reflexivity|].
  intros x Hx. apply H. now right.
Qed.

Lemma plan_cost_extracted (self : ContainerOptimizer) (m : MPModel)
    (val : var -> Z) :
  plan_cost self
    (rs_storage_plan (_extract_redistribution_solution m val
                        (port_names self) (container_types self)))
  = qsum (map (fun cv : Q * var => (fst cv * inject_Z (val (snd cv)))%Q)
              (storage_cost_terms self (container_types self))).
Proof.
  unfold plan_cost, storage_cost_terms. f_equal.
  cbn [rs_storage_plan _extract_redistribution_solution].
  rewrite map_of_flat_map. apply flat_map_ext_In. intros [p obj] Hitem.
  cbn [fst snd]. unfold extract_storage_plan, dict.
  assert (Hp : In p (port_names self)).
  { unfold port_names, keys. apply in_map_iff. now exists (p, obj). }
  rewrite (dict_lookup_built (V := list (string * list Z))
             (fun port => map (fun ctype =>
                (ctype, map (fun t => val (storage_var port ctype t)) days))
                (container_types self))
             (port_names self) p Hp).
  rewrite flat_map_map, map_of_flat_map. apply flat_map_ext. intros c.
  cbn [snd]. now rewrite !map_map.
Qed.

Lemma relocations_cost_cell (self : ContainerOptimizer) (val : var -> Z)
    (f to c : string) (t : nat) :
  0 <= val (flow_var f to c t) ->
  (qsum (map (fun r =>
          specified_route_cost (routes self) (re_from_port r) (re_to_port r)
          * inject_Z (re_quantity r))
        (relocation_of val f to c t))
   == specified_route_cost (routes self) f to * inject_Z (val (flow_var f to c t)))%Q.
Proof.
  intros Hnn. unfold relocation_of.
  destruct (0 <? val (flow_var f to c t)) eqn:Hpos; cbn.
  - apply Qplus_0_r.
  - apply Z.ltb_ge in Hpos.
    assert (H0 : val (flow_var f to c t) = 0) by lia. rewrite H0.
    symmetry. apply Qmult_0_r.
Qed.

Lemma relocations_cost_extracted (self : ContainerOptimizer) (m : MPModel)
    (val : var -> Z) :
  (forall f to c t,
      In f (port_names self) -> In to (port_names self) -> f <> to ->
      In c (container_types self) -> In t days ->
      0 <= val (flow_var f to c t)) ->
  (relocations_cost self
     (rs_relocations (_extract_redistribution_solution m val
                        (port_names self) (container_types self)))
   == qsum (map (fun cv : Q * var => fst cv * inject_Z (val (snd cv)))
                (transport_cost_terms self (port_names self)
                   (container_types self))))%Q.
Proof.
  intros Hnn. unfold relocations_cost, transport_cost_terms.
  cbn [rs_relocations _extract_redistribution_solution].
  unfold extract_relocations.
  rewrite !map_of_flat_map, !qsum_flat_map.
  apply qsum_map_ext. intros f Hf.
  rewrite !map_of_flat_map, !qsum_flat_map.
  apply qsum_map_ext. intros to Hto.
  destruct (String.eqb_spec f to) as [|Hne]; [reflexivity|].
  rewrite !map_of_flat_map, !qsum_flat_map.
  apply qsum_map_ext. intros c Hc.
  rewrite map_of_flat_map, qsum_flat_map, map_map. cbn [fst snd].
  apply qsum_map_ext. intros t Ht.
  rewrite relocations_cost_cell by now apply Hnn.
  unfold specified_route_cost. rewrite <- route_loop_first_match. reflexivity.
Qed.

(** X27. The [total_cost] of a returned solution is the storage cost of the
    returned plan (every planned storage at the storage cost per day of its
    port) plus the transport cost of the returned relocations (each quantity
    at the transport cost of the first route matching its pair, or at 50
    when no route matches), as rationals. *)
Theorem redistribution_total_cost_is_storage_plus_transport :
  forall (B : Backend) (self : ContainerOptimizer)
         (sol : redistribution_solution) (log : list event),
    sound B ->
    optimize_container_redistribution B self = (RedistributionResult sol, log) ->
    (rs_total_cost sol
     == plan_cost self (rs_storage_plan sol)
        + relocations_cost self (rs_relocations sol))%Q.
Proof.
  intros B self sol log Hsound Hrun.
  destruct (optimize_container_redistribution_inv _ _ _ _ Hrun)
    as (val & Hsolve & Hval & ->).
  pose proof (Hsound _ _ Hsolve Hval) as Hfeas.
  rewrite plan_cost_extracted.
  rewrite (relocations_cost_extracted self _ val
             (optimal_flows_nonnegative self val Hfeas)).
  cbn [rs_total_cost _extract_redistribution_solution].
  unfold objective_value. cbn [objective redistribution_model].
  change (fold_right Qplus (0#1)%Q) with qsum.
  rewrite map_app. apply qsum_app.
Qed.

(** One container moved on the route A -> B costs the 12.5 of that route;
    two containers moved from B to A, a pair without a route, cost 50 each,
    and the 14 container days they then spend at A cost 2 each. *)
Lemma redistribution_total_cost_is_storage_plus_transport_witness :
  (exists sol log,
      optimize_container_redistribution (checking_backend sample_plan)
        sample_network
      = (RedistributionResult sol, log)
      /\ (relocations_cost sample_network (rs_relocations sol) == 25#2)%Q
      /\ (rs_total_cost sol
          == plan_cost sample_network (rs_storage_plan sol)
             + relocations_cost sample_network (rs_relocations sol))%Q)
  /\ (exists sol log,
         optimize_container_redistribution (checking_backend return_plan)
           return_network
         = (RedistributionResult sol, log)
         /\ (relocations_cost return_network (rs_relocations sol) == 100#1)%Q
         /\ (plan_cost return_network (rs_storage_plan sol) == 28#1)%Q
         /\ (rs_total_cost sol == 128#1)%Q).
Proof.
  split.
  - do 2 eexists. split; [vm_compute; reflexivity|]. split; [reflexivity|].
    exact (redistribution_total_cost_is_storage_plus_transport
             (checking_backend sample_plan) sample_network _ _
             (checking_backend_sound sample_plan)
             ltac:(vm_compute; reflexivity)).
  - do 2 eexists. split; [vm_compute; reflexivity|].
    split; [reflexivity|]. split; [reflexivity|].
    eapply Qeq_trans.
    + exact (redistribution_total_cost_is_storage_plus_transport
               (checking_backend return_plan) return_network _ _
               (checking_backend_sound return_plan)
               ltac:(vm_compute; reflexivity)).
    + vm_compute. reflexivity.
Defined.

(* ================================================================== *)
(** * An optimal assignment *)
(* ================================================================== *)

Lemma qsum_nonneg (l : list Q) :
  (forall x, In x l -> (0 <= x)%Q) -> (0 <= qsum l)%Q.
Proof.
  induction l as [|a l IH]; intros H; cbn; [apply Qle_refl|].
  change (0#1)%Q with (0 + 0)%Q. apply Qplus_le_compat.
  - apply H. now left.
  - apply IH. intros x Hx. apply H. now right.
Qed.

Lemma qsum_positive (l : list Q) :
  l <> [] -> (forall x, In x l -> (0 < x)%Q) -> (0 < qsum l)%Q.
Proof.
  destruct l as [|a l]; [congruence|]. intros _ H. cbn.
  change (0#1)%Q with (0 + 0)%Q. apply Qplus_lt_le_compat.
  - apply H. now left.
  - apply qsum_nonneg. intros x Hx. apply Qlt_le_weak, H. now right.
Qed.

Lemma inject_Z_nonneg (z : Z) : 0 <= z -> (0 <= inject_Z z)%Q.
Proof. intros H. unfold Qle. cbn. lia. Qed.

Lemma objective_value_nothing (m : MPModel) :
  (objective_value m nothing == 0)%Q.
Proof.
  unfold objective_value. induction (objective m) as [|cv l IH]; cbn;
    [reflexivity|].
  rewrite IH. unfold nothing. rewrite Qmult_0_r. reflexivity.
Qed.

Lemma var_eqb_eq (a b : var) : var_eqb a b = true -> a = b.
Proof.
  destruct a, b; cbn; try discriminate; intros H.
  - apply andb_prop in H as [H H4]. apply andb_prop in H as [H H3].
    apply andb_prop in H as [H1 H2].
    apply String.eqb_eq in H1, H2, H3. apply Nat.eqb_eq in H4. congruence.
  - apply andb_prop in H as [H H3]. apply andb_prop in H as [H1 H2].
    apply String.eqb_eq in H1, H2. apply Nat.eqb_eq in H3. congruence.
  - apply andb_prop in H as [H1 H2]. apply Nat.eqb_eq in H1, H2. congruence.
Qed.

Lemma frugal_backend_sound : sound frugal_backend.
Proof.
  intros m val Hs Hv. cbn in Hs, Hv. injection Hv as <-.
  destruct (feasibleb m nothing); [reflexivity | discriminate].
Qed.

Lemma frugal_backend_optimal : optimal frugal_backend.
Proof.
  intros m val val' Hs Hv Hfeas. cbn in Hs, Hv. injection Hv as <-.
  destruct (feasibleb m nothing && cannot_gain m) eqn:Hok; [|discriminate].
  apply andb_prop in Hok as [_ Hgain].
  rewrite objective_value_nothing. unfold objective_value.
  change (fold_right Qplus (0#1)%Q) with qsum. apply qsum_nonneg.
  intros x Hx. apply in_map_iff in Hx as [cv [<- Hcv]].
  unfold cannot_gain in Hgain. rewrite forallb_forall in Hgain.
  specialize (Hgain cv Hcv). apply andb_prop in Hgain as [Hcoef Hvar].
  apply Qle_bool_iff in Hcoef.
  apply existsb_exists in Hvar as [[v [lb ub]] [Hin Hb]]. cbn in Hb.
  apply andb_prop in Hb as [Hv Hlb]. apply var_eqb_eq in Hv. subst v.
  pose proof (feasible_bounds m val' _ lb ub Hfeas Hin) as Hbound.
  apply Qmult_le_0_compat; [assumption|]. apply inject_Z_nonneg. lia.
Qed.

Lemma compatibility_constraints_shape
    (containers : list container_data) (demands : list demand_data)
    (compat : list constraint) :
  compatibility_constraints containers demands = Return compat ->
  forall c, In c compat ->
    exists i j, c = CEq (LVar (assign_var i j)) (LConst 0).
Proof.
  unfold compatibility_constraints. intros H c Hc.
  destruct (mapM _ (enumerate containers)) as [rows|e] eqn:Hrows; cbn in H;
    [|discriminate].
  injection H as <-. apply in_concat in Hc as [row [Hrow Hc]].
  destruct (mapM_In_inv _ _ _ Hrows _ Hrow) as [ic [_ Hic]]. cbn in Hic.
  destruct (mapM _ (enumerate demands)) as [cells|e] eqn:Hcells; cbn in Hic;
    [|discriminate].
  injection Hic as <-. apply in_concat in Hc as [cell [Hcell Hc]].
  destruct (mapM_In_inv _ _ _ Hcells _ Hcell) as [jd [_ Hjd]]. cbn in Hjd.
  destruct (getitem "type" (cd_type (snd ic))); cbn in Hjd; [|discriminate].
  destruct (getitem "required_type" (dd_required_type (snd jd))); cbn in Hjd;
    [|discriminate].
  injection Hjd as <-. destruct (_is_compatible a a0); [destruct Hc|].
  destruct Hc as [<- | []]. eauto.
Qed.

(** Assigning nothing is always allowed. *)
Lemma nothing_is_feasible (self : ContainerOptimizer)
    (containers : list container_data) (demands : list demand_data)
    (m : MPModel) :
  assignment_model self containers demands = Return m ->
  feasibleb m nothing = true.
Proof.
  unfold assignment_model. intros Hm.
  destruct (assignment_objective self containers demands) as [terms|e];
    cbn in Hm; [|discriminate].
  destruct (compatibility_constraints containers demands) as [compat|e] eqn:Hcompat;
    cbn in Hm; [|discriminate].
  injection Hm as <-. unfold feasibleb. cbn [int_vars constraints].
  assert (Hzero : forall vs, zsum (map nothing vs) = 0)
    by (intros vs; now apply zsum_map_zero).
  apply andb_true_intro. split; apply forallb_forall.
  - intros b Hb. unfold x_vars in Hb. apply in_flat_map in Hb as [i [_ Hb]].
    apply in_map_iff in Hb as [j [<- _]]. reflexivity.
  - intros c Hc. apply in_app_or in Hc as [Hc | Hc];
      [|apply in_app_or in Hc as [Hc | Hc]].
    + unfold container_constraints in Hc. apply in_map_iff in Hc as [i [<- _]].
      cbn. now rewrite Hzero.
    + unfold demand_constraints in Hc. apply in_map_iff in Hc as [j [<- _]].
      cbn. now rewrite Hzero.
    + destruct (compatibility_constraints_shape _ _ _ Hcompat c Hc)
        as (i & j & ->). reflexivity.
Qed.

Lemma not_assigned_nil {A} (l : list A) : not_assigned [] l = l.
Proof.
  unfold not_assigned, enumerate. cbn.
  assert (H : forall start,
             map snd (filter (fun _ : nat * A => true)
                             (combine (seq start (List.length l)) l)) = l).
  { induction l as [|a l IH]; intros start; cbn; [reflexivity|].
    now rewrite IH. }
  apply H.
Qed.

(** X28. With a solver that also keeps the optimality half of its contract,
    the [total_cost] of an assignment is never positive, because assigning
    nothing is always feasible and costs 0; and when every pairing of a
    container with a demand costs more than 0, nothing is assigned: every
    container comes back unassigned and every demand unmet, compatible or
    not. *)
Theorem optimal_assignment_never_costs :
  forall (B : Backend) (self : ContainerOptimizer)
         (containers : list container_data) (demands : list demand_data)
         asg un unmet (tc : Q) log,
    sound B -> optimal B ->
    optimize_assignment B self containers demands
    = (AssignmentResult asg un (Some unmet) (Some tc), log) ->
    (tc <= 0)%Q
    /\ (positive_costs self containers demands ->
        asg = [] /\ un = containers /\ unmet = demands).
Proof.
  intros B self containers demands asg un unmet tc log Hsound Hoptimal Hrun.
  destruct (optimize_assignment_solved _ _ _ _ _ _ _ _ _ Hrun)
    as (m & val & Hm & Hsolve & Hval & Hentries & Hun & Hunmet & Htc & _).
  injection Htc as ->.
  assert (Hle : (objective_value m val <= 0)%Q).
  { rewrite <- (objective_value_nothing m).
    apply (Hoptimal m val nothing Hsolve Hval).
    exact (nothing_is_feasible _ _ _ _ Hm). }
  split; [exact Hle|]. intros Hpos.
  assert (Hasg : asg = []).
  { destruct asg as [|entry rest] eqn:Hshape; [reflexivity | exfalso].
    rewrite <- Hshape in *.
    pose proof (feasible_total_cost _ _ _ _ _ _ Hm (Hsound _ _ Hsolve Hval)
                  Hentries) as Hsum.
    rewrite Hsum in Hle.
    assert (Hgt : (0 < assignments_cost asg)%Q).
    { unfold assignments_cost. apply qsum_positive.
      - rewrite Hshape. discriminate.
      - intros x Hx. apply in_map_iff in Hx as [e [<- He]].
        destruct (mapM_In_inv _ _ _ Hentries e He) as [[i j] [_ Hentry]].
        unfold entry_at, list_getitem in Hentry. cbn [fst snd] in Hentry.
        destruct (nth_error containers i) as [c|] eqn:Hc; cbn in Hentry;
          [|discriminate].
        destruct (nth_error demands j) as [d|] eqn:Hd; cbn in Hentry;
          [|discriminate].
        unfold assignment_entry_of in Hentry.
        destruct (getitem "id" (cd_id c)); cbn in Hentry; [|discriminate].
        destruct (getitem "id" (dd_id d)); cbn in Hentry; [|discriminate].
        destruct (getitem "current_port" (cd_current_port c)); cbn in Hentry;
          [|discriminate].
        destruct (getitem "port" (dd_port d)); cbn in Hentry; [|discriminate].
        destruct (getitem "type" (cd_type c)); cbn in Hentry; [|discriminate].
        destruct (_calculate_assignment_cost self c d) as [cost|e'] eqn:Hcost;
          cbn in Hentry; [|discriminate].
        injection Hentry as <-. cbn [ae_cost].
        apply (Hpos c d cost); try assumption.
        + eapply nth_error_In; eassumption.
        + eapply nth_error_In; eassumption. }
    exact (Qlt_not_le _ _ Hgt Hle). }
  split; [exact Hasg|]. subst asg.
  apply mapM_length in Hentries. cbn in Hentries.
  destruct (assigned_pairs val (List.length containers) (List.length demands));
    [|discriminate].
  cbn [map] in Hun, Hunmet.
  rewrite not_assigned_nil in Hun. rewrite not_assigned_nil in Hunmet.
  split; assumption.
Qed.

Lemma optimal_assignment_never_costs_witness :
  _is_compatible "20GP" "20GP" = true
  /\ exists tc log,
       optimize_assignment frugal_backend sample_network
         [sample_container] [sample_demand]
       = (AssignmentResult [] [sample_container] (Some [sample_demand])
            (Some tc), log)
       /\ (tc <= 0)%Q.
Proof.
  split; [reflexivity|].
  do 2 eexists. split; [vm_compute; reflexivity|].
  destruct (optimal_assignment_never_costs frugal_backend sample_network
              [sample_container] [sample_demand] _ _ _ _ _
              frugal_backend_sound frugal_backend_optimal
              ltac:(vm_compute; reflexivity)) as [Hle Hnone].
  destruct Hnone as (_ & _ & _).
  - intros c d cost [<- | []] [<- | []] Hcost. vm_compute in Hcost.
    injection Hcost as <-. reflexivity.
  - exact Hle.
Defined.

(* ================================================================== *)
(** * Two more facts about what is loaded and what is read *)
(* ================================================================== *)

(** X29. Whatever the payloads, the ports of an optimizer that was loaded
    once or twice have distinct names: a port declared again replaces the
    one of the same name. *)
Theorem loaded_port_names_are_distinct :
  forall (data data' : payload),
    NoDup (port_names (loaded data init))
    /\ NoDup (port_names (loaded data' (loaded data init))).
Proof.
  intros data data'.
  assert (H : NoDup (port_names (loaded data init))).
  { apply load_data_keeps_port_names_unique. constructor. }
  split; [exact H|]. now apply load_data_keeps_port_names_unique.
Qed.

Lemma lstm_demand_trim (p : Port.t) (t : nat) :
  (0 < t < time_horizon)%nat ->
  lstm_demand (trim_port p) t = lstm_demand p t.
Proof.
  unfold time_horizon. intros Ht. rewrite !lstm_demand_nth.
  unfold trim_port. cbn [Port.demand_forecast]. unfold days_one_to_six.
  destruct (Port.demand_forecast p) as [|z later]; [reflexivity|].
  destruct t as [|t']; [lia|]. cbn [nth]. rewrite nth_firstn.
  destruct (Nat.ltb_spec t' 6); [reflexivity | lia].
Qed.

Lemma trimmed_model (self : ContainerOptimizer) :
  redistribution_model (trimmed self) = redistribution_model self.
Proof.
  assert (Hnames : port_names (trimmed self) = port_names self).
  { unfold port_names, keys, trimmed. cbn. now rewrite map_map. }
  unfold redistribution_model. rewrite Hnames.
  change (container_types (trimmed self)) with (container_types self).
  f_equal.
  - f_equal. unfold storage_vars, trimmed. cbn [ports]. now rewrite flat_map_map.
  - f_equal. unfold storage_cost_terms, trimmed. cbn [ports].
    now rewrite flat_map_map.
  - f_equal; [|f_equal].
    + unfold conservation_constraints. unfold trimmed at 2. cbn [ports].
      rewrite flat_map_map. apply flat_map_ext. intros [p obj]. cbn [fst snd].
      apply flat_map_ext. intros c. apply map_ext_in. intros t Ht.
      apply In_days in Ht. unfold conservation.
      change (current_inventory (trimmed self) p c)
        with (current_inventory self p c).
      destruct t as [|t']; [reflexivity|].
      rewrite lstm_demand_trim by (unfold time_horizon in *; lia). reflexivity.
    + unfold capacity_constraints, trimmed. cbn [ports].
      now rewrite flat_map_map.
Qed.

(** X30. The redistribution reads of a forecast only the entries of the
    days 1 to 6: changing the entry of index 0, or adding or changing
    entries from index 7 on, changes neither the result nor what is
    printed. *)
Theorem redistribution_reads_forecast_days_one_to_six :
  forall (B : Backend) (self : ContainerOptimizer),
    optimize_container_redistribution B (trimmed self)
    = optimize_container_redistribution B self.
Proof.
  intros B self. unfold optimize_container_redistribution, starting_banner.
  assert (Hnames : port_names (trimmed self) = port_names self).
  { unfold port_names, keys, trimmed. cbn. now rewrite map_map. }
  rewrite trimmed_model, Hnames.
  change (container_types (trimmed self)) with (container_types self).
  change (containers (trimmed self)) with (containers self).
  reflexivity.
Qed.
